(** * SecureDrop: file validation, security scanning and the upload pipeline

    A shallow embedding of the validation and scanning core of the
    repository:

    - [FileValidator]   (lib/file-validator.ts)
    - [SecurityScanner] (lib/security-scanner.ts)
    - [SecureDropAPI]   (sdk/backend-api.ts)

    Modelling conventions.

    - JavaScript strings are Rocq [string]s.  The model is exact on ASCII
      text; [toLowerCase] only folds the letters A-Z.
    - A [File] is an in-memory blob: a name, a declared MIME type, the
      bytes and a modification time.  [size] is the number of bytes, and
      reading the bytes never fails.
    - Non-negative integral JavaScript numbers (sizes, counts, limits) are
      [N] or [nat]; the confidence score is an exact rational [Q].
    - Services of the JavaScript platform that the repository calls but
      does not implement (the regular-expression engine, the UTF-8
      decoder, [crypto.subtle.digest], [fetch], the clock) are the fields
      of a [Platform] record that every operation receives.
    - [throw] / [try ... catch] are modelled by the error type [Exc]. *)

From Stdlib Require Import String Ascii List Bool Arith NArith ZArith QArith Lia.
From Stdlib Require Import Qminmax DecimalString.
Import ListNotations.

Local Open Scope list_scope.
Local Open Scope string_scope.

(* ===================================================================== *)
(** ** JavaScript string and array primitives used by the code           *)
(* ===================================================================== *)

Module JS.

(** [String(n)] for a non-negative integer. *)
Definition string_of_N (n : N) : string :=
  NilZero.string_of_uint (N.to_uint n).

Definition string_of_nat (n : nat) : string :=
  NilZero.string_of_uint (Nat.to_uint n).

Definition lower_ascii (c : ascii) : ascii :=
  let n := nat_of_ascii c in
  if ((65 <=? n) && (n <=? 90))%nat then ascii_of_nat (n + 32) else c.

(** [s.toLowerCase()] *)
Fixpoint toLowerCase (s : string) : string :=
  match s with
  | EmptyString => EmptyString
  | String c r => String (lower_ascii c) (toLowerCase r)
  end.

(** [s.startsWith(p)] *)
Definition startsWith (s p : string) : bool := String.prefix p s.

(** [s.endsWith(suf)] *)
Definition endsWith (s suf : string) : bool :=
  (String.length suf <=? String.length s)%nat
  && String.eqb
       (String.substring (String.length s - String.length suf)
                         (String.length suf) s)
       suf.

(** [s.slice(0, -n)] *)
Definition slice_0_neg (n : nat) (s : string) : string :=
  String.substring 0 (String.length s - n) s.

(** [s.includes(sub)] *)
Fixpoint includes (s sub : string) : bool :=
  String.prefix sub s ||
  match s with
  | EmptyString => false
  | String _ r => includes r sub
  end.

(** [s.split(sep)] for a one-character separator: never the empty list. *)
Fixpoint split (sep : ascii) (s : string) : list string :=
  match s with
  | EmptyString => [EmptyString]
  | String c r =>
      if Ascii.eqb c sep then EmptyString :: split sep r
      else match split sep r with
           | h :: t => String c h :: t
           | [] => [String c EmptyString]
           end
  end.

(** [parts.pop()] on the result of a [split]: its last element. *)
Definition pop (parts : list string) : string := List.last parts EmptyString.

(** [xs.push(x)] *)
Definition push {A : Type} (xs : list A) (x : A) : list A := List.app xs [x].

(** [xs.push(...ys)] *)
Definition push_all {A : Type} (xs ys : list A) : list A := List.app xs ys.

(** [xs.join(sep)] *)
Fixpoint join (sep : string) (xs : list string) : string :=
  match xs with
  | [] => EmptyString
  | [x] => x
  | x :: rest => x ++ sep ++ join sep rest
  end.

(** [bytes[index] === byte] for every element of [signature], as in
    [signature.every((byte, index) => bytes[index] === byte)]: an index
    past the end of [bytes] reads [undefined] and compares unequal. *)
Fixpoint every_byte_matches (bytes : list Byte.byte) (signature : list N)
  {struct signature} : bool :=
  match signature with
  | [] => true
  | b :: sig' =>
      match bytes with
      | [] => false
      | x :: bytes' => N.eqb (Byte.to_N x) b && every_byte_matches bytes' sig'
      end
  end.

(** A [RegExp] literal: its source text and its flags. *)
Record RegExp := mkRegExp { source : string; flags : string }.

(** [re.toString()] *)
Definition RegExp_toString (re : RegExp) : string :=
  "/" ++ source re ++ "/" ++ flags re.

End JS.

(* ===================================================================== *)
(** ** Files, the platform, exceptions                                   *)
(* ===================================================================== *)

(** The DOM [File]: [file.name], [file.type], the bytes, [file.lastModified]. *)
Record File := mkFile {
  name : string;
  type : string;
  content : list Byte.byte;
  lastModified : Z
}.

(** [file.size] *)
Definition size (file : File) : N := N.of_nat (List.length (content file)).

(** [file.slice(0, n)] read into a [Uint8Array]. *)
Definition slice_bytes (n : nat) (file : File) : list Byte.byte :=
  List.firstn n (content file).

(** One threat reported by an external virus-scanning endpoint; a missing
    field is [None]. *)
Record RemoteThreat := mkRemoteThreat {
  remote_name : option string;
  remote_description : option string
}.

(** The JSON body answered by the endpoint: [result.clean], [result.threats]. *)
Record RemoteVerdict := mkRemoteVerdict {
  clean : bool;
  remote_threats : option (list RemoteThreat)
}.

(** Platform services.  [None] stands for a rejected promise or a thrown
    exception of the service. *)
Record Platform := mkPlatform {
  (** [pattern.test(text)] *)
  regex_test : JS.RegExp -> string -> bool;
  (** the length of [text.match(pattern)] for a global pattern; [0] for [null] *)
  regex_match_count : JS.RegExp -> string -> nat;
  (** [TextDecoder("utf-8", { fatal: false })] and [file.text()] *)
  utf8_decode : list Byte.byte -> string;
  (** [crypto.subtle.digest("SHA-256", buffer)] rendered in hexadecimal *)
  sha256_hex : list Byte.byte -> option string;
  (** [fetch(endpoint, { method: "POST", body })] with an [ok] response
      parsed as JSON *)
  fetch_verdict : string -> File -> option RemoteVerdict;
  (** [Date.now()]: the reading taken by the validator, and the two
      readings taken by a scan *)
  date_now : Z;
  scan_started : Z;
  scan_finished : Z
}.

(** The outcome of a computation that may [throw]. *)
Inductive Exc (A : Type) : Type :=
| Ok (a : A)
| Throw (message : string).
Arguments Ok {A} a.
Arguments Throw {A} message.

Definition exc_bind {A B} (m : Exc A) (k : A -> Exc B) : Exc B :=
  match m with
  | Ok a => k a
  | Throw e => Throw e
  end.

(** [try { body } catch (error) { handler }] *)
Definition try_catch {A} (body : Exc A) (handler : string -> Exc A) : Exc A :=
  match body with
  | Ok a => Ok a
  | Throw e => handler e
  end.

(* ===================================================================== *)
(** ** lib/file-validator.ts                                             *)
(* ===================================================================== *)

Module FileValidator.

Record FileValidationConfig := mkConfig {
  maxFileSize : N;
  allowedMimeTypes : list string;
  allowedExtensions : list string;
  maxFiles : N;
  requireHash : bool
}.

Record FileMetadata := mkMetadata {
  md_name : string;
  md_size : N;
  md_type : string;
  extension : string;
  hash : option string;
  md_lastModified : Z
}.

Record ValidationResult := mkResult {
  isValid : bool;
  errors : list string;
  warnings : list string;
  metadata : option FileMetadata
}.

(** [getFileExtension] *)
Definition getFileExtension (filename : string) : string :=
  let parts := JS.split "." filename in
  if (1 <? List.length parts)%nat then JS.toLowerCase (JS.pop parts)
  else "".

(** [isMatchingMimeType] *)
Definition isMatchingMimeType (fileType allowedType : string) : bool :=
  if JS.endsWith allowedType "/*" then
    let prefix := JS.slice_0_neg 2 allowedType in
    JS.startsWith fileType prefix
  else String.eqb fileType allowedType.

(** The [signatures] table of [validateMagicBytes]. *)
Definition signatures : list (string * list (list N)) :=
  [ ("image/jpeg", [[0xFF; 0xD8; 0xFF]]);
    ("image/png", [[0x89; 0x50; 0x4E; 0x47; 0x0D; 0x0A; 0x1A; 0x0A]]);
    ("image/gif", [[0x47; 0x49; 0x46; 0x38; 0x37; 0x61];
                   [0x47; 0x49; 0x46; 0x38; 0x39; 0x61]]);
    ("application/pdf", [[0x25; 0x50; 0x44; 0x46]]);
    ("text/plain", []) ]%N.

(** [signatures[file.type]] (own keys of the table). *)
Fixpoint lookup (key : string) (table : list (string * list (list N)))
  : option (list (list N)) :=
  match table with
  | [] => None
  | (k, v) :: rest => if String.eqb k key then Some v else lookup key rest
  end.

(** The record [{ isValid, error }] answered by [validateMagicBytes]. *)
Record MagicByteResult := mkMagic {
  magic_isValid : bool;
  magic_error : option string
}.

(** [validateMagicBytes].  Its [catch] block (Could not read file
    signature) needs a read that fails, which an in-memory file never
    does, so the function always answers from the [try] block. *)
Definition validateMagicBytes (file : File) : MagicByteResult :=
  let bytes := slice_bytes 16 file in
  if String.eqb (type file) "" || String.eqb (type file) "application/octet-stream"
  then mkMagic true None
  else
    match lookup (type file) signatures with
    | None => mkMagic true None
    | Some expectedSignatures =>
        if (List.length expectedSignatures =? 0)%nat then mkMagic true None
        else
        let isValid :=
          List.existsb (fun signature => JS.every_byte_matches bytes signature)
                       expectedSignatures in
        mkMagic isValid
          (if isValid then None
           else Some ("File signature does not match expected type " ++ type file))
    end.

(** [parseFloat((bytes / Math.pow(k, i)).toFixed(2))] printed as a
    string.  [bytes / unit] is exact in binary floating point because
    [unit] is a power of two; [toFixed(2)] rounds the exact value to
    hundredths, ties upwards; printing the parsed number drops trailing
    zeros. *)
Definition hundredths (bytes unit : N) : N :=
  ((200 * bytes + unit) / (2 * unit))%N.

Definition show_hundredths (h : N) : string :=
  let whole := (h / 100)%N in
  let frac := (h mod 100)%N in
  JS.string_of_N whole ++
  (if (frac =? 0)%N then ""
   else "." ++ JS.string_of_N (frac / 10)%N ++
        (if (frac mod 10 =? 0)%N then "" else JS.string_of_N (frac mod 10)%N)).

Definition sizes : list string := ["B"; "KB"; "MB"; "GB"].

(** [formatBytes].  [Math.floor(Math.log(bytes) / Math.log(k))] is
    taken over the reals, where it is [floor(log2 bytes) / log2 k].
    [sizes[i]] past the end of the array is [undefined], which string
    concatenation prints as the word undefined. *)
Definition formatBytes (bytes : N) : string :=
  if (bytes =? 0)%N then "0 B"
  else
    let k := 1024%N in
    let i := (N.log2 bytes / N.log2 k)%N in
    show_hundredths (hundredths bytes (k ^ i)%N) ++ " " ++
    List.nth (N.to_nat i) sizes "undefined".

Section WithPlatform.
Context (P : Platform).

(** [generateFileHash]: the digest, or an exception of the platform. *)
Definition generateFileHash (file : File) : Exc string :=
  match sha256_hex P (content file) with
  | Some h => Ok h
  | None => Throw "digest failed"
  end.

(** [validateFile].  The successive [let]s follow the successive
    [errors.push] / [warnings.push] of the source.  [validateMagicBytes]
    never throws, so the warning of the [catch] around its call is never
    pushed. *)
Definition validateFile (config : FileValidationConfig) (file : option File)
  : ValidationResult :=
  match file with
  | None => mkResult false ["File is required"] [] None
  | Some file =>
      if String.eqb (name file) "" then
        mkResult false ["File name is required"] [] None
      else
        let metadata :=
          mkMetadata (name file) (size file) (type file)
                     (getFileExtension (name file)) None
                     (if (lastModified file =? 0)%Z then date_now P
                      else lastModified file) in
        let errors : list string := [] in
        let warnings : list string := [] in
        (* Size validation *)
        let errors :=
          if (maxFileSize config <? size file)%N then
            JS.push errors
              ("File size " ++ formatBytes (size file) ++
               " exceeds maximum allowed size " ++
               formatBytes (maxFileSize config))
          else errors in
        (* MIME type validation *)
        let errors :=
          if (0 <? List.length (allowedMimeTypes config))%nat then
            let isAllowedMime :=
              List.existsb (fun allowedType =>
                              isMatchingMimeType (type file) allowedType)
                           (allowedMimeTypes config) in
            if negb isAllowedMime then
              JS.push errors
                ("File type " ++ type file ++
                 " is not allowed. Allowed types: " ++
                 JS.join ", " (allowedMimeTypes config))
            else errors
          else errors in
        (* Extension validation *)
        let errors :=
          if (0 <? List.length (allowedExtensions config))%nat then
            if negb (List.existsb
                       (String.eqb (JS.toLowerCase (extension metadata)))
                       (allowedExtensions config)) then
              JS.push errors
                ("File extension " ++ extension metadata ++
                 " is not allowed. Allowed extensions: " ++
                 JS.join ", " (allowedExtensions config))
            else errors
          else errors in
        (* Magic byte validation *)
        let magicByteResult := validateMagicBytes file in
        let errors :=
          if negb (magic_isValid magicByteResult) then
            JS.push errors
              (match magic_error magicByteResult with
               | Some e => e
               | None => "File signature validation failed"
               end)
          else errors in
        (* Generate hash if required *)
        let '(metadata, warnings) :=
          if requireHash config then
            match generateFileHash file with
            | Ok h =>
                (mkMetadata (md_name metadata) (md_size metadata)
                            (md_type metadata) (extension metadata) (Some h)
                            (md_lastModified metadata),
                 warnings)
            | Throw _ => (metadata, JS.push warnings "Could not generate file hash")
            end
          else (metadata, warnings) in
        mkResult (List.length errors =? 0)%nat errors warnings (Some metadata)
  end.

(** The label [`File ${index + 1} (${files[index]?.name || 'unknown'}): `]. *)
Definition file_label (index : nat) (file : option File) : string :=
  "File " ++ JS.string_of_nat (index + 1) ++ " (" ++
  (match file with
   | Some f => if String.eqb (name f) "" then "unknown" else name f
   | None => "unknown"
   end) ++ "): ".

(** [validateFiles] *)
Definition validateFiles (config : FileValidationConfig)
           (files : list (option File)) : ValidationResult :=
  let allErrors : list string :=
    if (maxFiles config <? N.of_nat (List.length files))%N then
      ["Too many files. Maximum allowed: " ++ JS.string_of_N (maxFiles config) ++
       ", provided: " ++ JS.string_of_nat (List.length files)]
    else [] in
  let results := List.map (validateFile config) files in
  let indexed :=
    List.combine (List.seq 0 (List.length results))
                 (List.combine files results) in
  let allErrors :=
    JS.push_all allErrors (List.flat_map
      (fun '(index, (file, result)) =>
         if negb (isValid result) then
           List.map (fun error => file_label index file ++ error) (errors result)
         else [])
      indexed) in
  let allWarnings :=
    List.flat_map
      (fun '(index, (file, result)) =>
         List.map (fun warning => file_label index file ++ warning)
                  (warnings result))
      indexed in
  mkResult (List.length allErrors =? 0)%nat allErrors allWarnings None.

End WithPlatform.

(** [DEFAULT_CONFIGS] *)
Definition IMAGE_ONLY : FileValidationConfig :=
  mkConfig (5 * 1024 * 1024) ["image/*"]
           ["jpg"; "jpeg"; "png"; "gif"; "webp"] 10 true.

Definition DOCUMENT_ONLY : FileValidationConfig :=
  mkConfig (10 * 1024 * 1024) ["application/pdf"; "text/*"]
           ["pdf"; "txt"; "doc"; "docx"] 5 true.

Definition GENERAL : FileValidationConfig :=
  mkConfig (10 * 1024 * 1024) ["image/*"; "application/pdf"; "text/*"]
           ["jpg"; "jpeg"; "png"; "gif"; "webp"; "pdf"; "txt"] 10 true.

End FileValidator.


(* ===================================================================== *)
(** ** lib/security-scanner.ts                                           *)
(* ===================================================================== *)

Module SecurityScanner.

Inductive ThreatType :=
| virus | malware | injection | suspicious_content | yara_match.

Inductive Severity := low | medium | high | critical.

Definition Severity_eqb (a b : Severity) : bool :=
  match a, b with
  | low, low | medium, medium | high, high | critical, critical => true
  | _, _ => false
  end.

Record SecuritySignature := mkSignature {
  sig_name : string;
  pattern : JS.RegExp;
  sig_severity : Severity;
  sig_description : string
}.

Record SecurityScanConfig := mkScanConfig {
  enableVirusScanning : bool;
  enableInjectionDetection : bool;
  enableYaraScanning : bool;
  enableSandboxing : bool;
  virusScannerEndpoint : option string;
  yaraRules : option (list string);
  customSignatures : option (list SecuritySignature);
  suspiciousPatterns : option (list JS.RegExp)
}.

Record SecurityThreat := mkThreat {
  threat_type : ThreatType;
  threat_name : string;
  severity : Severity;
  description : string;
  signature : option string;
  offset : option N
}.

Record SecurityScanResult := mkScanResult {
  isClean : bool;
  threats : list SecurityThreat;
  scanTime : Z;
  scanner : string;
  confidence : Q;
  quarantined : bool
}.

(** [initializeDefaultSignatures] *)
Definition initializeDefaultSignatures : list SecuritySignature :=
  [ mkSignature "Base64 Encoded Executable"
      (JS.mkRegExp "TVqQAAMAAAAEAAAA" "g")
      high "File contains base64 encoded executable";
    mkSignature "Suspicious PowerShell"
      (JS.mkRegExp "(Invoke-Expression|IEX|DownloadString|EncodedCommand)" "gi")
      high "File contains suspicious PowerShell commands";
    mkSignature "Obfuscated JavaScript"
      (JS.mkRegExp "eval\s*\(\s*unescape\s*\(|String\.fromCharCode|\\x[0-9a-f]{2}" "gi")
      medium "File contains obfuscated JavaScript";
    mkSignature "Suspicious Registry Access"
      (JS.mkRegExp
         "HKEY_(LOCAL_MACHINE|CURRENT_USER)\\Software\\Microsoft\\Windows\\CurrentVersion\\Run"
         "gi")
      high "File contains registry autostart entries" ].

(** [matchesSignature] *)
Definition matchesSignature (bytes : list Byte.byte) (signature : list N) : bool :=
  if (List.length bytes <? List.length signature)%nat then false
  else JS.every_byte_matches bytes signature.

(** [matchesYaraRule] *)
Definition matchesYaraRule (content : list Byte.byte) (rule : string) : bool :=
  JS.includes rule "malware" && (0 <? List.length content)%nat.

(** One entry of [executableSignatures]. *)
Record ExecutableSignature := mkExe {
  exe_signature : list N;
  exe_name : string;
  exe_severity : Severity
}.

Definition executableSignatures : list ExecutableSignature :=
  [ mkExe [0x4d; 0x5a]%N "Windows PE Executable" critical;
    mkExe [0x7f; 0x45; 0x4c; 0x46]%N "Linux ELF Executable" critical;
    mkExe [0xfe; 0xed; 0xfa; 0xce]%N "Mach-O Executable" critical;
    mkExe [0xca; 0xfe; 0xba; 0xbe]%N "Java Class File" high;
    mkExe [0x50; 0x4b; 0x03; 0x04]%N "ZIP Archive (potential)" medium ].

Definition scriptPatterns : list JS.RegExp :=
  [ JS.mkRegExp "<script[^>]*>" "i";
    JS.mkRegExp "javascript:" "i";
    JS.mkRegExp "vbscript:" "i";
    JS.mkRegExp "on\w+\s*=" "i";
    JS.mkRegExp "<iframe[^>]*>" "i";
    JS.mkRegExp "<embed[^>]*>" "i";
    JS.mkRegExp "<object[^>]*>" "i" ].

(** One entry of [injectionPatterns]. *)
Record InjectionPattern := mkInjection {
  inj_pattern : JS.RegExp;
  inj_name : string;
  inj_severity : Severity;
  inj_description : string
}.

Definition injectionPatterns : list InjectionPattern :=
  [ mkInjection
      (JS.mkRegExp
         "(\bSELECT\b|\bINSERT\b|\bUPDATE\b|\bDELETE\b|\bDROP\b|\bUNION\b).*(\bFROM\b|\bWHERE\b|\bINTO\b)"
         "gi")
      "SQL Injection" high "File contains potential SQL injection patterns";
    mkInjection
      (JS.mkRegExp "<\s*script[^>]*>.*?<\/\s*script\s*>" "gi")
      "Cross-Site Scripting (XSS)" high
      "File contains script tags that could execute malicious code";
    mkInjection
      (JS.mkRegExp "(\beval\b|\bexec\b|\bsystem\b|\bshell_exec\b|\bpassthru\b)\s*\(" "gi")
      "Code Injection" critical "File contains code execution functions";
    mkInjection
      (JS.mkRegExp "(\$\{|\#\{).*\}" "g")
      "Template Injection" medium "File contains template injection patterns";
    mkInjection
      (JS.mkRegExp "(cmd\.exe|powershell|bash|sh)\s+[\/\-]" "gi")
      "Command Injection" high "File contains command execution patterns" ].

(** The [suspiciousCombinations] of [analyzeFileStructure]: (ext, mime). *)
Definition suspiciousCombinations : list (string * string) :=
  [ ("txt", "application/octet-stream");
    ("jpg", "text/html");
    ("png", "text/javascript");
    ("pdf", "text/html") ].

(** [analyzeFileStructure] *)
Definition analyzeFileStructure (file : File) : list SecurityThreat :=
  let threats : list SecurityThreat := [] in
  let threats :=
    if (size file =? 0)%N then
      JS.push threats
        (mkThreat suspicious_content "Empty File" low
                  "File is empty which may be suspicious" None None)
    else threats in
  let extension := JS.toLowerCase (JS.pop (JS.split "." (name file))) in
  let mimeType := type file in
  List.fold_left
    (fun threats '(ext, mime) =>
       if String.eqb extension ext && String.eqb mimeType mime then
         JS.push threats
           (mkThreat suspicious_content "MIME Type Mismatch" medium
              ("File extension " ++ extension ++ " doesn't match MIME type " ++ mimeType)
              None None)
       else threats)
    suspiciousCombinations threats.

Section WithPlatform.
Context (P : Platform).

(** [validateMimeAndMagicBytes].  The loop over [scriptPatterns] stops at
    the first pattern that tests true, so it pushes one threat exactly
    when some pattern tests true. *)
Definition validateMimeAndMagicBytes (file : File) : list SecurityThreat :=
  let threats : list SecurityThreat := [] in
  let bytes := slice_bytes 64 file in
  let threats :=
    List.fold_left
      (fun threats sig =>
         if matchesSignature bytes (exe_signature sig) then
           if String.eqb (exe_name sig) "ZIP Archive (potential)" &&
              (String.eqb (type file) "application/zip" ||
               String.eqb (type file) "application/x-zip-compressed" ||
               JS.endsWith (JS.toLowerCase (name file)) ".zip")
           then threats
           else
             JS.push threats
               (mkThreat suspicious_content (exe_name sig) (exe_severity sig)
                  ("File contains " ++ exe_name sig ++
                   " signature but is disguised as " ++ type file)
                  None None)
         else threats)
      executableSignatures threats in
  let headerText := utf8_decode P bytes in
  if List.existsb (fun pattern => regex_test P pattern headerText) scriptPatterns
  then
    JS.push threats
      (mkThreat injection "Script Injection" high
                "File contains potentially malicious script code" None None)
  else threats.

(** [detectInjectionPatterns] *)
Definition detectInjectionPatterns (config : SecurityScanConfig) (file : File)
  : list SecurityThreat :=
  let threats : list SecurityThreat := [] in
  let text := utf8_decode P (content file) in
  let threats :=
    List.fold_left
      (fun threats ip =>
         let matches := regex_match_count P (inj_pattern ip) text in
         if (0 <? matches)%nat then
           JS.push threats
             (mkThreat injection (inj_name ip) (inj_severity ip)
                (inj_description ip ++ " (" ++ JS.string_of_nat matches ++
                 " matches found)")
                None None)
         else threats)
      injectionPatterns threats in
  match suspiciousPatterns config with
  | Some patterns =>
      List.fold_left
        (fun threats pattern =>
           if regex_test P pattern text then
             JS.push threats
               (mkThreat suspicious_content "Custom Pattern Match" medium
                         "File matches custom suspicious pattern" None None)
           else threats)
        patterns threats
  | None => threats
  end.

(** [scanWithYaraRules] *)
Definition scanWithYaraRules (config : SecurityScanConfig) (file : File)
  : list SecurityThreat :=
  let threats : list SecurityThreat := [] in
  match yaraRules config with
  | None => threats
  | Some rules =>
      let content := content file in
      List.fold_left
        (fun threats rule =>
           if matchesYaraRule content rule then
             JS.push threats
               (mkThreat yara_match ("YARA Rule: " ++ rule) high
                         ("File matches YARA rule: " ++ rule) None None)
           else threats)
        rules threats
  end.

(** [scanCustomSignatures] *)
Definition scanCustomSignatures (config : SecurityScanConfig) (file : File)
  : list SecurityThreat :=
  let threats : list SecurityThreat := [] in
  let text := utf8_decode P (content file) in
  let allSignatures :=
    List.app initializeDefaultSignatures
             (match customSignatures config with
              | Some custom => custom
              | None => []
              end) in
  List.fold_left
    (fun threats signature =>
       if regex_test P (pattern signature) text then
         JS.push threats
           (mkThreat suspicious_content (sig_name signature)
                     (sig_severity signature) (sig_description signature)
                     (Some (JS.RegExp_toString (pattern signature))) None)
       else threats)
    allSignatures threats.

(** [a || fallback] for an optional string: [undefined] and the empty
    string are both falsy. *)
Definition or_default (a : option string) (fallback : string) : string :=
  match a with
  | Some s => if String.eqb s "" then fallback else s
  | None => fallback
  end.

(** [scanForViruses]: a failure of the external call is swallowed. *)
Definition scanForViruses (config : SecurityScanConfig) (file : File)
  : list SecurityThreat :=
  let threats : list SecurityThreat := [] in
  match virusScannerEndpoint config with
  | None => threats
  | Some endpoint =>
      if String.eqb endpoint "" then threats
      else
        match fetch_verdict P endpoint file with
        | None => threats
        | Some result =>
            match remote_threats result with
            | Some reported =>
                if negb (clean result) then
                  List.fold_left
                    (fun threats threat =>
                       JS.push threats
                         (mkThreat virus
                            (or_default (remote_name threat) "Unknown Virus")
                            critical
                            (or_default (remote_description threat)
                                        "Virus detected by scanner")
                            None None))
                    reported threats
                else threats
            | None => threats
            end
        end
  end.

(** Reading a property of [this.config]: a [TypeError] when the scanner
    was constructed without a configuration, as
    [new SecurityScanner(SECURITY_CONFIGS[level])] is for a level that is
    not a key of the table. *)
Definition this_config (config : option SecurityScanConfig)
  : Exc SecurityScanConfig :=
  match config with
  | Some c => Ok c
  | None => Throw "TypeError: Cannot read properties of undefined"
  end.

(** The statements of the [try] block of [scanFile] up to the
    aggregation: the threats of all detector stages, in order. *)
Definition scanFile_detectors (config : option SecurityScanConfig) (file : File)
  : Exc (list SecurityThreat) :=
  let threats : list SecurityThreat := [] in
  (* 1. Magic byte and MIME validation *)
  let threats := JS.push_all threats (validateMimeAndMagicBytes file) in
  (* 2. Content-based injection detection *)
  exc_bind (this_config config) (fun config =>
  let threats :=
    if enableInjectionDetection config then
      JS.push_all threats (detectInjectionPatterns config file)
    else threats in
  (* 3. YARA rules scanning *)
  let threats :=
    if enableYaraScanning config &&
       (match yaraRules config with Some _ => true | None => false end) then
      JS.push_all threats (scanWithYaraRules config file)
    else threats in
  (* 4. Custom signature scanning *)
  let threats := JS.push_all threats (scanCustomSignatures config file) in
  (* 5. Virus scanning *)
  let threats :=
    if enableVirusScanning config then
      JS.push_all threats (scanForViruses config file)
    else threats in
  (* 6. Advanced file structure analysis *)
  let threats := JS.push_all threats (analyzeFileStructure file) in
  Ok threats).

(** The aggregation at the end of the [try] block. *)
Definition aggregate (threats : list SecurityThreat) : SecurityScanResult :=
  let criticalThreats :=
    List.filter (fun t => Severity_eqb (severity t) critical) threats in
  let highThreats :=
    List.filter (fun t => Severity_eqb (severity t) high) threats in
  let isClean :=
    (List.length criticalThreats =? 0)%nat && (List.length highThreats =? 0)%nat in
  let confidence :=
    Qmax 0 (1 - inject_Z (Z.of_nat (List.length threats)) * (1 # 10)) in
  mkScanResult isClean threats (scan_finished P - scan_started P)
               "SecureDrop Security Engine v1.0" confidence (negb isClean).

(** The result built by the [catch] block. *)
Definition scan_error_result : SecurityScanResult :=
  mkScanResult false
    [ mkThreat suspicious_content "Scan Error" medium
               "Could not complete security scan" None None ]
    (scan_finished P - scan_started P)
    "SecureDrop Security Engine v1.0" 0 true.

(** [scanFile] of a scanner constructed with [config]. *)
Definition scanFile (config : option SecurityScanConfig) (file : File)
  : Exc SecurityScanResult :=
  try_catch
    (exc_bind (scanFile_detectors config file)
              (fun threats => Ok (aggregate threats)))
    (fun _ => Ok scan_error_result).

End WithPlatform.

(** [SECURITY_CONFIGS] *)
Definition STRICT : SecurityScanConfig :=
  mkScanConfig true true true false None
               (Some ["malware.yar"; "suspicious.yar"]) None None.

Definition MODERATE : SecurityScanConfig :=
  mkScanConfig true true false false None None None None.

Definition BASIC : SecurityScanConfig :=
  mkScanConfig false true false false None None None None.

(** [SECURITY_CONFIGS[key]]: [undefined] for a key that is not a level. *)
Definition SECURITY_CONFIGS (key : string) : option SecurityScanConfig :=
  if String.eqb key "STRICT" then Some STRICT
  else if String.eqb key "MODERATE" then Some MODERATE
  else if String.eqb key "BASIC" then Some BASIC
  else None.

End SecurityScanner.


(* ===================================================================== *)
(** ** sdk/backend-api.ts                                                *)
(* ===================================================================== *)

Module SecureDropAPI.

Record FileMetadata := mkMetadata {
  md_name : string;
  md_size : N;
  md_type : string;
  md_hash : string;
  uploadedAt : Z;
  userId : string;
  fingerprint : string;
  ipAddress : string;
  userAgent : string
}.

(** [BackendUploadOptions]; [watermarkConfig] is [None] when absent and
    otherwise carries its [enabled] flag. *)
Record BackendUploadOptions := mkOptions {
  bucketName : string;
  expiryHours : Z;
  requireScan : bool;
  generateThumbnails : bool;
  watermarkConfig : option bool
}.

Record FileUploadResult := mkUploadResult {
  id : string;
  filename : string;
  originalFilename : string;
  fileSize : N;
  mimeType : string;
  filePath : string;
  fileHash : string;
  status : string;
  expiresAt : Z;
  securityScan : option SecurityScanner.SecurityScanResult
}.

(** The row handed to [createFileRecord]. *)
Record NewFileRecord := mkNewRecord {
  new_filename : string;
  new_originalFilename : string;
  new_fileSize : N;
  new_mimeType : string;
  new_filePath : string;
  new_fileHash : string;
  new_userId : string;
  new_status : string;
  new_expiresAt : Z;
  new_scan_result : option SecurityScanner.SecurityScanResult
}.

(** The record answered by the database, as [uploadFile] reads it. *)
Record FileRecord := mkRecord {
  rec_id : string;
  rec_filename : string;
  rec_originalFilename : string;
  rec_fileSize : N;
  rec_mimeType : string;
  rec_filePath : string;
  rec_fileHash : string
}.

Inductive AuditDetails :=
| RejectedDetails (file_name : string) (errors : list string)
| ThreatDetails (file_name : string)
                (threats : list SecurityScanner.SecurityThreat)
                (scanTime : Z) (confidence : Q)
| SuccessDetails (file_name : string) (fileSize : N) (securityScanPassed : bool)
| ErrorDetails (error : string) (file_name : string).

(** The sanitized row written by [AuditLogger.log]: an empty identifier
    becomes [None] (null). *)
Record AuditRow := mkAuditRow {
  action : string;
  resource_type : string;
  resource_id : option string;
  user_id : option string;
  details : AuditDetails
}.

(** The lifecycle hooks.  A hook is a callback of the caller and may
    throw. *)
Record LifecycleHooks := mkHooks {
  beforeUpload : option (File -> FileMetadata -> Exc bool);
  afterValidation : option (File -> FileValidator.ValidationResult -> Exc unit);
  beforeScan : option (File -> Exc bool);
  afterScan : option (File -> SecurityScanner.SecurityScanResult -> Exc unit);
  beforeStore : option (File -> FileMetadata -> Exc FileMetadata);
  afterStore : option (FileUploadResult -> Exc unit);
  onError : option (string -> string -> Exc unit)
}.

(** [hooks = {}] *)
Definition no_hooks : LifecycleHooks :=
  mkHooks None None None None None None None.

(** The collaborators behind the API: authentication, the storage
    backend, the database, and the values drawn from [Math.random()]. *)
Record Backend := mkBackend {
  auth_user : option string;
  device_fingerprint : string;
  client_ip : string;
  client_user_agent : string;
  random_path_id : string;
  random_name_id : string;
  storage_upload : File -> string -> Exc string;
  insert_file_record : NewFileRecord -> Exc FileRecord
}.

(** What one run of the pipeline did, in order. *)
Inductive Event :=
| HookCalled (hook : string)
| ScannerRun (file : File)
| AuditLogged (row : AuditRow)
| Stored (path : string)
| RecordCreated (row : NewFileRecord)
| ThumbnailsGenerated (file_id : string)
| WatermarkApplied (file_id : string).

(** The state of one call of [uploadFile]: the trace so far and the local
    variable [metadata], declared before the [try] block and read again by
    the [catch] block. *)
Record Run := mkRun {
  trace : list Event;
  metadata : option FileMetadata
}.

Definition start : Run := mkRun [] None.

(** Computations of the pipeline: they update the run and may throw. *)
Definition M (A : Type) : Type := Run -> Run * Exc A.

Definition ret {A} (a : A) : M A := fun run => (run, Ok a).

Definition bind {A B} (m : M A) (k : A -> M B) : M B :=
  fun run =>
    match m run with
    | (run', Ok a) => k a run'
    | (run', Throw e) => (run', Throw e)
    end.

Definition throw {A} (e : string) : M A := fun run => (run, Throw e).

Definition emit (ev : Event) : M unit :=
  fun run => (mkRun (JS.push (trace run) ev) (metadata run), Ok tt).

(** [metadata = value] *)
Definition assign_metadata (value : FileMetadata) : M unit :=
  fun run => (mkRun (trace run) (Some value), Ok tt).

Definition read_metadata : M (option FileMetadata) :=
  fun run => (run, Ok (metadata run)).

Definition lift {A} (x : Exc A) : M A := fun run => (run, x).

Definition catch {A} (m : M A) (handler : string -> M A) : M A :=
  fun run =>
    match m run with
    | (run', Ok a) => (run', Ok a)
    | (run', Throw e) => handler e run'
    end.

Declare Scope pipeline_scope.
Delimit Scope pipeline_scope with pipeline.
Notation "x <- m ;; k" := (bind m (fun x => k))
  (at level 61, m at next level, right associativity) : pipeline_scope.
Notation "m ;; k" := (bind m (fun _ => k))
  (at level 61, right associativity) : pipeline_scope.
Local Open Scope pipeline_scope.

(** [a || null] in [AuditLogger.log]. *)
Definition non_empty (s : string) : option string :=
  if String.eqb s "" then None else Some s.

(** [AuditLogger.log]: failures of the insert are logged to the console
    and never thrown. *)
Definition audit_log (action resourceId userId : string) (details : AuditDetails)
  : M unit :=
  emit (AuditLogged (mkAuditRow action "file" (non_empty resourceId)
                                (non_empty userId) details)).

(** [generateFilePath] *)
Definition generateFilePath (timestamp : Z) (randomId userId filename : string)
  : string :=
  let extension := JS.pop (JS.split "." filename) in
  userId ++ "/" ++ JS.string_of_N (Z.to_N timestamp) ++ "-" ++ randomId ++
  "." ++ extension.

(** [originalFilename.replace(/\.[^/.]+$/, "")]: the last dot and what
    follows it are removed when what follows is not empty and holds no
    slash. *)
Definition strip_extension (originalFilename : string) : string :=
  let parts := JS.split "." originalFilename in
  let last := JS.pop parts in
  if (1 <? List.length parts)%nat && negb (String.eqb last "")
     && negb (JS.includes last "/")
  then JS.join "." (List.removelast parts)
  else originalFilename.

(** [generateUniqueFilename] *)
Definition generateUniqueFilename (timestamp : Z) (randomId originalFilename : string)
  : string :=
  let extension := JS.pop (JS.split "." originalFilename) in
  let baseName := strip_extension originalFilename in
  baseName ++ "-" ++ JS.string_of_N (Z.to_N timestamp) ++ "-" ++ randomId ++
  "." ++ extension.

(** [isImageFile] *)
Definition isImageFile (file : File) : bool := JS.startsWith (type file) "image/".

Section WithCollaborators.
Context (P : Platform) (B : Backend).
Context (hooks : LifecycleHooks)
        (securityConfig : option SecurityScanner.SecurityScanConfig).

(** [generateFileMetadata] *)
Definition generateFileMetadata (file : File) : M FileMetadata :=
  match auth_user B with
  | None => throw "User not authenticated"
  | Some user =>
      match sha256_hex P (content file) with
      | None => throw "digest failed"
      | Some hash =>
          ret (mkMetadata (name file) (size file) (type file) hash (date_now P)
                          user (device_fingerprint B) (client_ip B)
                          (client_user_agent B))
      end
  end.

(** The private [validateFile]: the validator with [DEFAULT_CONFIGS.GENERAL]. *)
Definition validateFile (file : File) : FileValidator.ValidationResult :=
  FileValidator.validateFile P FileValidator.GENERAL (Some file).

(** [this.securityScanner.scanFile(file)] *)
Definition run_scanner (file : File) : M SecurityScanner.SecurityScanResult :=
  emit (ScannerRun file) ;;
  lift (SecurityScanner.scanFile P securityConfig file).

(** Step 5 of [uploadFile], "Security scanning": the value left in
    [scanResult]. *)
Definition security_scanning (file : File) (options : BackendUploadOptions)
           (metadata : FileMetadata)
  : M (option SecurityScanner.SecurityScanResult) :=
  if requireScan options then
    match beforeScan hooks with
    | Some hook =>
        emit (HookCalled "beforeScan") ;;
        shouldScan <- lift (hook file) ;;
        if (shouldScan : bool) then
          scanResult <- run_scanner file ;;
          match afterScan hooks with
          | Some hook => emit (HookCalled "afterScan") ;; lift (hook file scanResult)
          | None => ret tt
          end ;;
          if negb (SecurityScanner.isClean scanResult) then
            audit_log "security_threat_detected" "" (userId metadata)
              (ThreatDetails (name file) (SecurityScanner.threats scanResult)
                             (SecurityScanner.scanTime scanResult)
                             (SecurityScanner.confidence scanResult)) ;;
            throw "Security scan failed: File contains threats"
          else ret (Some scanResult)
        else ret None
    | None => ret None
    end
  else ret None.

(** The [try] block of [uploadFile]. *)
Definition uploadFile_try (file : File) (options : BackendUploadOptions)
  : M FileUploadResult :=
  (* 1. Generate initial metadata *)
  metadata <- generateFileMetadata file ;;
  assign_metadata metadata ;;
  (* 2. Lifecycle hook: beforeUpload *)
  match beforeUpload hooks with
  | Some hook =>
      emit (HookCalled "beforeUpload") ;;
      shouldContinue <- lift (hook file metadata) ;;
      if negb shouldContinue then throw "Upload rejected by beforeUpload hook"
      else ret tt
  | None => ret tt
  end ;;
  (* 3. Validate file *)
  let validationResult := validateFile file in
  (if negb (FileValidator.isValid validationResult) then
     audit_log "file_upload_rejected" "" (userId metadata)
       (RejectedDetails (name file) (FileValidator.errors validationResult)) ;;
     throw ("File validation failed: " ++
            JS.join ", " (FileValidator.errors validationResult))
   else ret tt) ;;
  (* 4. Lifecycle hook: afterValidation *)
  match afterValidation hooks with
  | Some hook =>
      emit (HookCalled "afterValidation") ;; lift (hook file validationResult)
  | None => ret tt
  end ;;
  (* 5. Security scanning *)
  scanResult <- security_scanning file options metadata ;;
  (* 6. Lifecycle hook: beforeStore *)
  metadata <- match beforeStore hooks with
              | Some hook =>
                  emit (HookCalled "beforeStore") ;; lift (hook file metadata)
              | None => ret metadata
              end ;;
  assign_metadata metadata ;;
  (* 7. Store file *)
  let filePath :=
    generateFilePath (date_now P) (random_path_id B) (userId metadata) (name file) in
  storedPath <- lift (storage_upload B file filePath) ;;
  emit (Stored storedPath) ;;
  (* 8. Create database record *)
  let expiresAt := (date_now P + expiryHours options * 60 * 60 * 1000)%Z in
  let row :=
    mkNewRecord (generateUniqueFilename (date_now P) (random_name_id B) (name file))
                (name file) (size file) (type file) storedPath (md_hash metadata)
                (userId metadata) "scanning" expiresAt scanResult in
  fileRecord <- lift (insert_file_record B row) ;;
  emit (RecordCreated row) ;;
  (* 9. Generate thumbnails if requested *)
  (if generateThumbnails options && isImageFile file
   then emit (ThumbnailsGenerated (rec_id fileRecord)) else ret tt) ;;
  (* 10. Apply watermark if requested *)
  (match watermarkConfig options with
   | Some true => emit (WatermarkApplied (rec_id fileRecord))
   | _ => ret tt
   end) ;;
  let uploadResult :=
    mkUploadResult (rec_id fileRecord) (rec_filename fileRecord)
      (rec_originalFilename fileRecord) (rec_fileSize fileRecord)
      (rec_mimeType fileRecord) (rec_filePath fileRecord)
      (rec_fileHash fileRecord)
      (match scanResult with
       | Some r => if SecurityScanner.isClean r then "approved" else "rejected"
       | None => "pending"
       end)
      expiresAt scanResult in
  (* 11. Lifecycle hook: afterStore *)
  match afterStore hooks with
  | Some hook => emit (HookCalled "afterStore") ;; lift (hook uploadResult)
  | None => ret tt
  end ;;
  (* 12. Audit log success *)
  audit_log "file_upload_success" (id uploadResult) (userId metadata)
    (SuccessDetails (originalFilename uploadResult) (fileSize uploadResult)
       (match scanResult with
        | Some r => SecurityScanner.isClean r
        | None => true
        end)) ;;
  ret uploadResult.

(** [metadata?.userId || "unknown"] in the [catch] block. *)
Definition user_or_unknown (metadata : option FileMetadata) : string :=
  match metadata with
  | Some md => if String.eqb (userId md) "" then "unknown" else userId md
  | None => "unknown"
  end.

(** [uploadFile] *)
Definition uploadFile (file : File) (options : BackendUploadOptions)
  : M FileUploadResult :=
  catch (uploadFile_try file options)
    (fun error =>
       match onError hooks with
       | Some hook =>
           emit (HookCalled "onError") ;; lift (hook error "upload_pipeline")
       | None => ret tt
       end ;;
       metadata <- read_metadata ;;
       audit_log "file_upload_error" "" (user_or_unknown metadata)
                 (ErrorDetails error (name file)) ;;
       throw error).

End WithCollaborators.

(** The default [options] of [uploadFile]. *)
Definition default_options : BackendUploadOptions :=
  mkOptions "files" 72 true false None.

(** How many times a run invoked the security scanner. *)
Definition scans_run (trace : list Event) : nat :=
  List.length
    (List.filter (fun ev => match ev with ScannerRun _ => true | _ => false end)
                 trace).

(** A computation that never invokes the security scanner. *)
Definition scanless {A : Type} (m : M A) : Prop :=
  forall run, scans_run (trace (fst (m run))) = scans_run (trace run).

(** A hook set whose only hook lets every file be scanned. *)
Definition always_scan : LifecycleHooks :=
  mkHooks None None (Some (fun _ => Ok true)) None None None None.

(** A hook set whose only hook vetoes every scan. *)
Definition never_scan : LifecycleHooks :=
  mkHooks None None (Some (fun _ => Ok false)) None None None None.

End SecureDropAPI.


(* ===================================================================== *)
(** ** The checks of the validator, one by one                           *)
(* ===================================================================== *)

Module Checks.
Import FileValidator.

(** Each check of [validateFile], stated on its own: the list holds the
    error of the check when the file violates it and is empty otherwise. *)

Definition presence_check (file : File) : list string :=
  if String.eqb (name file) "" then ["File name is required"] else [].

Definition size_error (config : FileValidationConfig) (file : File) : string :=
  "File size " ++ formatBytes (size file) ++
  " exceeds maximum allowed size " ++ formatBytes (maxFileSize config).

Definition size_check (config : FileValidationConfig) (file : File) : list string :=
  if (maxFileSize config <? size file)%N then [size_error config file] else [].

Definition mime_error (config : FileValidationConfig) (file : File) : string :=
  "File type " ++ type file ++ " is not allowed. Allowed types: " ++
  JS.join ", " (allowedMimeTypes config).

Definition mime_violated (config : FileValidationConfig) (file : File) : bool :=
  match allowedMimeTypes config with
  | [] => false
  | allowed => negb (List.existsb (isMatchingMimeType (type file)) allowed)
  end.

Definition mime_check (config : FileValidationConfig) (file : File) : list string :=
  if mime_violated config file then [mime_error config file] else [].

Definition extension_error (config : FileValidationConfig) (file : File) : string :=
  "File extension " ++ getFileExtension (name file) ++
  " is not allowed. Allowed extensions: " ++
  JS.join ", " (allowedExtensions config).

Definition extension_violated (config : FileValidationConfig) (file : File) : bool :=
  match allowedExtensions config with
  | [] => false
  | allowed =>
      negb (List.existsb
              (String.eqb (JS.toLowerCase (getFileExtension (name file))))
              allowed)
  end.

Definition extension_check (config : FileValidationConfig) (file : File)
  : list string :=
  if extension_violated config file then [extension_error config file] else [].

Definition signature_mismatch (file : File) : string :=
  "File signature does not match expected type " ++ type file.

(** The strings the signature check can report. *)
Definition signature_errors (file : File) : list string :=
  [ signature_mismatch file;
    "Could not read file signature";
    "File signature validation failed" ].

Definition signature_check (file : File) : list string :=
  let result := validateMagicBytes file in
  if magic_isValid result then []
  else [match magic_error result with
        | Some e => e
        | None => "File signature validation failed"
        end].

(** All checks run, each contributing its own entry, in the fixed order. *)
Definition checks_in_order (config : FileValidationConfig) (file : File)
  : list string :=
  presence_check file ++ size_check config file ++ mime_check config file ++
  extension_check config file ++ signature_check file.

(** The content of the file begins with the bytes of [signature]. *)
Definition begins_with (file : File) (signature : list N) : Prop :=
  List.map Byte.to_N (List.firstn (List.length signature) (content file))
  = signature.

(** A size rendered in binary-prefixed units: the unit is the [i]-th of
    B, KB, MB, GB with [1024^i <= bytes < 1024^(i+1)], and the number is
    [bytes / 1024^i] to the nearest hundredth. *)
Definition binary_prefixed (bytes : N) (text : string) : Prop :=
  (bytes = 0%N /\ text = "0 B") \/
  exists (i : nat) (unit : string),
    List.nth_error sizes i = Some unit /\
    (1024 ^ N.of_nat i <= bytes < 1024 ^ (N.of_nat i + 1))%N /\
    text = show_hundredths (hundredths bytes (1024 ^ N.of_nat i)) ++ " " ++ unit.

(** The allow-list reading of an entry: an entry ending in slash-star
    accepts the types of its family, the entry without the star being a
    prefix of the type; any other entry accepts itself only. *)
Definition family_prefix (allowedType : string) : string :=
  JS.slice_0_neg 1 allowedType.

Definition accepts_family (fileType allowedType : string) : bool :=
  if JS.endsWith allowedType "/*"
  then JS.startsWith fileType (family_prefix allowedType)
  else String.eqb fileType allowedType.

(** The MIME error is reported exactly when no entry
    of the allow-list accepts the declared type, an entry ending in
    slash-star accepting the types that begin with its family and slash. *)
Definition mime_error_iff_outside_families (P : Platform)
           (config : FileValidationConfig) (file : File) : Prop :=
  In (mime_error config file) (errors (validateFile P config (Some file))) <->
  List.existsb (accepts_family (type file)) (allowedMimeTypes config) = false.

(** The family name of an entry ending in slash-star: the text before it. *)
Definition family_name (allowedType : string) : string :=
  JS.slice_0_neg 2 allowedType.

(** The label of the [index]-th file (from 0) of a batch, with the file
    name as it is. *)
Definition name_label (index : nat) (file : option File) : string :=
  "File " ++ JS.string_of_nat (index + 1) ++ " (" ++
  (match file with
   | Some f => name f
   | None => "unknown"
   end) ++ "): ".

Section Batch.
Context (P : Platform) (config : FileValidationConfig).

(** The errors of each file of a batch, each under the label of its
    position, files counted from [index]. *)
Fixpoint labelled_errors (label : nat -> option File -> string) (index : nat)
         (files : list (option File)) : list string :=
  match files with
  | [] => []
  | file :: rest =>
      List.map (fun error => label index file ++ error)
               (errors (validateFile P config file))
      ++ labelled_errors label (S index) rest
  end.

Definition too_many_files (files : list (option File)) : list string :=
  if (maxFiles config <? N.of_nat (List.length files))%N then
    ["Too many files. Maximum allowed: " ++ JS.string_of_N (maxFiles config) ++
     ", provided: " ++ JS.string_of_nat (List.length files)]
  else [].

End Batch.

End Checks.

(* ===================================================================== *)
(** ** The aggregate of a scan, stated on its own                        *)
(* ===================================================================== *)

Module ScanChecks.
Import SecurityScanner.

(** No threat of the list has severity high or critical. *)
Definition no_severe_threat (found : list SecurityThreat) : Prop :=
  forall t, In t found -> severity t <> high /\ severity t <> critical.




(** The threat of the disguise detector for a PE header. *)
Definition pe_threat (file : File) : SecurityThreat :=
  mkThreat suspicious_content "Windows PE Executable" critical
           ("File contains Windows PE Executable signature but is disguised as "
            ++ type file)
           None None.

(** The threat reported for a matching YARA rule. *)
Definition yara_threat (rule : string) : SecurityThreat :=
  mkThreat yara_match ("YARA Rule: " ++ rule) high
           ("File matches YARA rule: " ++ rule) None None.

End ScanChecks.

(* ===================================================================== *)
(** ** Inputs of the worked examples                                     *)
(* ===================================================================== *)

Module Examples.

(** A platform for the worked examples: no pattern matches (as is the
    case for the texts of the examples), bytes are decoded one character
    per byte, the digest service answers, no virus-scanning endpoint
    answers, the clock stands still. *)
Definition platform : Platform :=
  mkPlatform (fun _ _ => false) (fun _ _ => 0%nat) String.string_of_list_byte
             (fun _ => Some "9f86d081884c7d65") (fun _ _ => None) 0 0 0.

(** A backend with a signed-in user, whose storage and database accept
    what they are given. *)
Definition backend : SecureDropAPI.Backend :=
  SecureDropAPI.mkBackend (Some "user-1") "fp" "unknown" "agent" "k3x" "q7z"
    (fun _ path => Ok path)
    (fun row =>
       Ok (SecureDropAPI.mkRecord "id-1"
             (SecureDropAPI.new_filename row)
             (SecureDropAPI.new_originalFilename row)
             (SecureDropAPI.new_fileSize row)
             (SecureDropAPI.new_mimeType row)
             (SecureDropAPI.new_filePath row)
             (SecureDropAPI.new_fileHash row))).

(** [new File(["hello"], "a.txt", { type: "text/plain" })] *)
Definition hello_txt : File :=
  mkFile "a.txt" "text/plain" (String.list_byte_of_string "hello") 1.

(** Scenario B: a PE header under the name of a JPEG image. *)
Definition disguised_pe : File :=
  mkFile "photo.jpg" "image/jpeg" [Byte.x4d; Byte.x5a; Byte.x90; Byte.x00] 1.

(** [new File(["hello"], "", { type: "text/plain" })]: a file without a name. *)
Definition nameless : File :=
  mkFile "" "text/plain" (String.list_byte_of_string "hello") 1.

(** A GIF image under the name of a PNG image. *)
Definition gif_named_png : File :=
  mkFile "a.png" "image/gif" (String.list_byte_of_string "GIF89a") 1.

(** [new File([], "empty.txt", { type: "text/plain" })] *)
Definition empty_txt : File := mkFile "empty.txt" "text/plain" [] 1.

(** A GIF header declared as [imagex/gif]. *)
Definition imagex_gif : File :=
  mkFile "a.gif" "imagex/gif"
         (String.list_byte_of_string "GIF89a") 1.

(** A configuration that allows images of at most four bytes. *)
Definition tiny_images : FileValidator.FileValidationConfig :=
  FileValidator.mkConfig 4 ["image/*"] [] 3 false.

End Examples.


(* ===================================================================== *)
(** ** sdk/backend-utils.ts                                              *)
(* ===================================================================== *)

(** A declared type as the platform reports it for a file: empty, or of
    the form type/subtype.  The signature tables are JavaScript objects,
    whose lookup under an inherited property name (such as constructor)
    does not answer as a missing key does; no such name holds a slash. *)
Definition mime_like (declared : string) : bool :=
  String.eqb declared "" || JS.includes declared "/".

Module BackendFileValidator.
Import FileValidator.

(** The [signatures] table of the backend [validateMagicBytes]. *)
Definition signatures : list (string * list (list N)) :=
  [ ("image/jpeg", [[0xFF; 0xD8; 0xFF]]);
    ("image/png", [[0x89; 0x50; 0x4E; 0x47; 0x0D; 0x0A; 0x1A; 0x0A]]);
    ("image/gif", [[0x47; 0x49; 0x46; 0x38; 0x37; 0x61];
                   [0x47; 0x49; 0x46; 0x38; 0x39; 0x61]]);
    ("application/pdf", [[0x25; 0x50; 0x44; 0x46]]) ]%N.

(** [validateMagicBytes(buffer, mimeType)] *)
Definition validateMagicBytes (buffer : list Byte.byte) (mimeType : string)
  : MagicByteResult :=
  match lookup mimeType signatures with
  | None => mkMagic true None
  | Some expectedSignatures =>
      if (List.length expectedSignatures =? 0)%nat then mkMagic true None
      else
        let isValid :=
          List.existsb (fun signature => JS.every_byte_matches buffer signature)
                       expectedSignatures in
        mkMagic isValid
          (if isValid then None
           else Some ("File signature does not match expected type " ++ mimeType))
  end.

Section WithPlatform.
Context (P : Platform).

(** [generateBufferHash] *)
Definition generateBufferHash (buffer : list Byte.byte) : Exc string :=
  match sha256_hex P buffer with
  | Some h => Ok h
  | None => Throw "digest failed"
  end.

(** [validateBuffer].  The private [getFileExtension],
    [isMatchingMimeType] and [formatBytes] of the class are the same text
    as those of [FileValidator]. *)
Definition validateBuffer (config : FileValidationConfig)
           (buffer : list Byte.byte) (filename mimeType : string)
  : ValidationResult :=
  let errors : list string := [] in
  let warnings : list string := [] in
  let length := N.of_nat (List.length buffer) in
  (* Size validation *)
  let errors :=
    if (maxFileSize config <? length)%N then
      JS.push errors
        ("File size " ++ formatBytes length ++
         " exceeds maximum allowed size " ++ formatBytes (maxFileSize config))
    else errors in
  (* MIME type validation *)
  let errors :=
    if (0 <? List.length (allowedMimeTypes config))%nat then
      let isAllowedMime :=
        List.existsb (fun allowedType => isMatchingMimeType mimeType allowedType)
                     (allowedMimeTypes config) in
      if negb isAllowedMime then
        JS.push errors
          ("File type " ++ mimeType ++ " is not allowed. Allowed types: " ++
           JS.join ", " (allowedMimeTypes config))
      else errors
    else errors in
  (* Extension validation *)
  let extension := JS.toLowerCase (getFileExtension filename) in
  let errors :=
    if (0 <? List.length (allowedExtensions config))%nat then
      if negb (List.existsb (String.eqb extension) (allowedExtensions config)) then
        JS.push errors
          ("File extension " ++ extension ++
           " is not allowed. Allowed extensions: " ++
           JS.join ", " (allowedExtensions config))
      else errors
    else errors in
  (* Magic byte validation *)
  let magicByteResult := validateMagicBytes buffer mimeType in
  let errors :=
    if negb (magic_isValid magicByteResult) then
      JS.push errors
        (match magic_error magicByteResult with
         | Some e => e
         | None => "File signature validation failed"
         end)
    else errors in
  (* Generate hash *)
  let '(hash, warnings) :=
    if requireHash config then
      match generateBufferHash buffer with
      | Ok h => (Some h, warnings)
      | Throw _ => (None, JS.push warnings "Could not generate file hash")
      end
    else (None, warnings) in
  mkResult (List.length errors =? 0)%nat errors warnings
           (Some (mkMetadata filename length mimeType extension hash (date_now P))).

End WithPlatform.

End BackendFileValidator.

Module BackendUtils.

(** The result of [performSecurityScan]: the [SecurityScanResult] of
    sdk/types.ts without its optional fields. *)
Record BasicScanResult := mkBasicResult {
  isClean : bool;
  threats : list SecurityScanner.SecurityThreat;
  scanTime : Z;
  scanner : string
}.

Definition suspiciousExtensions : list string :=
  [".exe"; ".bat"; ".cmd"; ".scr"; ".pif"].

(** The EICAR test signature, [Buffer.from(..., 'ascii')]. *)
Definition eicar : list Byte.byte :=
  String.list_byte_of_string "X5O!P%@AP[4\PZX54(P^)7CC)7}$EICAR".

(** [buffer] holds [value] at its first position. *)
Fixpoint bytes_prefix (value buffer : list Byte.byte) {struct value} : bool :=
  match value with
  | [] => true
  | v :: value' =>
      match buffer with
      | [] => false
      | b :: buffer' => Byte.eqb v b && bytes_prefix value' buffer'
      end
  end.

(** [buffer.includes(value)] for a [Buffer] value. *)
Fixpoint Buffer_includes (buffer value : list Byte.byte) {struct buffer} : bool :=
  bytes_prefix value buffer ||
  match buffer with
  | [] => false
  | _ :: rest => Buffer_includes rest value
  end.

(** [performSecurityScan]; the simulated delay is left out. *)
Definition performSecurityScan (buffer : list Byte.byte) (filename : string)
  : BasicScanResult :=
  let hasSuspiciousExtension :=
    List.existsb (fun ext => JS.endsWith (JS.toLowerCase filename) ext)
                 suspiciousExtensions in
  let malwareSignatures := [eicar] in
  let containsSignature :=
    List.existsb (fun signature => Buffer_includes buffer signature)
                 malwareSignatures in
  let threats : list SecurityScanner.SecurityThreat := [] in
  let threats :=
    if hasSuspiciousExtension then
      JS.push threats
        (SecurityScanner.mkThreat SecurityScanner.suspicious_content
           "Suspicious Extension" SecurityScanner.medium
           "Suspicious file extension detected" None None)
    else threats in
  let threats :=
    if containsSignature then
      JS.push threats
        (SecurityScanner.mkThreat SecurityScanner.malware
           "Malware Signature" SecurityScanner.high
           "Malware signature detected" None None)
    else threats in
  mkBasicResult (List.length threats =? 0)%nat threats 1000
                "SecureDrop Scanner v1.0".

(** One row answered by [getExpiredFiles]. *)
Record ExpiredFile := mkExpired {
  expired_id : string;
  expired_filePath : string;
  expired_fileSize : N
}.

Record CleanupResult := mkCleanup {
  deletedCount : N;
  freedSpace : N;
  cleanup_errors : list string
}.

Section Cleanup.
(** The store behind the two callbacks, which they may change. *)
Context {Store : Type}.
Context (getExpiredFiles : Store -> Store * Exc (list ExpiredFile)).
Context (deleteFile : string -> Store -> Store * Exc bool).

(** The [for] loop of [cleanupExpiredFiles]. *)
Fixpoint cleanup_loop (expiredFiles : list ExpiredFile) (store : Store)
         (result : CleanupResult) : Store * CleanupResult :=
  match expiredFiles with
  | [] => (store, result)
  | file :: rest =>
      match deleteFile (expired_filePath file) store with
      | (store', Ok deleted) =>
          if deleted then
            cleanup_loop rest store'
              (mkCleanup (deletedCount result + 1)
                         (freedSpace result + expired_fileSize file)
                         (cleanup_errors result))
          else
            cleanup_loop rest store'
              (mkCleanup (deletedCount result) (freedSpace result)
                         (JS.push (cleanup_errors result)
                                  ("Failed to delete file: " ++ expired_filePath file)))
      | (store', Throw error) =>
          cleanup_loop rest store'
            (mkCleanup (deletedCount result) (freedSpace result)
                       (JS.push (cleanup_errors result)
                                ("Error deleting file " ++ expired_filePath file ++
                                 ": " ++ error)))
      end
  end.

(** [cleanupExpiredFiles] *)
Definition cleanupExpiredFiles (store : Store) : Store * CleanupResult :=
  let result := mkCleanup 0 0 [] in
  match getExpiredFiles store with
  | (store', Ok expiredFiles) => cleanup_loop expiredFiles store' result
  | (store', Throw error) =>
      (store',
       mkCleanup (deletedCount result) (freedSpace result)
                 (JS.push (cleanup_errors result)
                          ("Error fetching expired files: " ++ error)))
  end.

End Cleanup.

(** [watermarkConfig] of [BackendUploadOptions]. *)
Record WatermarkConfig := mkWatermark {
  enabled : bool;
  text : string;
  opacity : Q
}.

(** [BackendUploadOptions] with its watermark in full. *)
Record UploadOptions := mkUploadOptions {
  bucketName : string;
  expiryHours : Z;
  requireScan : bool;
  generateThumbnails : bool;
  watermarkConfig : WatermarkConfig
}.

(** [Partial<BackendUploadOptions>]: every field may be missing.  Hours
    are whole numbers. *)
Record PartialOptions := mkPartial {
  p_bucketName : option string;
  p_expiryHours : option Z;
  p_requireScan : option bool;
  p_generateThumbnails : option bool;
  p_watermarkConfig : option WatermarkConfig
}.

(** [validateUploadConfig] *)
Definition validateUploadConfig (config : PartialOptions) : UploadOptions :=
  mkUploadOptions
    (match p_bucketName config with
     | Some b => if String.eqb b "" then "uploads" else b
     | None => "uploads"
     end)
    (Z.max 1 (Z.min 720
                    (match p_expiryHours config with
                     | Some h => if (h =? 0)%Z then 72 else h
                     | None => 72
                     end)))
    (match p_requireScan config with Some b => b | None => true end)
    (match p_generateThumbnails config with Some b => b | None => false end)
    (match p_watermarkConfig config with
     | Some w => w
     | None => mkWatermark false "CONFIDENTIAL" (1 # 2)
     end).

(** Options handed back as a configuration. *)
Definition as_partial (options : UploadOptions) : PartialOptions :=
  mkPartial (Some (bucketName options)) (Some (expiryHours options))
            (Some (requireScan options)) (Some (generateThumbnails options))
            (Some (watermarkConfig options)).

End BackendUtils.

(* ===================================================================== *)
(** ** The file utilities (formatBytes, getFileExtension,
       sanitizeFilename, validateFileMetadata, ...)                      *)
(* ===================================================================== *)

Module FileUtils.

(** [getFileExtension]: [filename.split('.').pop()?.toLowerCase() || ''] *)
Definition getFileExtension (filename : string) : string :=
  JS.toLowerCase (JS.pop (JS.split "." filename)).

(** [isImageFile] *)
Definition isImageFile (mimeType : string) : bool := JS.startsWith mimeType "image/".

Definition documentTypes : list string :=
  [ "application/pdf";
    "application/msword";
    "application/vnd.openxmlformats-officedocument.wordprocessingml.document";
    "text/plain";
    "text/csv";
    "application/rtf" ].

(** [isDocumentFile] *)
Definition isDocumentFile (mimeType : string) : bool :=
  List.existsb (String.eqb mimeType) documentTypes || JS.startsWith mimeType "text/".

(** [isMimeTypeAllowed] *)
Definition isMimeTypeAllowed (fileType : string) (allowedTypes : list string) : bool :=
  List.existsb
    (fun allowedType =>
       if JS.endsWith allowedType "/*" then
         let prefix := JS.slice_0_neg 2 allowedType in
         JS.startsWith fileType prefix
       else String.eqb fileType allowedType)
    allowedTypes.

(** The class [\w] : letters, digits and the underscore. *)
Definition is_word (c : ascii) : bool :=
  let n := nat_of_ascii c in
  ((65 <=? n) && (n <=? 90) || (97 <=? n) && (n <=? 122) ||
   (48 <=? n) && (n <=? 57) || (n =? 95))%nat.

(** The class [\s] on ASCII: tab, line feed, vertical tab, form feed,
    carriage return, space. *)
Definition is_space (c : ascii) : bool :=
  let n := nat_of_ascii c in
  ((9 <=? n) && (n <=? 13) || (n =? 32))%nat.

(** [.replace(/[^\w\s.-]/gi, '')] *)
Fixpoint remove_special (s : string) : string :=
  match s with
  | EmptyString => EmptyString
  | String c r =>
      if is_word c || is_space c || Ascii.eqb c "." || Ascii.eqb c "-"
      then String c (remove_special r)
      else remove_special r
  end.

(** [.replace(/\s+/g, '_')]: every maximal run of white space becomes one
    underscore; [in_run] tells that the previous character was white
    space. *)
Fixpoint replace_spaces (in_run : bool) (s : string) : string :=
  match s with
  | EmptyString => EmptyString
  | String c r =>
      if is_space c then
        if in_run then replace_spaces true r
        else String "_" (replace_spaces true r)
      else String c (replace_spaces false r)
  end.

(** [.replace(/_{2,}/g, '_')]: every maximal run of two or more
    underscores becomes one underscore, and a single one stays;
    [in_run] tells that the previous character was an underscore. *)
Fixpoint collapse_underscores (in_run : bool) (s : string) : string :=
  match s with
  | EmptyString => EmptyString
  | String c r =>
      if Ascii.eqb c "_" then
        if in_run then collapse_underscores true r
        else String "_" (collapse_underscores true r)
      else String c (collapse_underscores false r)
  end.

(** [.replace(/^[.-]/, '')] *)
Definition drop_leading_dot_or_hyphen (s : string) : string :=
  match s with
  | String c r => if Ascii.eqb c "." || Ascii.eqb c "-" then r else s
  | EmptyString => EmptyString
  end.

(** [sanitizeFilename] *)
Definition sanitizeFilename (filename : string) : string :=
  String.substring 0 255
    (drop_leading_dot_or_hyphen
       (collapse_underscores false
          (replace_spaces false (remove_special filename)))).

(** [Partial<FileMetadata>] *)
Record PartialMetadata := mkPartialMetadata {
  pm_name : option string;
  pm_size : option N;
  pm_type : option string;
  pm_extension : option string;
  pm_lastModified : option Z;
  pm_hash : option string
}.

(** A [FileMetadata] read as a [Partial<FileMetadata>]. *)
Definition as_partial (m : FileValidator.FileMetadata) : PartialMetadata :=
  mkPartialMetadata (Some (FileValidator.md_name m)) (Some (FileValidator.md_size m))
                    (Some (FileValidator.md_type m))
                    (Some (FileValidator.extension m))
                    (Some (FileValidator.md_lastModified m))
                    (FileValidator.hash m).

(** [validateFileMetadata]; [now] is the reading of [Date.now()]. *)
Definition validateFileMetadata (now : Z) (metadata : PartialMetadata)
  : option FileValidator.FileMetadata :=
  match pm_name metadata, pm_size metadata, pm_type metadata with
  | Some name, Some size, Some type =>
      if String.eqb name "" || (size =? 0)%N || String.eqb type "" then None
      else
        Some (FileValidator.mkMetadata
                name size type
                (match pm_extension metadata with
                 | Some e => if String.eqb e "" then getFileExtension name else e
                 | None => getFileExtension name
                 end)
                (pm_hash metadata)
                (match pm_lastModified metadata with
                 | Some t => if (t =? 0)%Z then now else t
                 | None => now
                 end))
  | _, _, _ => None
  end.

End FileUtils.

(* ===================================================================== *)
(** ** sdk/backend-api.ts: the fingerprint hash                          *)
(* ===================================================================== *)

Module Fingerprint.

(** [ToInt32]: the value modulo 2^32 read as a signed 32-bit integer. *)
Definition toInt32 (x : Z) : Z :=
  let m := (x mod 2 ^ 32)%Z in
  if (m <? 2 ^ 31)%Z then m else (m - 2 ^ 32)%Z.

(** [str.charCodeAt(i)] *)
Definition charCode (c : ascii) : Z := Z.of_nat (nat_of_ascii c).

(** The loop of [simpleHash]:
    [hash = (hash << 5) - hash + char; hash = hash & hash]. *)
Fixpoint simpleHash_loop (str : string) (hash : Z) : Z :=
  match str with
  | EmptyString => hash
  | String c rest =>
      let char := charCode c in
      let hash := (toInt32 (Z.shiftl (toInt32 hash) 5) - hash + char)%Z in
      let hash := toInt32 (Z.land (toInt32 hash) (toInt32 hash)) in
      simpleHash_loop rest hash
  end.

Definition digits36 : string := "0123456789abcdefghijklmnopqrstuvwxyz".

Definition digit36 (d : N) : string :=
  match String.get (N.to_nat d) digits36 with
  | Some c => String c EmptyString
  | None => EmptyString
  end.

(** The digits of a natural number in base 36, most significant first. *)
Fixpoint radix36 (fuel : nat) (n : N) : string :=
  match fuel with
  | O => EmptyString
  | S fuel' =>
      if (n <? 36)%N then digit36 n
      else radix36 fuel' (n / 36)%N ++ digit36 (n mod 36)%N
  end.

(** [n.toString(36)] for an integer. *)
Definition toString36 (z : Z) : string :=
  let magnitude := Z.to_N (Z.abs z) in
  (if (z <? 0)%Z then "-" else "") ++
  radix36 (S (N.to_nat (N.log2 magnitude))) magnitude.

(** [simpleHash] *)
Definition simpleHash (str : string) : string :=
  toString36 (simpleHash_loop str 0).

(** The polynomial of the character codes in base 31, by Horner's rule. *)
Fixpoint polynomial31 (str : string) (acc : Z) : Z :=
  match str with
  | EmptyString => acc
  | String c rest => polynomial31 rest (31 * acc + charCode c)%Z
  end.

(** [a] and [b] differ by a multiple of 2^32. *)
Definition congruent32 (a b : Z) : Prop := exists k : Z, (a = b + k * 2 ^ 32)%Z.

End Fingerprint.

(* ===================================================================== *)
(** ** Notions used to state further properties                          *)
(* ===================================================================== *)

Module Notions.

(** The character [c] occurs in [s]. *)
Fixpoint has_char (c : ascii) (s : string) : bool :=
  match s with
  | EmptyString => false
  | String x r => Ascii.eqb x c || has_char c r
  end.

(** Every character of [s] satisfies [p]. *)
Fixpoint all_chars (p : ascii -> bool) (s : string) : bool :=
  match s with
  | EmptyString => true
  | String x r => p x && all_chars p r
  end.

(** No underscore of [s] is followed by an underscore. *)
Fixpoint no_adjacent_underscores (s : string) : bool :=
  match s with
  | EmptyString => true
  | String x r =>
      match r with
      | String y _ => negb (Ascii.eqb x "_" && Ascii.eqb y "_")
      | EmptyString => true
      end && no_adjacent_underscores r
  end.

(** The first character of [s] is not an underscore. *)
Definition starts_plain (s : string) : bool :=
  match s with
  | String c _ => negb (Ascii.eqb c "_")
  | EmptyString => true
  end.

(** A letter, a digit, an underscore, a dot or a hyphen. *)
Definition safe_char (c : ascii) : bool :=
  FileUtils.is_word c || Ascii.eqb c "." || Ascii.eqb c "-".

(** [value] occurs in [buffer] as a contiguous run of bytes. *)
Definition occurs_in (value buffer : list Byte.byte) : Prop :=
  exists before after, buffer = (before ++ value ++ after)%list.

(** The sizes of the files, summed. *)
Definition total_size (files : list BackendUtils.ExpiredFile) : N :=
  List.fold_right (fun f acc => (BackendUtils.expired_fileSize f + acc)%N) 0%N files.

(** A threat that does not make a scan unclean. *)
Definition mild (t : SecurityScanner.SecurityThreat) : bool :=
  match SecurityScanner.severity t with
  | SecurityScanner.low | SecurityScanner.medium => true
  | _ => false
  end.

(** The kinds of threat that the content stages report. *)
Definition content_kind (t : SecurityScanner.SecurityThreat) : Prop :=
  SecurityScanner.threat_type t = SecurityScanner.suspicious_content \/
  SecurityScanner.threat_type t = SecurityScanner.injection.

(** The threats of the disguise detector and of the structural analysis. *)
Definition zip_threat (file : File) : SecurityScanner.SecurityThreat :=
  SecurityScanner.mkThreat SecurityScanner.suspicious_content
    "ZIP Archive (potential)" SecurityScanner.medium
    ("File contains ZIP Archive (potential) signature but is disguised as "
     ++ type file)
    None None.

Definition script_threat : SecurityScanner.SecurityThreat :=
  SecurityScanner.mkThreat SecurityScanner.injection "Script Injection"
    SecurityScanner.high "File contains potentially malicious script code"
    None None.

Definition empty_file_threat : SecurityScanner.SecurityThreat :=
  SecurityScanner.mkThreat SecurityScanner.suspicious_content "Empty File"
    SecurityScanner.low "File is empty which may be suspicious" None None.

(** The file is declared, or named, as a ZIP archive. *)
Definition declared_archive (file : File) : bool :=
  String.eqb (type file) "application/zip" ||
  String.eqb (type file) "application/x-zip-compressed" ||
  JS.endsWith (JS.toLowerCase (name file)) ".zip".

Import SecureDropAPI.

(** Every event a computation adds to the trace satisfies [q]. *)
Definition emits_only {A : Type} (q : Event -> bool) (m : M A) : Prop :=
  forall run, List.forallb q (trace run) = true ->
              List.forallb q (trace (fst (m run))) = true.

(** The computation throws, whatever the run, and every event it adds
    before that satisfies [q]. *)
Definition stops {A : Type} (q : Event -> bool) (m : M A) : Prop :=
  forall run,
    (exists e, snd (m run) = Throw e) /\
    (List.forallb q (trace run) = true ->
     List.forallb q (trace (fst (m run))) = true).

(** Every value the computation returns, and the run it returns it in,
    satisfy [Q]. *)
Definition returns {A : Type} (Q : Run -> A -> Prop) (m : M A) : Prop :=
  forall run run' a, m run = (run', Ok a) -> Q run' a.

(** The last event of a trace. *)
Definition last_event (events : list Event) : option Event :=
  List.last (List.map Some events) None.

(** The audit row written at the end of a successful upload. *)
Definition is_success_row (ev : option Event) : Prop :=
  exists row, ev = Some (AuditLogged row) /\ action row = "file_upload_success".


(** An event that is not a storage upload or a database insert. *)
Definition not_persisting (ev : Event) : bool :=
  match ev with
  | Stored _ | RecordCreated _ => false
  | _ => true
  end.

(** An audit row never carries an empty identifier. *)
Definition sanitized (ev : Event) : bool :=
  match ev with
  | AuditLogged row =>
      negb (match resource_id row with Some s => String.eqb s "" | None => false end)
      && negb (match user_id row with Some s => String.eqb s "" | None => false end)
  | _ => true
  end.

(** The audit row written by the [catch] block of [uploadFile]. *)
Definition error_row (user error file_name : string) : Event :=
  AuditLogged (mkAuditRow "file_upload_error" "file" None (non_empty user)
                          (ErrorDetails error file_name)).

(** Hooks whose only hook observes errors and returns. *)
Definition observing_hooks : LifecycleHooks :=
  mkHooks None None None None None None (Some (fun _ _ => Ok tt)).

(** Hooks whose only hook fails while it handles an error. *)
Definition failing_error_hook : LifecycleHooks :=
  mkHooks None None None None None None (Some (fun _ _ => Throw "hook failed")).

(** A backend without a signed-in user. *)
Definition signed_out : Backend :=
  mkBackend None "fp" "unknown" "agent" "k3x" "q7z"
            (fun _ path => Ok path) (insert_file_record Examples.backend).

End Notions.

(* ===================================================================== *)
(** ** Properties of the validator                                       *)
(* ===================================================================== *)

Module ValidatorSpec.
Import FileValidator Checks.

(** *** Strings *)

Lemma prefix_substring_0 (n : nat) (s : string) :
  String.prefix (String.substring 0 n s) s = true.
Proof.
  revert n. induction s as [|c s IH]; intros [|n]; simpl; auto.
  rewrite IH. destruct (ascii_dec c c); congruence.
Qed.

Lemma prefix_shorter (s t : string) (m n : nat) :
  (m <= n)%nat ->
  String.prefix (String.substring 0 n s) t = true ->
  String.prefix (String.substring 0 m s) t = true.
Proof.
  revert t m n. induction s as [|c s IH]; intros t m n Hmn H.
  - destruct m, t; reflexivity.
  - destruct m as [|m]; [destruct t; reflexivity|].
    destruct n as [|n]; [lia|].
    destruct t as [|d t]; [simpl in H; discriminate|].
    simpl in *.
    destruct (ascii_dec c d); [|discriminate].
    apply (IH t m n); [lia|assumption].
Qed.

(** *** Leading bytes *)

Lemma every_byte_matches_firstn (bytes : list Byte.byte) (sig : list N) (n : nat) :
  (List.length sig <= n)%nat ->
  JS.every_byte_matches (List.firstn n bytes) sig = JS.every_byte_matches bytes sig.
Proof.
  revert bytes n. induction sig as [|b sig IH]; intros bytes n Hn; [reflexivity|].
  simpl in Hn. destruct n as [|n]; [lia|].
  destruct bytes as [|x bytes]; [reflexivity|].
  simpl. rewrite IH by lia. reflexivity.
Qed.

Lemma every_byte_matches_spec (bytes : list Byte.byte) (sig : list N) :
  JS.every_byte_matches bytes sig = true <->
  List.map Byte.to_N (List.firstn (List.length sig) bytes) = sig.
Proof.
  revert bytes. induction sig as [|b sig IH]; intros bytes; simpl.
  - split; reflexivity.
  - destruct bytes as [|x bytes]; simpl.
    + split; discriminate.
    + rewrite andb_true_iff, N.eqb_eq, IH. split.
      * intros [-> ->]. reflexivity.
      * intros H. injection H as H1 H2. split; assumption.
Qed.

(** *** The error list of [validateFile] *)

Lemma validateFile_errors (P : Platform) config file :
  name file <> "" ->
  errors (validateFile P config (Some file)) =
  (size_check config file ++ mime_check config file ++
   extension_check config file ++ signature_check file)%list.
Proof.
  intros Hname. unfold validateFile.
  destruct (String.eqb_spec (name file) ""); [contradiction|].
  unfold size_check, mime_check, mime_violated, extension_check,
    extension_violated, signature_check, size_error, mime_error, extension_error.
  cbv zeta. cbn [extension].
  destruct (maxFileSize config <? size file)%N;
  destruct (allowedMimeTypes config) as [|m ms] eqn:Hm; cbn [length Nat.ltb Nat.leb];
  try destruct (existsb _ (m :: ms));
  destruct (allowedExtensions config) as [|x xs] eqn:Hx; cbn [length Nat.ltb Nat.leb];
  try destruct (existsb _ (x :: xs));
  destruct (magic_isValid (validateMagicBytes file));
  destruct (requireHash config); try destruct (generateFileHash P file);
  reflexivity.
Qed.

Lemma validateFile_errors_nameless (P : Platform) config file :
  name file = "" ->
  validateFile P config (Some file) = mkResult false ["File name is required"] [] None.
Proof.
  intros Hname. unfold validateFile. rewrite Hname. reflexivity.
Qed.

Lemma validateFile_errors_by_name (P : Platform) config file :
  errors (validateFile P config (Some file)) =
  if String.eqb (name file) "" then ["File name is required"]
  else (size_check config file ++ mime_check config file ++
        extension_check config file ++ signature_check file)%list.
Proof.
  destruct (String.eqb_spec (name file) "") as [E|E].
  - rewrite (validateFile_errors_nameless P config file E). reflexivity.
  - apply validateFile_errors. exact E.
Qed.

Lemma validateFile_isValid (P : Platform) config file :
  isValid (validateFile P config file) =
  (List.length (errors (validateFile P config file)) =? 0)%nat.
Proof.
  destruct file as [file|]; [|reflexivity].
  unfold validateFile.
  destruct (String.eqb (name file) ""); [reflexivity|].
  cbv zeta.
  destruct (requireHash config); try destruct (generateFileHash P file);
  reflexivity.
Qed.

Lemma valid_has_no_errors (P : Platform) config file :
  isValid (validateFile P config file) = true ->
  errors (validateFile P config file) = [].
Proof.
  rewrite validateFile_isValid. intros H. apply Nat.eqb_eq in H.
  destruct (errors _); [reflexivity|discriminate].
Qed.

(** What the signature check can report. *)
Lemma signature_check_cases file :
  signature_check file = [] \/ signature_check file = [signature_mismatch file].
Proof.
  unfold signature_check, validateMagicBytes, signature_mismatch.
  destruct (_ || _); [left; reflexivity|].
  destruct (lookup (type file) signatures) as [expected|]; [|left; reflexivity].
  destruct (_ =? 0)%nat; [left; reflexivity|].
  cbv zeta. destruct (existsb _ expected); [left|right]; reflexivity.
Qed.

Lemma signature_check_of_table file expected :
  lookup (type file) signatures = Some expected -> expected <> [] ->
  signature_check file =
  if List.existsb (JS.every_byte_matches (content file)) expected
  then [] else [signature_mismatch file].
Proof.
  intros Hlookup Hne.
  assert (Hlen : Forall (fun s => (List.length s <= 16)%nat) expected).
  { revert Hlookup. unfold signatures. cbn [lookup].
    repeat (destruct (String.eqb _ (type file));
            [intros H; injection H as <-; repeat constructor; simpl; lia|]).
    discriminate. }
  assert (Htype : (String.eqb (type file) "" ||
                   String.eqb (type file) "application/octet-stream") = false).
  { apply orb_false_iff. split; apply String.eqb_neq; intros E;
      rewrite E in Hlookup; discriminate. }
  unfold signature_check, validateMagicBytes, signature_mismatch.
  rewrite Htype, Hlookup.
  destruct expected as [|s0 rest]; [contradiction|].
  cbn [List.length Nat.eqb]. cbv zeta.
  assert (Hex : List.existsb (fun signature =>
                   JS.every_byte_matches (slice_bytes 16 file) signature) (s0 :: rest)
                = List.existsb (JS.every_byte_matches (content file)) (s0 :: rest)).
  { clear -Hlen. induction Hlen as [|s l Hs Hl IH]; [reflexivity|].
    cbn [List.existsb]. unfold slice_bytes.
    rewrite every_byte_matches_firstn by exact Hs.
    f_equal. exact IH. }
  rewrite Hex. clear Hex. cbn [magic_isValid magic_error].
  destruct (List.existsb _ (s0 :: rest)); reflexivity.
Qed.

(** The errors of the other checks are never signature errors. *)
Lemma size_error_not_signature config file :
  ~ In (size_error config file) (signature_errors file).
Proof.
  unfold size_error, signature_errors, signature_mismatch. simpl.
  intros [H|[H|[H|[]]]]; discriminate.
Qed.

Lemma mime_error_not_signature config file :
  ~ In (mime_error config file) (signature_errors file).
Proof.
  unfold mime_error, signature_errors, signature_mismatch. simpl.
  intros [H|[H|[H|[]]]]; discriminate.
Qed.

Lemma extension_error_not_signature config file :
  ~ In (extension_error config file) (signature_errors file).
Proof.
  unfold extension_error, signature_errors, signature_mismatch. simpl.
  intros [H|[H|[H|[]]]]; discriminate.
Qed.

Lemma in_size_check config file e :
  In e (size_check config file) -> e = size_error config file.
Proof. unfold size_check. destruct (_ <? _)%N; simpl; intuition. Qed.

Lemma in_mime_check config file e :
  In e (mime_check config file) -> e = mime_error config file.
Proof. unfold mime_check. destruct (mime_violated _ _); simpl; intuition. Qed.

Lemma in_extension_check config file e :
  In e (extension_check config file) -> e = extension_error config file.
Proof. unfold extension_check. destruct (extension_violated _ _); simpl; intuition. Qed.


(** *** Sizes in binary-prefixed units *)

Lemma formatBytes_binary_prefixed (bytes : N) :
  (bytes < 1024 ^ 4)%N -> binary_prefixed bytes (formatBytes bytes).
Proof.
  intros Hlt. unfold binary_prefixed, formatBytes.
  destruct (N.eqb_spec bytes 0) as [->|Hnz]; [left; split; reflexivity|].
  right. cbv zeta. change (N.log2 1024) with 10%N.
  pose proof (N.log2_spec bytes ltac:(lia)) as [Hlo Hhi].
  remember (N.log2 bytes) as l eqn:El. remember (l / 10)%N as i eqn:Ei.
  assert (Hl : (l < 40)%N).
  { apply (N.pow_lt_mono_r_iff 2); [lia|].
    apply N.le_lt_trans with bytes; [exact Hlo|exact Hlt]. }
  assert (Hi : (i < 4)%N) by (subst i; apply N.Div0.div_lt_upper_bound; lia).
  assert (Hil : (10 * i <= l)%N) by (subst i; apply N.Div0.mul_div_le).
  assert (Hli : (l < 10 * N.succ i)%N) by (subst i; apply N.mul_succ_div_gt; lia).
  assert (Hpow : forall j : N, (1024 ^ j = 2 ^ (10 * j))%N).
  { intros j. rewrite N.pow_mul_r. reflexivity. }
  exists (N.to_nat i), (List.nth (N.to_nat i) sizes "undefined").
  rewrite N2Nat.id. split; [|split].
  - assert (Hc : i = 0%N \/ i = 1%N \/ i = 2%N \/ i = 3%N) by lia.
    destruct Hc as [->|[->|[->| ->]]]; reflexivity.
  - rewrite !Hpow. split.
    + apply N.le_trans with (2 ^ l)%N; [|exact Hlo].
      apply N.pow_le_mono_r; lia.
    + apply N.lt_le_trans with (2 ^ N.succ l)%N; [exact Hhi|].
      apply N.pow_le_mono_r; lia.
  - reflexivity.
Qed.

Example formatBytes_samples :
  formatBytes 0 = "0 B" /\ formatBytes 1023 = "1023 B" /\
  formatBytes 1024 = "1 KB" /\ formatBytes 1536 = "1.5 KB" /\
  formatBytes 1079 = "1.05 KB" /\
  formatBytes (5 * 1024 * 1024) = "5 MB" /\
  formatBytes (3 * 1024 * 1024 * 1024 + 1) = "3 GB".
Proof. repeat split. Qed.

(** From 1024^4 bytes on there is no unit left in [sizes]. *)
Example formatBytes_past_the_units : formatBytes (1024 ^ 4) = "1 undefined".
Proof. reflexivity. Qed.

(** The number printed is the quotient rounded to the nearest hundredth. *)
Lemma hundredths_nearest (bytes unit : N) :
  (0 < unit)%N ->
  (2 * (hundredths bytes unit * unit) <= 200 * bytes + unit
   < 2 * (hundredths bytes unit * unit) + 2 * unit)%N.
Proof.
  intros Hu. unfold hundredths.
  pose proof (N.div_mod (200 * bytes + unit) (2 * unit) ltac:(lia)) as Hd.
  pose proof (N.mod_lt (200 * bytes + unit) (2 * unit) ltac:(lia)) as Hm.
  remember ((200 * bytes + unit) / (2 * unit))%N as q.
  remember ((200 * bytes + unit) mod (2 * unit))%N as r.
  nia.
Qed.

(** *** C5 *)

(** C5, as stated, fails: a file without a name that is also too large
    and of a type outside the allow-list gets the presence error only,
    not one error per violated check. *)
Lemma C5_nameless_file_stops_at_presence :
  ~ errors (validateFile Examples.platform Examples.tiny_images
                         (Some Examples.nameless))
    = checks_in_order Examples.tiny_images Examples.nameless.
Proof. vm_compute. discriminate. Qed.

(** C5, amended: for every file with a non-empty name, [validateFile]
    runs the size, MIME, extension and signature checks without
    short-circuiting, and its error list is the entries of the violated
    checks in that order, one per violated check; for a file whose name is
    empty it stops at the presence check and reports the single error
    File name is required.  The result is valid exactly when the list is
    empty. *)
Theorem validateFile_reports_every_check (P : Platform)
        (config : FileValidationConfig) (file : File) :
  errors (validateFile P config (Some file)) =
  (if String.eqb (name file) "" then ["File name is required"]
   else (size_check config file ++ mime_check config file ++
         extension_check config file ++ signature_check file)%list)
  /\ (isValid (validateFile P config (Some file)) = true <->
      errors (validateFile P config (Some file)) = []).
Proof.
  split; [apply validateFile_errors_by_name|].
  rewrite validateFile_isValid.
  destruct (errors (validateFile P config (Some file))); simpl; split;
    congruence.
Qed.

(** *** C6 *)

(** C6: for a declared type with a non-empty entry in the signature
    table, content that begins with none of the candidate signatures makes
    the result invalid (with the signature mismatch among the errors of a
    named file), and content that begins with one of them yields no
    signature error, whatever the file name. *)
Theorem signature_table_decides (P : Platform) (config : FileValidationConfig)
        (file : File) (expected : list (list N)) :
  lookup (type file) signatures = Some expected ->
  expected <> [] ->
  ((forall s, In s expected -> ~ begins_with file s) ->
   isValid (validateFile P config (Some file)) = false /\
   errors (validateFile P config (Some file)) <> [] /\
   (name file <> "" ->
    In (signature_mismatch file) (errors (validateFile P config (Some file)))))
  /\
  ((exists s, In s expected /\ begins_with file s) ->
   forall e, In e (errors (validateFile P config (Some file))) ->
             ~ In e (signature_errors file)).
Proof.
  intros Hlookup Hne.
  pose proof (signature_check_of_table file expected Hlookup Hne) as Hsig.
  split.
  - intros Hnone.
    assert (Hex : List.existsb (JS.every_byte_matches (content file)) expected = false).
    { destruct (List.existsb _ expected) eqn:E; [|reflexivity].
      apply List.existsb_exists in E. destruct E as [s [Hin Hs]].
      apply every_byte_matches_spec in Hs. exfalso. exact (Hnone s Hin Hs). }
    rewrite Hex in Hsig.
    assert (Hin : name file <> "" ->
                  In (signature_mismatch file)
                     (errors (validateFile P config (Some file)))).
    { intros Hname. rewrite (validateFile_errors P config file Hname), Hsig.
      rewrite !List.in_app_iff. right. right. right. left. reflexivity. }
    assert (Herr : errors (validateFile P config (Some file)) <> []).
    { destruct (String.eqb_spec (name file) "") as [E|E].
      - rewrite (validateFile_errors_nameless P config file E). discriminate.
      - specialize (Hin E). intros Hnil. rewrite Hnil in Hin. exact Hin. }
    split; [|split; assumption].
    rewrite validateFile_isValid.
    destruct (errors (validateFile P config (Some file))); [contradiction|reflexivity].
  - intros [s [Hin Hs]] e He.
    assert (Hex : List.existsb (JS.every_byte_matches (content file)) expected = true).
    { apply List.existsb_exists. exists s. split; [exact Hin|].
      apply every_byte_matches_spec. exact Hs. }
    rewrite Hex in Hsig.
    rewrite validateFile_errors_by_name in He.
    destruct (String.eqb (name file) "").
    + destruct He as [<-|[]]. unfold signature_errors, signature_mismatch. simpl.
      intros [H|[H|[H|[]]]]; discriminate.
    + rewrite Hsig, !List.in_app_iff in He.
      destruct He as [He|[He|[He|[]]]].
      * apply in_size_check in He. subst e. apply size_error_not_signature.
      * apply in_mime_check in He. subst e. apply mime_error_not_signature.
      * apply in_extension_check in He. subst e. apply extension_error_not_signature.
Qed.

(** C6 at two inputs: a PE header declared as a JPEG image is invalid; a
    GIF image named [a.png] gets no signature error. *)
Lemma signature_table_decides_witness :
  isValid (validateFile Examples.platform GENERAL (Some Examples.disguised_pe)) = false
  /\ forall e,
       In e (errors (validateFile Examples.platform GENERAL
                                  (Some Examples.gif_named_png))) ->
       ~ In e (signature_errors Examples.gif_named_png).
Proof.
  split.
  - refine (proj1 (proj1 (signature_table_decides Examples.platform GENERAL
                            Examples.disguised_pe [[0xFF; 0xD8; 0xFF]%N]
                            eq_refl _) _)).
    + discriminate.
    + intros s [<-|[]]. vm_compute. discriminate.
  - refine (proj2 (signature_table_decides Examples.platform GENERAL
                     Examples.gif_named_png
                     [[0x47; 0x49; 0x46; 0x38; 0x37; 0x61];
                      [0x47; 0x49; 0x46; 0x38; 0x39; 0x61]]%N
                     eq_refl _) _).
    + discriminate.
    + exists [0x47; 0x49; 0x46; 0x38; 0x39; 0x61]%N. split.
      * right. left. reflexivity.
      * reflexivity.
Defined.

(** *** C8 *)

(** C8, as stated, fails: a file without a name whose size exceeds the
    maximum gets no error that names the two sizes. *)
Lemma C8_nameless_file_has_no_size_error :
  (maxFileSize Examples.tiny_images < size Examples.nameless)%N /\
  ~ In (size_error Examples.tiny_images Examples.nameless)
       (errors (validateFile Examples.platform Examples.tiny_images
                             (Some Examples.nameless))).
Proof.
  split; [reflexivity|].
  vm_compute. intros [H|[]]. discriminate.
Qed.

(** C8, amended: for every file with a non-empty name and a size above
    [config.maxFileSize], the result is invalid and its errors contain
    the string that names the actual size and the configured maximum,
    both printed by [formatBytes]; a size below 1024^4 bytes is printed
    in the binary-prefixed units B, KB, MB, GB. *)
Theorem oversize_file_is_rejected (P : Platform) (config : FileValidationConfig)
        (file : File) :
  name file <> "" ->
  (maxFileSize config < size file)%N ->
  isValid (validateFile P config (Some file)) = false /\
  In ("File size " ++ formatBytes (size file) ++
      " exceeds maximum allowed size " ++ formatBytes (maxFileSize config))
     (errors (validateFile P config (Some file))) /\
  ((size file < 1024 ^ 4)%N ->
   binary_prefixed (size file) (formatBytes (size file)) /\
   binary_prefixed (maxFileSize config) (formatBytes (maxFileSize config))).
Proof.
  intros Hname Hsize.
  assert (Hin : In (size_error config file)
                   (errors (validateFile P config (Some file)))).
  { rewrite (validateFile_errors P config file Hname). unfold size_check.
    apply N.ltb_lt in Hsize. rewrite Hsize. left. reflexivity. }
  split; [|split].
  - rewrite validateFile_isValid.
    destruct (errors (validateFile P config (Some file))); [destruct Hin|reflexivity].
  - exact Hin.
  - intros Hbound. split; apply formatBytes_binary_prefixed; lia.
Qed.

(** C8 at a five-byte text file under a four-byte limit. *)
Lemma oversize_file_is_rejected_witness :
  isValid (validateFile Examples.platform Examples.tiny_images
                        (Some Examples.hello_txt)) = false /\
  In "File size 5 B exceeds maximum allowed size 4 B"
     (errors (validateFile Examples.platform Examples.tiny_images
                           (Some Examples.hello_txt))).
Proof.
  pose proof (oversize_file_is_rejected Examples.platform Examples.tiny_images
                Examples.hello_txt) as H.
  destruct H as [H1 [H2 _]].
  - discriminate.
  - reflexivity.
  - split; [exact H1|exact H2].
Defined.

(** *** C7 *)

Lemma labelled_results (P : Platform) config (files : list (option File)) (index : nat) :
  List.flat_map
    (fun '(index, (file, result)) =>
       if negb (isValid result) then
         List.map (fun error => file_label index file ++ error) (errors result)
       else [])
    (List.combine
       (List.seq index (List.length (List.map (validateFile P config) files)))
       (List.combine files (List.map (validateFile P config) files)))
  = labelled_errors P config file_label index files.
Proof.
  revert index. induction files as [|file rest IH]; intros index; [reflexivity|].
  cbn [List.map List.length List.seq List.combine List.flat_map labelled_errors].
  rewrite IH. f_equal.
  destruct (isValid (validateFile P config file)) eqn:Hvalid; [|reflexivity].
  rewrite (valid_has_no_errors P config file Hvalid). reflexivity.
Qed.

Lemma validateFiles_errors (P : Platform) config files :
  errors (validateFiles P config files) =
  (too_many_files config files ++ labelled_errors P config file_label 0 files)%list.
Proof.
  unfold validateFiles, too_many_files, JS.push_all. cbv zeta. cbn [errors].
  rewrite labelled_results. reflexivity.
Qed.

Lemma labelled_errors_named (P : Platform) config (files : list File) (index : nat) :
  Forall (fun f => name f <> "") files ->
  labelled_errors P config file_label index (List.map Some files) =
  labelled_errors P config name_label index (List.map Some files).
Proof.
  intros Hnamed. revert index.
  induction Hnamed as [|file rest Hname _ IH]; intros index; [reflexivity|].
  cbn [List.map labelled_errors]. rewrite IH. f_equal.
  unfold file_label, name_label.
  destruct (String.eqb_spec (name file) ""); [contradiction|reflexivity].
Qed.

(** C7, as stated, fails: the error of a file without a name is labelled
    with the word unknown, not with the (empty) file name. *)
Lemma C7_nameless_file_is_labelled_unknown :
  (N.of_nat (List.length [Some Examples.nameless])
   <= maxFiles Examples.tiny_images)%N /\
  errors (validateFiles Examples.platform Examples.tiny_images
                        [Some Examples.nameless])
  = ["File 1 (unknown): File name is required"] /\
  labelled_errors Examples.platform Examples.tiny_images name_label 0
                  [Some Examples.nameless]
  = ["File 1 (): File name is required"] /\
  errors (validateFiles Examples.platform Examples.tiny_images
                        [Some Examples.nameless])
  <> labelled_errors Examples.platform Examples.tiny_images name_label 0
                     [Some Examples.nameless].
Proof.
  split; [vm_compute; discriminate|].
  split; [reflexivity|]. split; [reflexivity|].
  vm_compute. discriminate.
Qed.

(** C7, amended: for every list of files with non-empty names, the
    errors of [validateFiles] are the too-many-files error, present
    exactly when the list is longer than [config.maxFiles], followed by
    the errors of [validateFile] on each file in order, each prefixed with
    its 1-based index and file name (a file whose name is empty is
    labelled unknown instead). *)
Theorem validateFiles_collects_errors (P : Platform)
        (config : FileValidationConfig) (files : list File) :
  Forall (fun f => name f <> "") files ->
  errors (validateFiles P config (List.map Some files)) =
  (too_many_files config (List.map Some files) ++
   labelled_errors P config name_label 0 (List.map Some files))%list
  /\ ((N.of_nat (List.length files) <= maxFiles config)%N ->
      too_many_files config (List.map Some files) = [])
  /\ ((maxFiles config < N.of_nat (List.length files))%N ->
      too_many_files config (List.map Some files) =
      ["Too many files. Maximum allowed: " ++ JS.string_of_N (maxFiles config) ++
       ", provided: " ++ JS.string_of_nat (List.length files)]).
Proof.
  intros Hnamed. split; [|split].
  - rewrite validateFiles_errors, labelled_errors_named by exact Hnamed.
    reflexivity.
  - intros Hle. unfold too_many_files. rewrite List.length_map.
    destruct (N.ltb_spec (maxFiles config) (N.of_nat (List.length files)));
      [lia|reflexivity].
  - intros Hlt. unfold too_many_files. rewrite List.length_map.
    destruct (N.ltb_spec (maxFiles config) (N.of_nat (List.length files)));
      [reflexivity|lia].
Qed.

(** C7 at a batch of two named files within the limit. *)
Lemma validateFiles_collects_errors_witness :
  errors (validateFiles Examples.platform Examples.tiny_images
            [Some Examples.hello_txt; Some Examples.gif_named_png])
  = [ "File 1 (a.txt): File size 5 B exceeds maximum allowed size 4 B";
      "File 1 (a.txt): File type text/plain is not allowed. Allowed types: image/*";
      "File 2 (a.png): File size 6 B exceeds maximum allowed size 4 B" ].
Proof.
  pose proof (validateFiles_collects_errors Examples.platform Examples.tiny_images
                [Examples.hello_txt; Examples.gif_named_png]) as H.
  destruct H as [H _].
  - repeat constructor; discriminate.
  - exact (eq_trans H eq_refl).
Defined.

(** *** C9 *)

Lemma family_accepted (fileType entry : string) :
  fileType = entry \/ accepts_family fileType entry = true ->
  isMatchingMimeType fileType entry = true.
Proof.
  unfold accepts_family, isMatchingMimeType, family_prefix, JS.startsWith,
    JS.slice_0_neg.
  intros [->|H].
  - destruct (JS.endsWith entry "/*").
    + apply prefix_substring_0.
    + apply String.eqb_refl.
  - destruct (JS.endsWith entry "/*"); [|exact H].
    apply (prefix_shorter entry fileType _ (String.length entry - 1)); [lia|exact H].
Qed.

Lemma signature_check_subset file e :
  In e (signature_check file) -> In e (signature_errors file).
Proof.
  destruct (signature_check_cases file) as [-> | ->]; [intros []|].
  intros [<-|[]]. left. reflexivity.
Qed.

Lemma mime_error_not_elsewhere config file :
  ~ In (mime_error config file)
       (size_check config file ++ extension_check config file ++
        signature_check file)%list.
Proof.
  rewrite !List.in_app_iff. intros [H|[H|H]].
  - apply in_size_check in H. unfold mime_error, size_error in H. discriminate.
  - apply in_extension_check in H. unfold mime_error, extension_error in H.
    discriminate.
  - apply signature_check_subset in H.
    exact (mime_error_not_signature config file H).
Qed.

(** C9, as stated, fails twice: the entry [image/*] accepts the declared
    type [imagex/gif], which does not begin with [image/]; and a file
    without a name gets no MIME error although its type is outside the
    allow-list. *)
Lemma C9_family_match_is_too_wide :
  (isMatchingMimeType "imagex/gif" "image/*" = true /\
   JS.startsWith "imagex/gif" "image/" = false /\
   ~ mime_error_iff_outside_families Examples.platform Examples.tiny_images
                                     Examples.imagex_gif)
  /\ ~ mime_error_iff_outside_families Examples.platform Examples.tiny_images
                                       Examples.nameless.
Proof.
  split; [split; [reflexivity|split; [reflexivity|]]|].
  - intros [_ H]. specialize (H eq_refl). vm_compute in H.
    destruct H as [H|[]]. discriminate.
  - intros [_ H]. specialize (H eq_refl). vm_compute in H.
    destruct H as [H|[]]. discriminate.
Qed.

(** C9, amended: when [config.allowedMimeTypes] is non-empty and the
    file has a non-empty name, [validateFile] reports no MIME error if the
    declared type equals some entry or, for an entry ending in slash-star,
    begins with the family of the entry followed by the slash; it reports
    the hard error listing the allowed set, and the result is invalid, if
    the declared type equals no entry and begins with the family name of
    no entry ending in slash-star. *)
Theorem mime_allow_list (P : Platform) (config : FileValidationConfig)
        (file : File) :
  name file <> "" ->
  allowedMimeTypes config <> [] ->
  ((exists entry, In entry (allowedMimeTypes config) /\
                  (type file = entry \/ accepts_family (type file) entry = true)) ->
   ~ In (mime_error config file) (errors (validateFile P config (Some file))))
  /\
  ((forall entry, In entry (allowedMimeTypes config) ->
                  if JS.endsWith entry "/*"
                  then JS.startsWith (type file) (family_name entry) = false
                  else type file <> entry) ->
   In ("File type " ++ type file ++ " is not allowed. Allowed types: " ++
       JS.join ", " (allowedMimeTypes config))
      (errors (validateFile P config (Some file))) /\
   isValid (validateFile P config (Some file)) = false).
Proof.
  intros Hname Hallowed.
  rewrite validateFile_isValid, (validateFile_errors P config file Hname).
  split.
  - intros [entry [Hin Hacc]].
    assert (Hex : List.existsb (isMatchingMimeType (type file))
                               (allowedMimeTypes config) = true).
    { apply List.existsb_exists. exists entry. split; [exact Hin|].
      apply family_accepted. exact Hacc. }
    assert (Hcheck : mime_check config file = []).
    { unfold mime_check, mime_violated.
      destruct (allowedMimeTypes config); [contradiction|].
      rewrite Hex. reflexivity. }
    rewrite Hcheck. cbn [List.app]. apply mime_error_not_elsewhere.
  - intros Hnone.
    assert (Hex : List.existsb (isMatchingMimeType (type file))
                               (allowedMimeTypes config) = false).
    { destruct (List.existsb _ (allowedMimeTypes config)) eqn:E; [|reflexivity].
      apply List.existsb_exists in E. destruct E as [entry [Hin Hm]].
      specialize (Hnone entry Hin). unfold isMatchingMimeType in Hm.
      destruct (JS.endsWith entry "/*").
      - unfold family_name in Hnone. congruence.
      - apply String.eqb_eq in Hm. contradiction. }
    assert (Hcheck : mime_check config file = [mime_error config file]).
    { unfold mime_check, mime_violated.
      destruct (allowedMimeTypes config); [contradiction|].
      rewrite Hex. reflexivity. }
    rewrite Hcheck.
    assert (Hin : In (mime_error config file)
                     (size_check config file ++ [mime_error config file] ++
                      extension_check config file ++ signature_check file)%list).
    { rewrite !List.in_app_iff. right. left. left. reflexivity. }
    split; [exact Hin|].
    destruct (size_check config file ++ _)%list; [destruct Hin|reflexivity].
Qed.

(** C9 at two inputs under the allow-list [image/*]: a GIF image is
    accepted, a text file is refused. *)
Lemma mime_allow_list_witness :
  ~ In (mime_error Examples.tiny_images Examples.gif_named_png)
       (errors (validateFile Examples.platform Examples.tiny_images
                             (Some Examples.gif_named_png)))
  /\ In "File type text/plain is not allowed. Allowed types: image/*"
        (errors (validateFile Examples.platform Examples.tiny_images
                              (Some Examples.hello_txt))).
Proof.
  split.
  - refine (proj1 (mime_allow_list Examples.platform Examples.tiny_images
                     Examples.gif_named_png _ _) _).
    + discriminate.
    + discriminate.
    + exists "image/*". split; [left; reflexivity|right; reflexivity].
  - refine (proj1 (proj2 (mime_allow_list Examples.platform Examples.tiny_images
                            Examples.hello_txt _ _) _)).
    + discriminate.
    + discriminate.
    + intros entry [<-|[]]. reflexivity.
Defined.

End ValidatorSpec.


(* ===================================================================== *)
(** ** Properties of the scanner                                         *)
(* ===================================================================== *)

Module ScannerSpec.
Import SecurityScanner ScanChecks.

(** *** Loops that push *)

(** A loop that pushes [g a] for every [a] with [c a] appends the images
    of the selected elements, in order. *)
Lemma fold_push {A B : Type} (c : A -> bool) (g : A -> B) (l : list A) (acc : list B) :
  List.fold_left (fun acc a => if c a then JS.push acc (g a) else acc) l acc
  = (acc ++ List.map g (List.filter c l))%list.
Proof.
  revert acc. induction l as [|a l IH]; intros acc; simpl.
  - rewrite List.app_nil_r. reflexivity.
  - rewrite IH. destruct (c a); [|reflexivity].
    unfold JS.push. rewrite <- List.app_assoc. reflexivity.
Qed.

(** *** The aggregate *)

Lemma filter_length_0 {A : Type} (p : A -> bool) (l : list A) :
  (List.length (List.filter p l) =? 0)%nat = true <->
  forall x, In x l -> p x = false.
Proof.
  induction l as [|a l IH]; simpl.
  - split; [intros _ x []|reflexivity].
  - destruct (p a) eqn:Ha; simpl.
    + split; [discriminate|]. intros H. specialize (H a (or_introl eq_refl)).
      congruence.
    + rewrite IH. split.
      * intros H x [<-|Hx]; [exact Ha|exact (H x Hx)].
      * intros H x Hx. apply H. right. exact Hx.
Qed.

Lemma Severity_eqb_eq (a b : Severity) : Severity_eqb a b = true <-> a = b.
Proof. destruct a, b; simpl; split; congruence. Qed.

Lemma aggregate_isClean (P : Platform) (found : list SecurityThreat) :
  isClean (aggregate P found) = true <-> no_severe_threat found.
Proof.
  unfold aggregate, no_severe_threat. cbn [isClean].
  rewrite andb_true_iff, !filter_length_0. split.
  - intros [Hc Hh] t Ht. specialize (Hc t Ht). specialize (Hh t Ht).
    split; intros E; rewrite E in *; discriminate.
  - intros H. split; intros t Ht; destruct (H t Ht) as [Hh Hc];
      destruct (Severity_eqb (severity t) _) eqn:E; try reflexivity;
      apply Severity_eqb_eq in E; contradiction.
Qed.

Lemma aggregate_severe (P : Platform) (found : list SecurityThreat) (t : SecurityThreat) :
  In t found -> severity t = high \/ severity t = critical ->
  isClean (aggregate P found) = false.
Proof.
  intros Ht Hs. destruct (isClean (aggregate P found)) eqn:E; [|reflexivity].
  apply aggregate_isClean in E. destruct (E t Ht) as [Hh Hc].
  destruct Hs; contradiction.
Qed.


(** *** The two outcomes of [scanFile] *)

Lemma scanFile_cases (P : Platform) config file :
  (exists found, scanFile_detectors P config file = Ok found /\
                 scanFile P config file = Ok (aggregate P found))
  \/ (exists e, scanFile_detectors P config file = Throw e /\
                scanFile P config file = Ok (scan_error_result P)).
Proof.
  unfold scanFile.
  destruct (scanFile_detectors P config file) as [found|e].
  - left. exists found. split; reflexivity.
  - right. exists e. split; reflexivity.
Qed.

(** With a configuration, no detector stage throws; the threats of the
    disguise detector, and those of the YARA stage when it is enabled, are
    among the threats found. *)
Lemma detectors_with_config (P : Platform) config file :
  exists found,
    scanFile_detectors P (Some config) file = Ok found /\
    (forall t, In t (validateMimeAndMagicBytes P file) -> In t found) /\
    (enableYaraScanning config = true -> yaraRules config <> None ->
     forall t, In t (scanWithYaraRules config file) -> In t found).
Proof.
  cbv beta iota zeta delta [scanFile_detectors this_config exc_bind JS.push_all].
  eexists. split; [reflexivity|]. split.
  - intros t Ht.
    destruct (enableVirusScanning config), (enableYaraScanning config && _),
      (enableInjectionDetection config);
      rewrite ?List.in_app_iff; tauto.
  - intros Hy Hr t Ht. rewrite Hy.
    destruct (yaraRules config) eqn:E; [|contradiction].
    cbn [andb].
    destruct (enableVirusScanning config); rewrite ?List.in_app_iff; tauto.
Qed.

(** Scenario A: an empty text file is valid, and its scan reports the one
    low-severity Empty File threat and is clean. *)
Example scenario_A :
  FileValidator.isValid
    (FileValidator.validateFile Examples.platform FileValidator.GENERAL
                                (Some Examples.empty_txt)) = true /\
  scanFile Examples.platform (Some MODERATE) Examples.empty_txt
  = Ok (mkScanResult true
          [mkThreat suspicious_content "Empty File" low
                    "File is empty which may be suspicious" None None]
          0 "SecureDrop Security Engine v1.0"
          (Qmax 0 (1 - inject_Z 1 * (1 # 10))) false).
Proof. split; reflexivity. Qed.

(** *** C2 *)



(** *** C3 *)



(** *** C4 *)

Lemma other_signature_misses (b : N) (sig : list N) (tl : list Byte.byte) :
  b <> 0x4d%N ->
  matchesSignature (Byte.x4d :: tl) (b :: sig) = false.
Proof.
  intros Hb. unfold matchesSignature.
  destruct (_ <? _)%nat; [reflexivity|].
  cbn [JS.every_byte_matches].
  destruct (N.eqb_spec (Byte.to_N Byte.x4d) b) as [E|E]; [|reflexivity].
  exfalso. apply Hb. rewrite <- E. reflexivity.
Qed.

Lemma disguise_detector_flags_pe (P : Platform) (file : File) (rest : list Byte.byte) :
  content file = Byte.x4d :: Byte.x5a :: rest ->
  In (pe_threat file) (validateMimeAndMagicBytes P file).
Proof.
  intros Hc. unfold validateMimeAndMagicBytes, slice_bytes. rewrite Hc.
  cbv zeta. cbn [List.firstn executableSignatures List.fold_left exe_signature
                 exe_name exe_severity].
  rewrite !other_signature_misses by discriminate.
  change (matchesSignature (Byte.x4d :: Byte.x5a :: List.firstn 62 rest)
                           [0x4d; 0x5a]%N) with true.
  cbn [String.eqb Ascii.eqb Bool.eqb andb].
  destruct (List.existsb _ scriptPatterns); unfold JS.push;
    cbn [List.app]; left; reflexivity.
Qed.

(** C4, as stated, fails: the signature check of the validator does not
    pass for the file of scenario B; it reports that the leading bytes do
    not match the declared type. *)
Lemma C4_signature_check_rejects_scenario_B :
  FileValidator.magic_isValid
    (FileValidator.validateMagicBytes Examples.disguised_pe) <> true /\
  FileValidator.validateMagicBytes Examples.disguised_pe
  = FileValidator.mkMagic
      false (Some "File signature does not match expected type image/jpeg").
Proof. split; [discriminate|reflexivity]. Qed.

(** C4, amended (scenario B): for a file named [photo.jpg], declared
    [image/jpeg], whose bytes begin with [4D 5A], the signature check of
    the validator fails, because the bytes do not begin with the JPEG
    signature, and validation is invalid; the disguise detector of the
    scanner reports the critical Windows PE Executable threat; and the
    scan result is not clean. *)
Theorem scenario_B (P : Platform) (rest : list Byte.byte) (modified : Z) :
  let file := mkFile "photo.jpg" "image/jpeg" (Byte.x4d :: Byte.x5a :: rest)
                     modified in
  FileValidator.validateMagicBytes file
  = FileValidator.mkMagic
      false (Some "File signature does not match expected type image/jpeg")
  /\ (forall config,
        FileValidator.isValid (FileValidator.validateFile P config (Some file))
        = false /\
        In "File signature does not match expected type image/jpeg"
           (FileValidator.errors (FileValidator.validateFile P config (Some file))))
  /\ In (mkThreat suspicious_content "Windows PE Executable" critical
           "File contains Windows PE Executable signature but is disguised as image/jpeg"
           None None)
        (validateMimeAndMagicBytes P file)
  /\ (forall config, exists result,
        scanFile P config file = Ok result /\ isClean result = false)
  /\ (forall config, exists result,
        scanFile P (Some config) file = Ok result /\
        In (pe_threat file) (threats result)).
Proof.
  intros file.
  assert (Hmagic : FileValidator.validateMagicBytes file
                   = FileValidator.mkMagic false
                       (Some "File signature does not match expected type image/jpeg"))
    by reflexivity.
  assert (Hpe : In (pe_threat file) (validateMimeAndMagicBytes P file))
    by (apply (disguise_detector_flags_pe P file rest); reflexivity).
  split; [exact Hmagic|]. split; [|split; [exact Hpe|split]].
  - intros config.
    assert (Hin : In "File signature does not match expected type image/jpeg"
                     (FileValidator.errors
                        (FileValidator.validateFile P config (Some file)))).
    { rewrite ValidatorSpec.validateFile_errors by discriminate.
      unfold Checks.signature_check. rewrite Hmagic.
      rewrite !List.in_app_iff. right. right. right. left. reflexivity. }
    split; [|exact Hin].
    rewrite ValidatorSpec.validateFile_isValid.
    destruct (FileValidator.errors _); [destruct Hin|reflexivity].
  - intros config.
    destruct (scanFile_cases P config file) as [[found [Hd Hs]]|[e [Hd Hs]]];
      rewrite Hs; eexists; (split; [reflexivity|]); [|reflexivity].
    destruct config as [c|]; [|discriminate].
    destruct (detectors_with_config P c file) as [found' [Hf [Hm _]]].
    rewrite Hf in Hd. injection Hd as ->.
    apply (aggregate_severe P found (pe_threat file)); [|right; reflexivity].
    apply Hm. exact Hpe.
  - intros config.
    destruct (detectors_with_config P config file) as [found [Hf [Hm _]]].
    exists (aggregate P found). split.
    + unfold scanFile. rewrite Hf. reflexivity.
    + apply Hm. exact Hpe.
Qed.

(** *** C10 *)

Lemma yara_stage_reports (config : SecurityScanConfig) (file : File)
      (rules : list string) (rule : string) :
  yaraRules config = Some rules ->
  In rule rules ->
  JS.includes rule "malware" = true ->
  content file <> [] ->
  In (yara_threat rule) (scanWithYaraRules config file).
Proof.
  intros Hrules Hin Hmal Hne. unfold scanWithYaraRules. rewrite Hrules.
  cbv zeta.
  rewrite fold_push.
  cbn [List.app]. apply List.in_map_iff. exists rule. split; [reflexivity|].
  apply List.filter_In. split; [exact Hin|].
  unfold matchesYaraRule. rewrite Hmal.
  destruct (content file); [contradiction|reflexivity].
Qed.

Lemma yara_rule_makes_unclean (P : Platform) (config : SecurityScanConfig)
      (file : File) (rules : list string) (rule : string) :
  enableYaraScanning config = true ->
  yaraRules config = Some rules ->
  In rule rules ->
  JS.includes rule "malware" = true ->
  content file <> [] ->
  exists result,
    scanFile P (Some config) file = Ok result /\
    In (yara_threat rule) (threats result) /\
    isClean result = false.
Proof.
  intros Hen Hrules Hin Hmal Hne.
  destruct (detectors_with_config P config file) as [found [Hf [_ Hy]]].
  assert (Hfound : In (yara_threat rule) found).
  { apply Hy; [exact Hen|rewrite Hrules; discriminate|].
    apply (yara_stage_reports config file rules rule); assumption. }
  exists (aggregate P found). split; [|split].
  - unfold scanFile. rewrite Hf. reflexivity.
  - exact Hfound.
  - apply (aggregate_severe P found (yara_threat rule)); [exact Hfound|].
    left. reflexivity.
Qed.

(** C10: with YARA scanning enabled and a rule whose text contains
    [malware], the scan of every non-empty file reports the high-severity
    [yara_match] threat of that rule and is not clean; hence under
    [SECURITY_CONFIGS.STRICT], whose rules include [malware.yar], every
    non-empty file is reported unclean. *)
Theorem yara_malware_rule_flags_every_file (P : Platform) :
  (forall (config : SecurityScanConfig) (file : File)
          (rules : list string) (rule : string),
      enableYaraScanning config = true ->
      yaraRules config = Some rules ->
      In rule rules ->
      JS.includes rule "malware" = true ->
      content file <> [] ->
      exists result,
        scanFile P (Some config) file = Ok result /\
        In (mkThreat yara_match ("YARA Rule: " ++ rule) high
                     ("File matches YARA rule: " ++ rule) None None)
           (threats result) /\
        isClean result = false)
  /\
  (forall file : File,
      content file <> [] ->
      exists result,
        scanFile P (SECURITY_CONFIGS "STRICT") file = Ok result /\
        In (yara_threat "malware.yar") (threats result) /\
        isClean result = false).
Proof.
  split.
  - intros config file rules rule. apply yara_rule_makes_unclean.
  - intros file Hne.
    apply (yara_rule_makes_unclean P STRICT file
             ["malware.yar"; "suspicious.yar"] "malware.yar");
      [reflexivity|reflexivity|left; reflexivity|reflexivity|exact Hne].
Qed.

(** C10 at a five-byte text file under the strict configuration. *)
Lemma yara_malware_rule_flags_every_file_witness :
  exists result,
    scanFile Examples.platform (Some STRICT) Examples.hello_txt = Ok result /\
    In (yara_threat "malware.yar") (threats result) /\
    isClean result = false.
Proof.
  apply (proj1 (yara_malware_rule_flags_every_file Examples.platform)
               STRICT Examples.hello_txt
               ["malware.yar"; "suspicious.yar"] "malware.yar").
  - reflexivity.
  - reflexivity.
  - left. reflexivity.
  - reflexivity.
  - discriminate.
Defined.

End ScannerSpec.


(* ===================================================================== *)
(** ** Properties of the upload pipeline                                 *)
(* ===================================================================== *)

Module PipelineSpec.
Import SecureDropAPI.
Local Open Scope pipeline_scope.

(** *** Computations that do not scan *)

Lemma scanless_ret {A} (a : A) : scanless (ret a).
Proof. intros run. reflexivity. Qed.

Lemma scanless_throw {A} (e : string) : scanless (@throw A e).
Proof. intros run. reflexivity. Qed.

Lemma scanless_lift {A} (x : Exc A) : scanless (lift x).
Proof. intros run. reflexivity. Qed.

Lemma scanless_read_metadata : scanless read_metadata.
Proof. intros run. reflexivity. Qed.

Lemma scanless_assign_metadata (md : FileMetadata) : scanless (assign_metadata md).
Proof. intros run. reflexivity. Qed.

Lemma scans_run_push (tr : list Event) (ev : Event) :
  scans_run (JS.push tr ev) =
  (scans_run tr + match ev with ScannerRun _ => 1 | _ => 0 end)%nat.
Proof.
  unfold scans_run, JS.push. rewrite List.filter_app, List.length_app.
  destruct ev; reflexivity.
Qed.

Lemma scanless_emit (ev : Event) :
  match ev with ScannerRun _ => False | _ => True end -> scanless (emit ev).
Proof.
  intros Hev run. unfold emit. cbn [fst trace]. rewrite scans_run_push.
  destruct ev; try contradiction; lia.
Qed.

Lemma scanless_bind {A B} (m : M A) (k : A -> M B) :
  scanless m -> (forall a, scanless (k a)) -> scanless (bind m k).
Proof.
  intros Hm Hk run. unfold bind. specialize (Hm run).
  destruct (m run) as [run' [a|e]]; cbn [fst] in *.
  - rewrite (Hk a run'). exact Hm.
  - exact Hm.
Qed.

Lemma scanless_catch {A} (m : M A) (handler : string -> M A) :
  scanless m -> (forall e, scanless (handler e)) -> scanless (catch m handler).
Proof.
  intros Hm Hh run. unfold catch. specialize (Hm run).
  destruct (m run) as [run' [a|e]]; cbn [fst] in *.
  - exact Hm.
  - rewrite (Hh e run'). exact Hm.
Qed.

Lemma scanless_audit_log (action resourceId user : string) (details : AuditDetails) :
  scanless (audit_log action resourceId user details).
Proof. apply scanless_emit. exact I. Qed.

(** Decompose a pipeline computation into its statements. *)
Ltac scanless_step :=
  first
    [ apply scanless_ret
    | apply scanless_throw
    | apply scanless_lift
    | apply scanless_read_metadata
    | apply scanless_assign_metadata
    | apply scanless_audit_log
    | apply scanless_emit; exact I
    | apply scanless_bind; [|intros ?]
    | match goal with
      | |- scanless (match ?x with _ => _ end) => destruct x
      end ].

Lemma scanless_generateFileMetadata (P : Platform) (B : Backend) (file : File) :
  scanless (generateFileMetadata P B file).
Proof. unfold generateFileMetadata. repeat scanless_step. Qed.

(** Without a [beforeScan] hook, step 5 does nothing, whatever
    [requireScan] says. *)
Lemma security_scanning_without_hook (P : Platform) hooks securityConfig file
      options metadata :
  beforeScan hooks = None ->
  security_scanning P hooks securityConfig file options metadata = ret None.
Proof.
  intros Hhook. unfold security_scanning. rewrite Hhook.
  destruct (requireScan options); reflexivity.
Qed.

(** *** C1 *)

(** C1 fails on the code: when no [beforeScan] hook is registered, a call
    of [uploadFile] never runs the security scanner, also with
    [requireScan = true]. *)
Theorem upload_without_beforeScan_hook_never_scans
        (P : Platform) (B : Backend) (hooks : LifecycleHooks)
        (securityConfig : option SecurityScanner.SecurityScanConfig)
        (file : File) (options : BackendUploadOptions) :
  beforeScan hooks = None ->
  scans_run (trace (fst (uploadFile P B hooks securityConfig file options start)))
  = 0%nat.
Proof.
  intros Hhook.
  assert (H : scanless (uploadFile P B hooks securityConfig file options)).
  { unfold uploadFile. apply scanless_catch.
    - unfold uploadFile_try.
      apply scanless_bind; [apply scanless_generateFileMetadata|intros md].
      cbv zeta.
      repeat (rewrite security_scanning_without_hook by exact Hhook);
      repeat scanless_step.
    - intros e. repeat scanless_step. }
  rewrite (H start). reflexivity.
Qed.

(** C1 at the failing input: the default options ([requireScan = true]),
    no hooks, a clean text file.  The scanner is not run; the file is
    stored and comes back with status pending and no scan result. *)
Lemma upload_without_beforeScan_hook_never_scans_witness :
  requireScan default_options = true /\
  scans_run
    (trace (fst (uploadFile Examples.platform Examples.backend no_hooks
                            (Some SecurityScanner.MODERATE) Examples.hello_txt
                            default_options start)))
  = 0%nat.
Proof.
  split; [reflexivity|].
  apply (upload_without_beforeScan_hook_never_scans
           Examples.platform Examples.backend no_hooks
           (Some SecurityScanner.MODERATE) Examples.hello_txt default_options).
  reflexivity.
Defined.

(** The same upload in full: stored unscanned, status pending. *)
Example upload_without_hooks_is_stored_unscanned :
  let '(run, outcome) :=
    uploadFile Examples.platform Examples.backend no_hooks
               (Some SecurityScanner.MODERATE) Examples.hello_txt
               default_options start in
  List.map (fun ev => match ev with
                      | Stored path => path
                      | _ => ""
                      end) (trace run)
  = ["user-1/0-k3x.txt"; ""; ""] /\
  match outcome with
  | Ok result => status result = "pending" /\ securityScan result = None
  | Throw _ => False
  end.
Proof. vm_compute. repeat split. Qed.

(** With a [beforeScan] hook that answers true, the same upload runs the
    scanner once and is approved. *)
Example upload_with_consenting_hook_is_scanned :
  let '(run, outcome) :=
    uploadFile Examples.platform Examples.backend always_scan
               (Some SecurityScanner.MODERATE) Examples.hello_txt
               default_options start in
  scans_run (trace run) = 1%nat /\
  match outcome with
  | Ok result => status result = "approved"
  | Throw _ => False
  end.
Proof. vm_compute. repeat split. Qed.

(** With a [beforeScan] hook that answers false, the scan is vetoed. *)
Example upload_with_vetoing_hook_is_not_scanned :
  let '(run, outcome) :=
    uploadFile Examples.platform Examples.backend never_scan
               (Some SecurityScanner.MODERATE) Examples.hello_txt
               default_options start in
  scans_run (trace run) = 0%nat /\
  match outcome with
  | Ok result => status result = "pending"
  | Throw _ => False
  end.
Proof. vm_compute. repeat split. Qed.

(** Scenario B through the pipeline: the upload is rejected by the
    validator before the scanner is reached. *)
Example upload_of_scenario_B_is_rejected :
  snd (uploadFile Examples.platform Examples.backend always_scan
                  (Some SecurityScanner.MODERATE) Examples.disguised_pe
                  default_options start)
  = Throw "File validation failed: File signature does not match expected type image/jpeg".
Proof. reflexivity. Qed.

End PipelineSpec.


(* ===================================================================== *)
(** ** Further properties: strings and file names                        *)
(* ===================================================================== *)

Module StringFacts.
Import Notions.

Lemma substring_0_length_app (a b : string) :
  String.substring 0 (String.length a) (a ++ b) = a.
Proof.
  induction a as [|c a IH]; simpl.
  - destruct b; reflexivity.
  - rewrite IH. reflexivity.
Qed.

Lemma substring_skip_app (a b : string) :
  String.substring (String.length a) (String.length b) (a ++ b) = b.
Proof.
  induction a as [|c a IH]; simpl.
  - induction b as [|d b IHb]; simpl; [reflexivity|]. rewrite IHb. reflexivity.
  - exact IH.
Qed.

Lemma length_app (a b : string) :
  String.length (a ++ b) = (String.length a + String.length b)%nat.
Proof. induction a as [|c a IH]; simpl; [reflexivity|]. rewrite IH. reflexivity. Qed.

Lemma endsWith_app (a suffix : string) : JS.endsWith (a ++ suffix) suffix = true.
Proof.
  unfold JS.endsWith. rewrite length_app.
  replace (String.length a + String.length suffix - String.length suffix)%nat
    with (String.length a) by lia.
  rewrite substring_skip_app, String.eqb_refl.
  rewrite andb_true_r. apply Nat.leb_le. lia.
Qed.

Lemma slice_0_neg_app (a suffix : string) :
  JS.slice_0_neg (String.length suffix) (a ++ suffix) = a.
Proof.
  unfold JS.slice_0_neg. rewrite length_app.
  replace (String.length a + String.length suffix - String.length suffix)%nat
    with (String.length a) by lia.
  apply substring_0_length_app.
Qed.

(** *** Splitting at a character *)

Lemma split_not_nil (sep : ascii) (s : string) : JS.split sep s <> [].
Proof.
  induction s as [|c s IH]; simpl; [discriminate|].
  destruct (Ascii.eqb c sep); [discriminate|].
  destruct (JS.split sep s); [contradiction|discriminate].
Qed.

Lemma split_without_sep (sep : ascii) (s : string) :
  has_char sep s = false -> JS.split sep s = [s].
Proof.
  induction s as [|c s IH]; simpl; [reflexivity|].
  intros H. apply orb_false_iff in H. destruct H as [Hc Hs].
  rewrite Hc, (IH Hs). reflexivity.
Qed.

Lemma split_app (sep : ascii) (a b : string) :
  JS.split sep (a ++ String sep b) = (JS.split sep a ++ JS.split sep b)%list.
Proof.
  induction a as [|c a IH]; simpl.
  - rewrite Ascii.eqb_refl. reflexivity.
  - destruct (Ascii.eqb c sep); rewrite IH; [reflexivity|].
    pose proof (split_not_nil sep a) as Hne.
    destruct (JS.split sep a); [contradiction|reflexivity].
Qed.

Lemma split_length_with_sep (sep : ascii) (s : string) :
  has_char sep s = true -> (1 < List.length (JS.split sep s))%nat.
Proof.
  induction s as [|c s IH]; simpl; [discriminate|].
  destruct (Ascii.eqb c sep) eqn:E; simpl.
  - intros _. pose proof (split_not_nil sep s).
    destruct (JS.split sep s); [contradiction|simpl; lia].
  - intros H. specialize (IH H).
    destruct (JS.split sep s); simpl in *; lia.
Qed.

Lemma split_parts_without_sep (sep : ascii) (s : string) :
  Forall (fun part => has_char sep part = false) (JS.split sep s).
Proof.
  induction s as [|c s IH]; simpl.
  - repeat constructor.
  - destruct (Ascii.eqb c sep) eqn:E.
    + constructor; [reflexivity|exact IH].
    + destruct (JS.split sep s) as [|h t]; [repeat constructor; simpl; rewrite E; reflexivity|].
      inversion IH as [|? ? Hh Ht]; subst.
      constructor; [simpl; rewrite E, Hh; reflexivity|exact Ht].
Qed.

Lemma pop_in (parts : list string) : parts <> [] -> In (JS.pop parts) parts.
Proof.
  unfold JS.pop. induction parts as [|p parts IH]; [contradiction|].
  intros _. destruct parts as [|q parts]; [left; reflexivity|].
  right. apply IH. discriminate.
Qed.

Lemma pop_app (l1 l2 : list string) : l2 <> [] -> JS.pop (l1 ++ l2) = JS.pop l2.
Proof.
  intros H. unfold JS.pop. induction l1 as [|x l1 IH]; [reflexivity|].
  cbn [List.app]. destruct (l1 ++ l2)%list eqn:E; [|exact IH].
  destruct l1, l2; try discriminate. contradiction.
Qed.

Lemma lower_ascii_dot (c : ascii) : Ascii.eqb (JS.lower_ascii c) "." = Ascii.eqb c ".".
Proof.
  destruct c as [[] [] [] [] [] [] [] []]; reflexivity.
Qed.

Lemma toLowerCase_has_dot (s : string) :
  has_char "." (JS.toLowerCase s) = has_char "." s.
Proof.
  induction s as [|c s IH]; simpl; [reflexivity|].
  rewrite lower_ascii_dot, IH. reflexivity.
Qed.

Lemma lower_ascii_idempotent (c : ascii) :
  JS.lower_ascii (JS.lower_ascii c) = JS.lower_ascii c.
Proof.
  destruct c as [[] [] [] [] [] [] [] []]; reflexivity.
Qed.

Lemma toLowerCase_idempotent (s : string) :
  JS.toLowerCase (JS.toLowerCase s) = JS.toLowerCase s.
Proof.
  induction s as [|c s IH]; simpl; [reflexivity|].
  rewrite lower_ascii_idempotent, IH. reflexivity.
Qed.

End StringFacts.

(* ===================================================================== *)
(** ** Further properties of the validators                              *)
(* ===================================================================== *)

Module MoreValidatorSpec.
Import FileValidator Checks Notions StringFacts.

(** *** getFileExtension *)

(** X1: the extension computed by the validator is the lower-cased text
    after the last dot of the file name; it is empty for a name without
    a dot, and it never holds a dot itself. *)
Theorem getFileExtension_is_last_segment :
  (forall base ext : string,
      has_char "." ext = false ->
      getFileExtension (base ++ String "." ext) = JS.toLowerCase ext)
  /\ (forall filename : string,
        has_char "." filename = false -> getFileExtension filename = "")
  /\ (forall filename : string,
        has_char "." (getFileExtension filename) = false).
Proof.
  split; [|split].
  - intros base ext Hext. unfold getFileExtension.
    rewrite split_app, (split_without_sep "." ext Hext).
    rewrite List.length_app. cbn [List.length].
    pose proof (split_not_nil "." base) as Hne.
    destruct (JS.split "." base) as [|p ps] eqn:E; [contradiction|].
    replace (1 <? List.length (p :: ps) + 1)%nat with true
      by (symmetry; apply Nat.ltb_lt; simpl; lia).
    rewrite pop_app by discriminate. reflexivity.
  - intros filename H. unfold getFileExtension.
    rewrite (split_without_sep "." filename H). reflexivity.
  - intros filename. unfold getFileExtension.
    destruct (1 <? _)%nat; [|reflexivity].
    rewrite toLowerCase_has_dot.
    pose proof (split_parts_without_sep "." filename) as Hall.
    rewrite List.Forall_forall in Hall. apply Hall.
    apply pop_in. apply split_not_nil.
Qed.

Lemma getFileExtension_is_last_segment_witness :
  getFileExtension "holiday.photo.JPG" = "jpg" /\ getFileExtension "Makefile" = "".
Proof.
  split.
  - apply (proj1 getFileExtension_is_last_segment "holiday.photo" "JPG").
    reflexivity.
  - apply (proj1 (proj2 getFileExtension_is_last_segment) "Makefile").
    reflexivity.
Defined.

Lemma extension_with_dot (filename : string) :
  has_char "." filename = true ->
  FileUtils.getFileExtension filename = getFileExtension filename.
Proof.
  unfold FileUtils.getFileExtension, getFileExtension.
  intros H. apply split_length_with_sep in H. apply Nat.ltb_lt in H.
  rewrite H. reflexivity.
Qed.

Lemma extension_without_dot (filename : string) :
  has_char "." filename = false ->
  getFileExtension filename = "" /\
  FileUtils.getFileExtension filename = JS.toLowerCase filename.
Proof.
  unfold FileUtils.getFileExtension, getFileExtension.
  intros H. rewrite (split_without_sep "." filename H). split; reflexivity.
Qed.

(** X2: the two [getFileExtension] of the repository agree on every name
    that holds a dot; for a name without a dot the validator answers the
    empty extension, and the utility answers the whole name in lower
    case. *)
Theorem getFileExtension_variants (filename : string) :
  (has_char "." filename = true ->
   FileUtils.getFileExtension filename = getFileExtension filename)
  /\ (has_char "." filename = false ->
      getFileExtension filename = "" /\
      FileUtils.getFileExtension filename = JS.toLowerCase filename).
Proof.
  split; [apply extension_with_dot|apply extension_without_dot].
Qed.

Lemma getFileExtension_variants_witness :
  FileUtils.getFileExtension "archive.TAR.GZ" = getFileExtension "archive.TAR.GZ"
  /\ getFileExtension "README" = ""
  /\ FileUtils.getFileExtension "README" = "readme".
Proof.
  split.
  - apply (proj1 (getFileExtension_variants "archive.TAR.GZ")). reflexivity.
  - apply (proj2 (getFileExtension_variants "README")). reflexivity.
Defined.

(** *** isMatchingMimeType *)

(** X3: an allow-list entry [family/*] accepts exactly the declared
    types that have [family] as a prefix, every other entry accepts
    itself only; so the entry [*/*] is no catch-all: it accepts only
    types that begin with a star. *)
Theorem isMatchingMimeType_wildcard :
  (forall family fileType : string,
      isMatchingMimeType fileType (family ++ "/*") = JS.startsWith fileType family)
  /\ (forall entry fileType : string,
        JS.endsWith entry "/*" = false ->
        (isMatchingMimeType fileType entry = true <-> fileType = entry))
  /\ (forall fileType : string,
        isMatchingMimeType fileType "*/*" = JS.startsWith fileType "*").
Proof.
  assert (H : forall family fileType : string,
             isMatchingMimeType fileType (family ++ "/*")
             = JS.startsWith fileType family).
  { intros family fileType. unfold isMatchingMimeType.
    rewrite endsWith_app.
    change 2%nat with (String.length "/*"). rewrite slice_0_neg_app.
    reflexivity. }
  split; [exact H|]. split.
  - intros entry fileType Hent. unfold isMatchingMimeType. rewrite Hent.
    apply String.eqb_eq.
  - intros fileType. exact (H "*" fileType).
Qed.

(** *** validateMagicBytes *)

Lemma lookup_cases (declared : string) :
  (declared = "image/jpeg" \/ declared = "image/png" \/ declared = "image/gif"
   \/ declared = "application/pdf" \/ declared = "text/plain")
  \/ lookup declared signatures = None.
Proof.
  unfold signatures. cbn [lookup].
  repeat (match goal with
          | |- context [String.eqb ?k declared] =>
              destruct (String.eqb_spec k declared) as [<-|?]; [left; tauto|]
          end).
  right. reflexivity.
Qed.

(** X4: the signature check of the validator passes exactly when the
    declared type has no signature to compare with (no entry in the
    table, or the empty entry of [text/plain]) or the content begins
    with one of the signatures of the declared type. *)
Theorem validateMagicBytes_passes_iff (file : File) :
  mime_like (type file) = true ->
  (magic_isValid (validateMagicBytes file) = true <->
   match lookup (type file) signatures with
   | None => True
   | Some expected =>
       expected = [] \/ exists s, In s expected /\ begins_with file s
   end).
Proof.
  intros _.
  destruct (lookup (type file) signatures) as [expected|] eqn:Hlookup.
  - destruct expected as [|s0 rest].
    + unfold validateMagicBytes. rewrite Hlookup.
      destruct (_ || _); cbn; tauto.
    + pose proof (ValidatorSpec.signature_check_of_table file (s0 :: rest)
                    Hlookup ltac:(discriminate)) as Hsig.
      unfold signature_check in Hsig.
      destruct (magic_isValid (validateMagicBytes file)).
      * destruct (List.existsb _ (s0 :: rest)) eqn:E; [|discriminate].
        apply List.existsb_exists in E. destruct E as [s [Hin Hs]].
        apply ValidatorSpec.every_byte_matches_spec in Hs.
        split; [|reflexivity]. intros _. right. exists s. tauto.
      * destruct (List.existsb _ (s0 :: rest)) eqn:E; [discriminate|].
        split; [discriminate|]. intros [H|[s [Hin Hs]]]; [discriminate|].
        apply ValidatorSpec.every_byte_matches_spec in Hs.
        assert (List.existsb (JS.every_byte_matches (content file)) (s0 :: rest)
                = true) as E'
            by (apply List.existsb_exists; exists s; tauto).
        congruence.
  - unfold validateMagicBytes. rewrite Hlookup.
    destruct (_ || _); cbn; tauto.
Qed.

Lemma validateMagicBytes_passes_iff_witness :
  magic_isValid (validateMagicBytes Examples.hello_txt) = true
  /\ magic_isValid (validateMagicBytes Examples.gif_named_png) = true.
Proof.
  split.
  - apply (proj2 (validateMagicBytes_passes_iff Examples.hello_txt eq_refl)).
    left. reflexivity.
  - apply (proj2 (validateMagicBytes_passes_iff Examples.gif_named_png eq_refl)).
    right. exists [0x47; 0x49; 0x46; 0x38; 0x39; 0x61]%N.
    split; [right; left; reflexivity|reflexivity].
Defined.


(** *** validateFile and the digest *)

(** X5: hashing never blocks a file.  The errors and the validity of
    [validateFile] do not depend on the platform; when the digest cannot
    be computed and a hash is required, a named file gets the one warning
    Could not generate file hash, and no warning otherwise. *)
Theorem hashing_never_blocks (P P' : Platform) (config : FileValidationConfig)
        (file : option File) :
  errors (validateFile P config file) = errors (validateFile P' config file)
  /\ isValid (validateFile P config file) = isValid (validateFile P' config file)
  /\ (forall f, file = Some f -> name f <> "" ->
       warnings (validateFile P config file) =
       if requireHash config then
         match sha256_hex P (content f) with
         | Some _ => []
         | None => ["Could not generate file hash"]
         end
       else []).
Proof.
  destruct file as [f|]; [|repeat split; intros; discriminate].
  unfold validateFile, generateFileHash.
  destruct (String.eqb_spec (name f) "") as [E|E].
  - repeat split. intros f' Hf Hname. injection Hf as <-. contradiction.
  - cbv zeta. split; [|split].
    + destruct (requireHash config), (sha256_hex P (content f)),
        (sha256_hex P' (content f)); reflexivity.
    + destruct (requireHash config), (sha256_hex P (content f)),
        (sha256_hex P' (content f)); reflexivity.
    + intros f' Hf _. injection Hf as <-.
      destruct (requireHash config), (sha256_hex P (content f)); reflexivity.
Qed.

Lemma hashing_never_blocks_witness :
  warnings (validateFile
              (mkPlatform (fun _ _ => false) (fun _ _ => 0%nat)
                          String.string_of_list_byte (fun _ => None)
                          (fun _ _ => None) 0 0 0)
              GENERAL (Some Examples.hello_txt))
  = ["Could not generate file hash"].
Proof.
  refine (proj2 (proj2 (hashing_never_blocks _ Examples.platform GENERAL
                          (Some Examples.hello_txt)))
                Examples.hello_txt eq_refl _).
  discriminate.
Defined.

(** *** validateFiles *)

Lemma labelled_errors_nil (P : Platform) config label (files : list (option File))
      (index : nat) :
  labelled_errors P config label index files = [] <->
  forall f, In f files -> errors (validateFile P config f) = [].
Proof.
  revert index. induction files as [|file rest IH]; intros index; simpl.
  - split; [intros _ f []|reflexivity].
  - split.
    + intros H. apply List.app_eq_nil in H. destruct H as [H1 H2].
      apply List.map_eq_nil in H1.
      pose proof (proj1 (IH (S index)) H2) as H3.
      intros f [<-|Hf]; [exact H1|exact (H3 f Hf)].
    + intros H. rewrite (H file (or_introl eq_refl)). simpl.
      apply IH. intros f Hf. apply H. right. exact Hf.
Qed.

(** X6: a batch is valid exactly when it holds at most
    [config.maxFiles] files and every file of it is valid on its own. *)
Theorem validateFiles_valid_iff (P : Platform) (config : FileValidationConfig)
        (files : list (option File)) :
  isValid (validateFiles P config files) = true <->
  (N.of_nat (List.length files) <= maxFiles config)%N /\
  forall f, In f files -> isValid (validateFile P config f) = true.
Proof.
  assert (Hv : isValid (validateFiles P config files)
               = (List.length (errors (validateFiles P config files)) =? 0)%nat)
    by reflexivity.
  rewrite Hv, ValidatorSpec.validateFiles_errors. clear Hv.
  rewrite Nat.eqb_eq, List.length_zero_iff_nil. split.
  - intros H. apply List.app_eq_nil in H. destruct H as [Hmany Hlab].
    split.
    + unfold too_many_files in Hmany.
      destruct (N.ltb_spec (maxFiles config) (N.of_nat (List.length files)));
        [discriminate|assumption].
    + intros f Hf. rewrite ValidatorSpec.validateFile_isValid.
      rewrite (proj1 (labelled_errors_nil P config _ files 0) Hlab f Hf).
      reflexivity.
  - intros [Hlen Hall].
    assert (Hmany : too_many_files config files = []).
    { unfold too_many_files.
      destruct (N.ltb_spec (maxFiles config) (N.of_nat (List.length files)));
        [lia|reflexivity]. }
    rewrite Hmany. cbn [List.app]. apply labelled_errors_nil.
    intros f Hf. apply ValidatorSpec.valid_has_no_errors. exact (Hall f Hf).
Qed.

(** *** The backend validator *)

Lemma getFileExtension_lower (filename : string) :
  JS.toLowerCase (getFileExtension filename) = getFileExtension filename.
Proof.
  unfold getFileExtension. destruct (1 <? _)%nat; [|reflexivity].
  apply toLowerCase_idempotent.
Qed.

Lemma backend_magic_bytes_agree (file : File) :
  BackendFileValidator.validateMagicBytes (content file) (type file)
  = validateMagicBytes file.
Proof.
  unfold BackendFileValidator.validateMagicBytes, validateMagicBytes, slice_bytes.
  destruct (lookup_cases (type file)) as [[H|[H|[H|[H|H]]]]|H].
  1-5: rewrite H; cbn [lookup BackendFileValidator.signatures signatures String.eqb
                       Ascii.eqb Bool.eqb orb andb List.length Nat.eqb List.existsb];
       cbv zeta;
       rewrite ?ValidatorSpec.every_byte_matches_firstn by (simpl; lia);
       reflexivity.
  assert (Hb : lookup (type file) BackendFileValidator.signatures = None).
  { revert H. unfold signatures, BackendFileValidator.signatures. cbn [lookup].
    repeat (destruct (String.eqb _ (type file)); [discriminate|]).
    reflexivity. }
  rewrite H, Hb. destruct (_ || _); reflexivity.
Qed.

(** X7: for every file with a non-empty name, the backend validator
    applied to the name, the declared type and the bytes of the file
    answers the same errors, warnings and validity as the validator
    applied to the file. *)
Theorem validateBuffer_agrees_with_validateFile (P : Platform)
        (config : FileValidationConfig) (file : File) :
  name file <> "" ->
  mime_like (type file) = true ->
  errors (BackendFileValidator.validateBuffer P config (content file)
                                              (name file) (type file))
  = errors (validateFile P config (Some file))
  /\ warnings (BackendFileValidator.validateBuffer P config (content file)
                                                   (name file) (type file))
     = warnings (validateFile P config (Some file))
  /\ isValid (BackendFileValidator.validateBuffer P config (content file)
                                                  (name file) (type file))
     = isValid (validateFile P config (Some file)).
Proof.
  intros Hname _.
  unfold BackendFileValidator.validateBuffer, validateFile,
    BackendFileValidator.generateBufferHash, generateFileHash, size.
  destruct (String.eqb_spec (name file) ""); [contradiction|].
  cbv zeta. cbn [extension].
  rewrite backend_magic_bytes_agree, !getFileExtension_lower.
  destruct (maxFileSize config <? _)%N;
  destruct (allowedMimeTypes config) as [|m ms]; cbn [length Nat.ltb Nat.leb];
  try destruct (existsb _ (m :: ms));
  destruct (allowedExtensions config) as [|x xs]; cbn [length Nat.ltb Nat.leb];
  try destruct (existsb _ (x :: xs));
  destruct (magic_isValid (validateMagicBytes file));
  destruct (requireHash config); try destruct (sha256_hex P (content file));
  repeat split.
Qed.

Lemma validateBuffer_agrees_with_validateFile_witness :
  errors (BackendFileValidator.validateBuffer Examples.platform Examples.tiny_images
            (content Examples.hello_txt) "a.txt" "text/plain")
  = errors (validateFile Examples.platform Examples.tiny_images
                         (Some Examples.hello_txt)).
Proof.
  refine (proj1 (validateBuffer_agrees_with_validateFile Examples.platform
                   Examples.tiny_images Examples.hello_txt _ eq_refl)).
  discriminate.
Defined.

(** The backend validator has no presence check: without a file name it
    still answers from the content checks. *)
Example validateBuffer_without_name :
  isValid (BackendFileValidator.validateBuffer Examples.platform
             (mkConfig 10 [] [] 1 false)
             (content Examples.hello_txt) "" "text/plain") = true
  /\ isValid (validateFile Examples.platform (mkConfig 10 [] [] 1 false)
                           (Some Examples.nameless)) = false.
Proof. split; reflexivity. Qed.

End MoreValidatorSpec.

(* ===================================================================== *)
(** ** Properties of the backend utilities                               *)
(* ===================================================================== *)

Module BackendUtilsSpec.
Import BackendUtils Notions.

(** *** performSecurityScan *)

Lemma bytes_prefix_spec (value buffer : list Byte.byte) :
  bytes_prefix value buffer = true <-> exists after, buffer = (value ++ after)%list.
Proof.
  revert buffer. induction value as [|v value IH]; intros buffer; simpl.
  - split; [intros _; exists buffer; reflexivity|reflexivity].
  - destruct buffer as [|b buffer].
    + split; [discriminate|]. intros [after H]. discriminate.
    + rewrite andb_true_iff, IH. split.
      * intros [Hv [after ->]]. exists after.
        destruct (Byte.eqb v b) eqn:E; [|discriminate].
        apply Byte.byte_dec_bl in E. subst. reflexivity.
      * intros [after H]. injection H as -> ->. split.
        -- apply Byte.byte_dec_lb. reflexivity.
        -- exists after. reflexivity.
Qed.

Lemma Buffer_includes_spec (buffer value : list Byte.byte) :
  Buffer_includes buffer value = true <-> occurs_in value buffer.
Proof.
  unfold occurs_in. induction buffer as [|b buffer IH]; simpl.
  - rewrite orb_false_r, bytes_prefix_spec. split.
    + intros [after H]. exists [], after. exact H.
    + intros [before [after H]]. destruct before; [|discriminate].
      exists after. exact H.
  - rewrite orb_true_iff, bytes_prefix_spec, IH. split.
    + intros [[after H]|[before [after H]]].
      * exists [], after. exact H.
      * exists (b :: before), after. rewrite H. reflexivity.
    + intros [before [after H]]. destruct before as [|x before].
      * left. exists after. exact H.
      * right. injection H as -> ->. exists before, after. reflexivity.
Qed.

(** X8: [performSecurityScan] answers clean exactly when the file name
    ends, in any letter case, with none of the five suspicious extensions
    and the EICAR test string occurs nowhere in the buffer; it reports at
    most two threats, and any threat at all, also one of severity medium,
    makes the result unclean. *)
Theorem performSecurityScan_clean_iff (buffer : list Byte.byte) (filename : string) :
  (isClean (performSecurityScan buffer filename) = true <->
   (forall ext, In ext suspiciousExtensions ->
                JS.endsWith (JS.toLowerCase filename) ext = false)
   /\ ~ occurs_in eicar buffer)
  /\ (isClean (performSecurityScan buffer filename) = true <->
      threats (performSecurityScan buffer filename) = [])
  /\ (List.length (threats (performSecurityScan buffer filename)) <= 2)%nat.
Proof.
  unfold performSecurityScan. cbv zeta. cbn [List.existsb]. rewrite orb_false_r.
  assert (Hext : List.existsb
                   (fun ext => JS.endsWith (JS.toLowerCase filename) ext)
                   suspiciousExtensions = false <->
                 forall ext, In ext suspiciousExtensions ->
                             JS.endsWith (JS.toLowerCase filename) ext = false).
  { split.
    - intros H ext Hin.
      destruct (JS.endsWith (JS.toLowerCase filename) ext) eqn:E; [|reflexivity].
      assert (List.existsb
                (fun ext => JS.endsWith (JS.toLowerCase filename) ext)
                suspiciousExtensions = true)
        by (apply List.existsb_exists; exists ext; tauto).
      congruence.
    - intros H.
      destruct (List.existsb _ suspiciousExtensions) eqn:E; [|reflexivity].
      apply List.existsb_exists in E. destruct E as [ext [Hin He]].
      rewrite (H ext Hin) in He. discriminate. }
  pose proof (Buffer_includes_spec buffer eicar) as Hsig.
  destruct (List.existsb _ suspiciousExtensions);
    destruct (Buffer_includes buffer eicar); cbn.
  - split; [|split; [split; discriminate|lia]].
    split; [discriminate|]. intros [H _]. apply Hext in H. discriminate.
  - split; [|split; [split; discriminate|lia]].
    split; [discriminate|]. intros [H _]. apply Hext in H. discriminate.
  - split; [|split; [split; discriminate|lia]].
    split; [discriminate|]. intros [_ H]. exfalso. apply H. apply Hsig.
    reflexivity.
  - split; [|split; [split; reflexivity|lia]].
    split; [|reflexivity]. intros _. split.
    + apply Hext. reflexivity.
    + intros H. apply Hsig in H. discriminate.
Qed.

(** A buffer that holds the EICAR string under an innocent name. *)
Example performSecurityScan_finds_eicar :
  threats (performSecurityScan
             (String.list_byte_of_string "xx" ++ eicar ++
              String.list_byte_of_string "yy")
             "notes.txt")
  = [SecurityScanner.mkThreat SecurityScanner.malware "Malware Signature"
       SecurityScanner.high "Malware signature detected" None None].
Proof. reflexivity. Qed.

(** *** cleanupExpiredFiles *)

Section CleanupFacts.
Context {Store : Type}.
Context (getExpiredFiles : Store -> Store * Exc (list ExpiredFile)).
Context (deleteFile : string -> Store -> Store * Exc bool).

Lemma cleanup_loop_accounts (files : list ExpiredFile) (store : Store)
      (result : CleanupResult) :
  let final := snd (cleanup_loop deleteFile files store result) in
  (deletedCount final + N.of_nat (List.length (cleanup_errors final))
   = deletedCount result + N.of_nat (List.length (cleanup_errors result))
     + N.of_nat (List.length files))%N
  /\ (freedSpace result <= freedSpace final
      <= freedSpace result + total_size files)%N
  /\ (deletedCount result <= deletedCount final)%N
  /\ (deletedCount final = deletedCount result ->
      freedSpace final = freedSpace result).
Proof.
  revert store result. induction files as [|file rest IH]; intros store result.
  - simpl. repeat split; lia.
  - cbn [cleanup_loop total_size List.fold_right List.length].
    fold (total_size rest).
    destruct (deleteFile (expired_filePath file) store) as [store' [[|]|error]];
      specialize (IH store');
      match goal with
      | |- context [cleanup_loop deleteFile rest store' ?r] =>
          specialize (IH r); cbv zeta in IH; cbn [deletedCount freedSpace
            cleanup_errors] in IH; destruct IH as [IH1 [IH2 [IH3 IH4]]]
      end;
      unfold JS.push in *; rewrite ?List.length_app in *;
      cbn [List.length] in *; cbv zeta; repeat split; try lia.
Qed.

(** X9: [cleanupExpiredFiles] accounts for every expired file exactly
    once: the files deleted and the errors recorded add up to the files
    fetched, and the space freed is at most their total size (nothing
    when nothing was deleted).  When the files cannot be fetched, the
    result is one error and nothing deleted. *)
Theorem cleanupExpiredFiles_accounts (store : Store) :
  let result := snd (cleanupExpiredFiles getExpiredFiles deleteFile store) in
  match snd (getExpiredFiles store) with
  | Ok expiredFiles =>
      (deletedCount result + N.of_nat (List.length (cleanup_errors result))
       = N.of_nat (List.length expiredFiles))%N
      /\ (freedSpace result <= total_size expiredFiles)%N
      /\ (deletedCount result = 0%N -> freedSpace result = 0%N)
  | Throw error =>
      result = mkCleanup 0 0 ["Error fetching expired files: " ++ error]
  end.
Proof.
  unfold cleanupExpiredFiles. cbv zeta.
  destruct (getExpiredFiles store) as [store' [files|error]]; cbn [snd].
  - pose proof (cleanup_loop_accounts files store' (mkCleanup 0 0 [])) as H.
    cbv zeta in H. cbn [deletedCount freedSpace cleanup_errors List.length] in H.
    destruct H as [H1 [H2 [H3 H4]]]. repeat split; lia.
  - reflexivity.
Qed.

End CleanupFacts.

(** Three expired files: the first is deleted, the second is refused,
    the third makes the storage throw. *)
Example cleanupExpiredFiles_sample :
  snd (cleanupExpiredFiles
         (fun store : unit =>
            (store, Ok [mkExpired "1" "a" 10; mkExpired "2" "b" 20;
                        mkExpired "3" "c" 30]))
         (fun path store =>
            (store,
             if String.eqb path "a" then Ok true
             else if String.eqb path "b" then Ok false
             else Throw "Error: gone"))
         tt)
  = mkCleanup 1 10 ["Failed to delete file: b";
                    "Error deleting file c: Error: gone"].
Proof. reflexivity. Qed.

(** *** validateUploadConfig *)

(** X10: the options answered by [validateUploadConfig] always carry
    an expiry between 1 and 720 hours and a non-empty bucket name; a
    missing expiry and an expiry of 0 both become 72 hours; and
    validating validated options changes nothing. *)
Theorem validateUploadConfig_normalises (config : PartialOptions) :
  (1 <= expiryHours (validateUploadConfig config) <= 720)%Z
  /\ bucketName (validateUploadConfig config) <> ""
  /\ (p_expiryHours config = None \/ p_expiryHours config = Some 0%Z ->
      expiryHours (validateUploadConfig config) = 72%Z)
  /\ validateUploadConfig (as_partial (validateUploadConfig config))
     = validateUploadConfig config.
Proof.
  unfold validateUploadConfig, as_partial.
  cbn [expiryHours bucketName p_bucketName p_expiryHours p_requireScan
       p_generateThumbnails p_watermarkConfig requireScan generateThumbnails
       watermarkConfig].
  split; [lia|]. split; [|split].
  - destruct (p_bucketName config) as [b|]; [|discriminate].
    destruct (String.eqb_spec b ""); [discriminate|assumption].
  - intros [-> | ->]; reflexivity.
  - f_equal.
    + destruct (p_bucketName config) as [b|]; [|reflexivity].
      destruct (String.eqb_spec b "") as [E|E]; [reflexivity|].
      destruct (String.eqb_spec b ""); [contradiction|reflexivity].
    + destruct (Z.eqb_spec
                  (Z.max 1 (Z.min 720
                     match p_expiryHours config with
                     | Some h => if (h =? 0)%Z then 72%Z else h
                     | None => 72%Z
                     end)) 0); lia.
Qed.

Lemma validateUploadConfig_normalises_witness :
  expiryHours (validateUploadConfig (mkPartial None (Some 0%Z) None None None))
  = 72%Z.
Proof.
  refine (proj1 (proj2 (proj2 (validateUploadConfig_normalises
                                 (mkPartial None (Some 0%Z) None None None)))) _).
  right. reflexivity.
Defined.

Example validateUploadConfig_clamps :
  expiryHours (validateUploadConfig (mkPartial None (Some (-5)%Z) None None None)) = 1%Z
  /\ expiryHours (validateUploadConfig (mkPartial None (Some 100000%Z) None None None))
     = 720%Z.
Proof. split; reflexivity. Qed.

End BackendUtilsSpec.

(* ===================================================================== *)
(** ** Properties of the file utilities                                  *)
(* ===================================================================== *)

Module FileUtilsSpec.
Import FileUtils Notions StringFacts.

(** *** sanitizeFilename *)

Lemma all_chars_weaken (p q : ascii -> bool) (s : string) :
  (forall c, p c = true -> q c = true) ->
  all_chars p s = true -> all_chars q s = true.
Proof.
  intros Hpq. induction s as [|c s IH]; simpl; [reflexivity|].
  rewrite !andb_true_iff. intros [Hc Hs]. split; [apply Hpq; exact Hc|apply IH; exact Hs].
Qed.

Lemma remove_special_chars (s : string) :
  all_chars (fun c => safe_char c || is_space c) (remove_special s) = true.
Proof.
  induction s as [|c s IH]; simpl; [reflexivity|].
  destruct (is_word c || is_space c || Ascii.eqb c "." || Ascii.eqb c "-") eqn:E;
    [|exact IH].
  simpl. rewrite IH, andb_true_r. unfold safe_char.
  destruct (is_word c), (is_space c), (Ascii.eqb c "."), (Ascii.eqb c "-");
    simpl in *; congruence.
Qed.

Lemma replace_spaces_chars (in_run : bool) (s : string) :
  all_chars (fun c => safe_char c || is_space c) s = true ->
  all_chars safe_char (replace_spaces in_run s) = true.
Proof.
  revert in_run. induction s as [|c s IH]; intros in_run; simpl; [reflexivity|].
  rewrite andb_true_iff. intros [Hc Hs].
  destruct (is_space c) eqn:E.
  - destruct in_run; simpl; rewrite ?IH; auto.
  - simpl. rewrite IH by exact Hs. rewrite orb_false_r in Hc. rewrite Hc. reflexivity.
Qed.

Lemma collapse_underscores_chars (p : ascii -> bool) (in_run : bool) (s : string) :
  all_chars p s = true -> all_chars p (collapse_underscores in_run s) = true.
Proof.
  revert in_run. induction s as [|c s IH]; intros in_run; simpl; [reflexivity|].
  rewrite andb_true_iff. intros [Hc Hs].
  destruct (Ascii.eqb_spec c "_") as [->|E].
  - destruct in_run; simpl; rewrite ?Hc, ?IH; auto.
  - simpl. rewrite Hc, IH; auto.
Qed.

Lemma drop_leading_chars (p : ascii -> bool) (s : string) :
  all_chars p s = true -> all_chars p (drop_leading_dot_or_hyphen s) = true.
Proof.
  destruct s as [|c s]; simpl; [reflexivity|].
  rewrite andb_true_iff. intros [Hc Hs].
  destruct (_ || _); [exact Hs|]. simpl. rewrite Hc, Hs. reflexivity.
Qed.

Lemma substring_0_chars (p : ascii -> bool) (n : nat) (s : string) :
  all_chars p s = true -> all_chars p (String.substring 0 n s) = true.
Proof.
  revert n. induction s as [|c s IH]; intros [|n]; simpl; try reflexivity.
  rewrite !andb_true_iff. intros [Hc Hs]. split; [exact Hc|apply IH; exact Hs].
Qed.

Lemma substring_0_length (n : nat) (s : string) :
  (String.length (String.substring 0 n s) <= n)%nat.
Proof.
  revert n. induction s as [|c s IH]; intros [|n]; simpl; try lia.
  specialize (IH n). lia.
Qed.

Lemma collapse_underscores_no_adjacent (in_run : bool) (s : string) :
  no_adjacent_underscores (collapse_underscores in_run s) = true
  /\ (in_run = true -> starts_plain (collapse_underscores in_run s) = true).
Proof.
  revert in_run. induction s as [|c s IH]; intros in_run; simpl.
  - split; reflexivity.
  - destruct (Ascii.eqb_spec c "_") as [->|E].
    + destruct in_run.
      * apply IH.
      * destruct (IH true) as [H1 H2]. specialize (H2 eq_refl). split; [|discriminate].
        cbn [no_adjacent_underscores]. rewrite H1, andb_true_r.
        destruct (collapse_underscores true s) as [|d r]; [reflexivity|].
        simpl in H2. simpl. destruct (Ascii.eqb d "_"); [discriminate|reflexivity].
    + destruct (IH false) as [H1 _]. split.
      * cbn [no_adjacent_underscores]. rewrite H1, andb_true_r.
        apply Ascii.eqb_neq in E. rewrite E.
        destruct (collapse_underscores false s); reflexivity.
      * intros _. simpl. apply Ascii.eqb_neq in E. rewrite E. reflexivity.
Qed.

Lemma tail_no_adjacent (c : ascii) (s : string) :
  no_adjacent_underscores (String c s) = true -> no_adjacent_underscores s = true.
Proof. cbn [no_adjacent_underscores]. rewrite andb_true_iff. tauto. Qed.

Lemma drop_leading_no_adjacent (s : string) :
  no_adjacent_underscores s = true ->
  no_adjacent_underscores (drop_leading_dot_or_hyphen s) = true.
Proof.
  destruct s as [|c s]; [reflexivity|]. intros H. cbn [drop_leading_dot_or_hyphen].
  destruct (_ || _); [exact (tail_no_adjacent c s H)|exact H].
Qed.

Lemma substring_0_no_adjacent (n : nat) (s : string) :
  no_adjacent_underscores s = true ->
  no_adjacent_underscores (String.substring 0 n s) = true.
Proof.
  revert n. induction s as [|c s IH]; intros [|n]; try reflexivity.
  intros H. pose proof (tail_no_adjacent c s H) as Ht.
  cbn [String.substring]. cbn [no_adjacent_underscores].
  rewrite (IH n Ht), andb_true_r.
  destruct s as [|d r]; [destruct n; reflexivity|].
  destruct n as [|n]; [reflexivity|].
  cbn [String.substring].
  cbn [no_adjacent_underscores] in H. rewrite andb_true_iff in H. tauto.
Qed.

(** X11: a sanitized file name holds at most 255 characters, each of
    them a letter, a digit, an underscore, a dot or a hyphen (so no
    slash, no backslash and no white space), and no two underscores in a
    row. *)
Theorem sanitizeFilename_is_safe (filename : string) :
  (String.length (sanitizeFilename filename) <= 255)%nat
  /\ all_chars safe_char (sanitizeFilename filename) = true
  /\ no_adjacent_underscores (sanitizeFilename filename) = true.
Proof.
  unfold sanitizeFilename. split; [apply substring_0_length|]. split.
  - apply substring_0_chars, drop_leading_chars, collapse_underscores_chars,
      replace_spaces_chars, remove_special_chars.
  - apply substring_0_no_adjacent, drop_leading_no_adjacent.
    apply (collapse_underscores_no_adjacent false).
Qed.

(** Only one leading dot is removed: the name that climbs out of the
    directory keeps its dots, without the slashes. *)
Example sanitizeFilename_samples :
  sanitizeFilename "../../etc/passwd" = "...etcpasswd"
  /\ sanitizeFilename "my  report__final (1).pdf" = "my_report_final_1.pdf"
  /\ sanitizeFilename ".htaccess" = "htaccess".
Proof. repeat split. Qed.

(** *** validateFileMetadata *)

(** X12: the metadata that the validator attaches to a named file goes
    through [validateFileMetadata] exactly when the file is not empty
    and declares a type; the name, size, type and hash come back
    unchanged, and the extension comes back as the utility computes it
    (for a name without a dot: the whole name in lower case, where the
    validator had the empty extension). *)
Theorem validateFileMetadata_of_validated_file (P : Platform) (now : Z)
        (config : FileValidator.FileValidationConfig) (file : File) :
  name file <> "" ->
  exists m,
    FileValidator.metadata (FileValidator.validateFile P config (Some file)) = Some m
    /\ match validateFileMetadata now (as_partial m) with
       | None => content file = [] \/ type file = ""
       | Some m' =>
           content file <> [] /\ type file <> "" /\
           FileValidator.md_name m' = name file /\
           FileValidator.md_size m' = size file /\
           FileValidator.md_type m' = type file /\
           FileValidator.hash m' = FileValidator.hash m /\
           FileValidator.extension m' = getFileExtension (name file)
       end.
Proof.
  intros Hname.
  assert (Hext : (if String.eqb (FileValidator.getFileExtension (name file)) ""
                  then getFileExtension (name file)
                  else FileValidator.getFileExtension (name file))
                 = getFileExtension (name file)).
  { destruct (has_char "." (name file)) eqn:Hdot.
    - rewrite (MoreValidatorSpec.extension_with_dot (name file) Hdot).
      destruct (String.eqb _ ""); reflexivity.
    - destruct (MoreValidatorSpec.extension_without_dot (name file) Hdot)
        as [-> _]. reflexivity. }
  unfold FileValidator.validateFile.
  destruct (String.eqb_spec (name file) "") as [|_]; [contradiction|].
  cbv zeta.
  assert (Hsize : (size file =? 0)%N = true <-> content file = []).
  { unfold size. destruct (content file); simpl; split; congruence. }
  destruct (FileValidator.requireHash config);
    try destruct (FileValidator.generateFileHash P file);
    (eexists; split; [reflexivity|]);
    unfold validateFileMetadata, as_partial;
    cbn [pm_name pm_size pm_type pm_extension pm_lastModified pm_hash
         FileValidator.md_name FileValidator.md_size FileValidator.md_type
         FileValidator.extension FileValidator.hash FileValidator.md_lastModified];
    destruct (String.eqb_spec (name file) "") as [|_]; try contradiction;
    cbn [orb];
    destruct (size file =? 0)%N eqn:Es; cbn [orb];
    try (left; apply Hsize; reflexivity);
    destruct (String.eqb_spec (type file) "") as [Et|Et];
    try (right; exact Et);
    cbn [FileValidator.md_name FileValidator.md_size FileValidator.md_type
         FileValidator.extension FileValidator.hash];
    (repeat split; try assumption; try reflexivity);
    try (intros Hc; apply Hsize in Hc; congruence).
Qed.

Lemma validateFileMetadata_of_validated_file_witness :
  exists m,
    FileValidator.metadata
      (FileValidator.validateFile Examples.platform FileValidator.GENERAL
                                  (Some Examples.empty_txt)) = Some m
    /\ validateFileMetadata 0 (as_partial m) = None.
Proof.
  destruct (validateFileMetadata_of_validated_file Examples.platform 0
              FileValidator.GENERAL Examples.empty_txt) as [m [Hm Hv]].
  - discriminate.
  - exists m. split; [exact Hm|].
    destruct (validateFileMetadata 0 (as_partial m)) as [m'|]; [|reflexivity].
    destruct Hv as [Hc _]. exfalso. apply Hc. reflexivity.
Defined.

End FileUtilsSpec.

(* ===================================================================== *)
(** ** Properties of the fingerprint hash                                *)
(* ===================================================================== *)

Module FingerprintSpec.
Import Fingerprint.

Lemma toInt32_range (x : Z) : (- 2 ^ 31 <= toInt32 x < 2 ^ 31)%Z.
Proof.
  unfold toInt32. cbv zeta.
  pose proof (Z.mod_pos_bound x (2 ^ 32) ltac:(lia)) as Hm.
  destruct (Z.ltb_spec (x mod 2 ^ 32) (2 ^ 31)); lia.
Qed.

Lemma toInt32_congruent (x : Z) : congruent32 (toInt32 x) x.
Proof.
  unfold toInt32, congruent32. cbv zeta.
  pose proof (Z.div_mod x (2 ^ 32) ltac:(lia)) as Hd.
  destruct (Z.ltb_spec (x mod 2 ^ 32) (2 ^ 31)).
  - exists (- (x / 2 ^ 32))%Z. lia.
  - exists (- (x / 2 ^ 32) - 1)%Z. lia.
Qed.

Lemma toInt32_fixed (x : Z) : (- 2 ^ 31 <= x < 2 ^ 31)%Z -> toInt32 x = x.
Proof.
  intros Hx. pose proof (toInt32_range x) as Hr.
  destruct (toInt32_congruent x) as [k Hk]. lia.
Qed.

Lemma step_congruent (hash hash' char : Z) :
  congruent32 hash hash' ->
  congruent32
    (toInt32 (Z.land (toInt32 (toInt32 (Z.shiftl (toInt32 hash) 5) - hash + char))
                     (toInt32 (toInt32 (Z.shiftl (toInt32 hash) 5) - hash + char))))
    (31 * hash' + char).
Proof.
  intros [k Hk]. rewrite Z.land_diag.
  rewrite (toInt32_fixed (toInt32 _)) by apply toInt32_range.
  rewrite Z.shiftl_mul_pow2 by lia.
  destruct (toInt32_congruent
              (toInt32 (toInt32 hash * 2 ^ 5) - hash + char)) as [k1 H1].
  destruct (toInt32_congruent (toInt32 hash * 2 ^ 5)) as [k2 H2].
  destruct (toInt32_congruent hash) as [k3 H3].
  exists (k1 + k2 + 32 * k3 + 31 * k)%Z. lia.
Qed.

Lemma loop_congruent (str : string) (hash hash' : Z) :
  congruent32 hash hash' ->
  congruent32 (simpleHash_loop str hash) (polynomial31 str hash').
Proof.
  revert hash hash'. induction str as [|c rest IH]; intros hash hash' H.
  - exact H.
  - cbn [simpleHash_loop polynomial31]. cbv zeta. apply IH.
    apply step_congruent. exact H.
Qed.

Lemma loop_range (str : string) (hash : Z) :
  (- 2 ^ 31 <= hash < 2 ^ 31)%Z ->
  (- 2 ^ 31 <= simpleHash_loop str hash < 2 ^ 31)%Z.
Proof.
  revert hash. induction str as [|c rest IH]; intros hash H; [exact H|].
  cbn [simpleHash_loop]. cbv zeta. apply IH. apply toInt32_range.
Qed.

(** X13: [simpleHash] prints, in base 36, a signed 32-bit integer that
    is congruent modulo 2^32 to the polynomial of the character codes in
    base 31 (the hash code of the string as Java computes it). *)
Theorem simpleHash_is_polynomial_hash (str : string) :
  exists h : Z,
    simpleHash str = toString36 h /\
    (- 2 ^ 31 <= h < 2 ^ 31)%Z /\
    (h mod 2 ^ 32 = polynomial31 str 0 mod 2 ^ 32)%Z.
Proof.
  exists (simpleHash_loop str 0). split; [reflexivity|]. split.
  - apply loop_range. lia.
  - destruct (loop_congruent str 0 0) as [k Hk]; [exists 0%Z; lia|].
    rewrite Hk. apply Z_mod_plus_full.
Qed.

Example simpleHash_samples :
  simpleHash "" = "0" /\ simpleHash "abc" = "22ci" /\
  simpleHash "hello world, this is a long string!!" = "-pmhq6u".
Proof. repeat split. Qed.

End FingerprintSpec.

(* ===================================================================== *)
(** ** Further properties of the scanner                                 *)
(* ===================================================================== *)

Module MoreScannerSpec.
Import SecurityScanner ScanChecks Notions.

(** *** matchesSignature *)

(** X14: [matchesSignature] holds exactly when the bytes begin with the
    signature; a buffer shorter than the signature never matches. *)
Theorem matchesSignature_spec (bytes : list Byte.byte) (signature : list N) :
  (matchesSignature bytes signature = true <->
   List.map Byte.to_N (List.firstn (List.length signature) bytes) = signature)
  /\ ((List.length bytes < List.length signature)%nat ->
      matchesSignature bytes signature = false).
Proof.
  unfold matchesSignature. split.
  - destruct (Nat.ltb_spec (List.length bytes) (List.length signature)) as [Hlt|Hge].
    + split; [discriminate|]. intros H.
      apply (f_equal (@List.length N)) in H.
      rewrite List.length_map, List.length_firstn in H. lia.
    + apply ValidatorSpec.every_byte_matches_spec.
  - intros Hlt. apply Nat.ltb_lt in Hlt. rewrite Hlt. reflexivity.
Qed.

Lemma matchesSignature_spec_witness :
  matchesSignature [Byte.x4d] [0x4d; 0x5a]%N = false.
Proof.
  apply (proj2 (matchesSignature_spec [Byte.x4d] [0x4d; 0x5a]%N)). simpl. lia.
Defined.

(** *** The disguise detector *)

Lemma signature_first_byte (bytes : list Byte.byte) (b : N) (sig : list N) :
  matchesSignature bytes (b :: sig) = true ->
  exists x tl, bytes = x :: tl /\ Byte.to_N x = b.
Proof.
  unfold matchesSignature. destruct (_ <? _)%nat; [discriminate|].
  destruct bytes as [|x tl]; [discriminate|]. cbn [JS.every_byte_matches].
  rewrite andb_true_iff, N.eqb_eq. intros [H _]. exists x, tl. tauto.
Qed.

Lemma signature_misses (x : Byte.byte) (b : N) (sig : list N) (tl : list Byte.byte) :
  Byte.to_N x <> b -> matchesSignature (x :: tl) (b :: sig) = false.
Proof.
  intros Hb. destruct (matchesSignature (x :: tl) (b :: sig)) eqn:E; [|reflexivity].
  apply signature_first_byte in E. destruct E as [y [tl' [H1 H2]]].
  injection H1 as <- <-. contradiction.
Qed.

(** The threats of the signature loop, before the script patterns. *)
Lemma disguise_loop_cases (P : Platform) (file : File) :
  exists disguises,
    (List.length disguises <= 1)%nat /\
    Forall (fun t => threat_type t = suspicious_content) disguises /\
    validateMimeAndMagicBytes P file =
    (disguises ++
     if List.existsb (fun pattern =>
                        regex_test P pattern
                                   (utf8_decode P (slice_bytes 64 file)))
                     scriptPatterns
     then [script_threat] else [])%list.
Proof.
  unfold validateMimeAndMagicBytes. cbv zeta.
  set (bytes := slice_bytes 64 file).
  cbn [executableSignatures List.fold_left exe_signature exe_name exe_severity].
  cbn [String.eqb Ascii.eqb Bool.eqb andb].
  destruct bytes as [|x tl] eqn:Hbytes.
  - exists []. split; [simpl; lia|]. split; [constructor|].
    unfold matchesSignature. cbn [List.length Nat.ltb Nat.leb List.app].
    destruct (List.existsb _ scriptPatterns); reflexivity.
  - destruct (N.eq_dec (Byte.to_N x) 0x4d) as [E1|E1];
    [| rewrite (signature_misses x 0x4d) by exact E1 ];
    (destruct (N.eq_dec (Byte.to_N x) 0x7f) as [E2|E2];
     [| rewrite (signature_misses x 0x7f) by exact E2 ]);
    (destruct (N.eq_dec (Byte.to_N x) 0xfe) as [E3|E3];
     [| rewrite (signature_misses x 0xfe) by exact E3 ]);
    (destruct (N.eq_dec (Byte.to_N x) 0xca) as [E4|E4];
     [| rewrite (signature_misses x 0xca) by exact E4 ]);
    (destruct (N.eq_dec (Byte.to_N x) 0x50) as [E5|E5];
     [| rewrite (signature_misses x 0x50) by exact E5 ]);
    try (exfalso; congruence);
    repeat match goal with
           | |- context [matchesSignature (x :: tl) ?s] =>
               destruct (matchesSignature (x :: tl) s)
           end;
    try destruct (_ || _);
    unfold JS.push; cbn [List.app];
    first
      [ exists []; split; [simpl; lia|];
        split; [constructor|];
        destruct (List.existsb _ scriptPatterns); reflexivity
      | eexists [_]; split; [simpl; lia|];
        (split; [|destruct (List.existsb _ scriptPatterns); reflexivity]);
        repeat constructor ].
Qed.

(** X15: the disguise detector reports at most one signature threat,
    because the five signatures differ in their first byte, and at most
    one Script Injection threat, however many script patterns match: at
    most two threats in all. *)
Theorem disguise_detector_reports_at_most_two (P : Platform) (file : File) :
  (List.length (validateMimeAndMagicBytes P file) <= 2)%nat
  /\ (List.length
        (List.filter (fun t => match threat_type t with
                               | injection => true
                               | _ => false
                               end)
                     (validateMimeAndMagicBytes P file)) <= 1)%nat.
Proof.
  destruct (disguise_loop_cases P file) as [disguises [Hlen [Htype Heq]]].
  rewrite Heq. rewrite List.filter_app, !List.length_app.
  assert (Hnone : List.filter (fun t => match threat_type t with
                                        | injection => true
                                        | _ => false
                                        end) disguises = []).
  { clear -Htype. induction Htype as [|t l Ht _ IH]; [reflexivity|].
    simpl. rewrite Ht, IH. reflexivity. }
  rewrite Hnone. destruct (List.existsb _ scriptPatterns); simpl; lia.
Qed.

(** X16: the ZIP exemption.  For a file whose bytes begin with
    [50 4B 03 04]: when it is declared as a ZIP archive (by either ZIP
    type, or by a name that ends in [.zip] in any letter case) the
    disguise detector reports no signature threat; otherwise it reports
    the medium-severity ZIP Archive (potential) threat.  In both cases
    the only other threat it can report is Script Injection. *)
Theorem zip_exemption (P : Platform) (file : File) (rest : list Byte.byte) :
  content file = Byte.x50 :: Byte.x4b :: Byte.x03 :: Byte.x04 :: rest ->
  (declared_archive file = true ->
   forall t, In t (validateMimeAndMagicBytes P file) -> t = script_threat)
  /\ (declared_archive file = false ->
      In (zip_threat file) (validateMimeAndMagicBytes P file) /\
      forall t, In t (validateMimeAndMagicBytes P file) ->
                t = zip_threat file \/ t = script_threat).
Proof.
  intros Hc. unfold validateMimeAndMagicBytes, slice_bytes, declared_archive.
  rewrite Hc. cbv zeta.
  cbn [List.firstn executableSignatures List.fold_left exe_signature exe_name
       exe_severity].
  rewrite (signature_misses _ 0x4d), (signature_misses _ 0x7f),
    (signature_misses _ 0xfe), (signature_misses _ 0xca)
    by (cbv; discriminate).
  change (matchesSignature
            (Byte.x50 :: Byte.x4b :: Byte.x03 :: Byte.x04 :: List.firstn 60 rest)
            [0x50; 0x4b; 0x03; 0x04]%N) with true.
  cbn [String.eqb Ascii.eqb Bool.eqb andb].
  split; intros Hd; rewrite Hd.
  - destruct (List.existsb _ scriptPatterns); unfold JS.push; cbn [List.app].
    + intros t [<-|[]]. reflexivity.
    + intros t [].
  - destruct (List.existsb _ scriptPatterns); unfold JS.push; cbn [List.app];
      (split; [left; reflexivity|]).
    + intros t [<-|[<-|[]]]; [left|right]; reflexivity.
    + intros t [<-|[]]. left. reflexivity.
Qed.

Lemma zip_exemption_witness :
  (forall t,
      In t (validateMimeAndMagicBytes Examples.platform
              (mkFile "Backup.ZIP" "application/octet-stream"
                      [Byte.x50; Byte.x4b; Byte.x03; Byte.x04] 1)) ->
      t = script_threat)
  /\ In (zip_threat (mkFile "report.docx" "application/msword"
                            [Byte.x50; Byte.x4b; Byte.x03; Byte.x04] 1))
        (validateMimeAndMagicBytes Examples.platform
           (mkFile "report.docx" "application/msword"
                   [Byte.x50; Byte.x4b; Byte.x03; Byte.x04] 1)).
Proof.
  split.
  - apply (proj1 (zip_exemption Examples.platform
                    (mkFile "Backup.ZIP" "application/octet-stream"
                            [Byte.x50; Byte.x4b; Byte.x03; Byte.x04] 1)
                    [] eq_refl)).
    reflexivity.
  - apply (proj2 (zip_exemption Examples.platform
                    (mkFile "report.docx" "application/msword"
                            [Byte.x50; Byte.x4b; Byte.x03; Byte.x04] 1)
                    [] eq_refl)).
    reflexivity.
Defined.

(** *** The stages, one by one *)

Lemma fold_left_Forall {A B : Type} (q : B -> Prop) (f : list B -> A -> list B)
      (l : list A) (acc : list B) :
  (forall acc a, Forall q acc -> Forall q (f acc a)) ->
  Forall q acc -> Forall q (List.fold_left f l acc).
Proof.
  intros Hf. revert acc. induction l as [|a l IH]; intros acc Hacc; [exact Hacc|].
  simpl. apply IH. apply Hf. exact Hacc.
Qed.

Lemma Forall_push {B : Type} (q : B -> Prop) (acc : list B) (x : B) :
  Forall q acc -> q x -> Forall q (JS.push acc x).
Proof.
  intros Hacc Hx. unfold JS.push. apply List.Forall_app. split; [exact Hacc|].
  constructor; [exact Hx|constructor].
Qed.

(** The equation of the threats found by a configured scanner. *)
Lemma detectors_equation (P : Platform) (config : SecurityScanConfig) (file : File) :
  scanFile_detectors P (Some config) file =
  Ok (validateMimeAndMagicBytes P file ++
      (if enableInjectionDetection config
       then detectInjectionPatterns P config file else []) ++
      (if enableYaraScanning config &&
          match yaraRules config with Some _ => true | None => false end
       then scanWithYaraRules config file else []) ++
      scanCustomSignatures P config file ++
      (if enableVirusScanning config then scanForViruses P config file else []) ++
      analyzeFileStructure file)%list.
Proof.
  cbv beta iota zeta delta [scanFile_detectors this_config exc_bind JS.push_all].
  destruct (enableInjectionDetection config),
    (enableYaraScanning config && _), (enableVirusScanning config);
    cbn [List.app]; rewrite ?List.app_nil_r, <- ?List.app_assoc; reflexivity.
Qed.

Lemma disguise_kinds (P : Platform) (file : File) :
  Forall content_kind (validateMimeAndMagicBytes P file).
Proof.
  destruct (disguise_loop_cases P file) as [disguises [_ [Htype ->]]].
  apply List.Forall_app. split.
  - eapply List.Forall_impl; [|exact Htype]. intros t Ht. left. exact Ht.
  - destruct (List.existsb _ scriptPatterns); [|constructor].
    constructor; [right; reflexivity|constructor].
Qed.

Lemma injection_kinds (P : Platform) config (file : File) :
  Forall content_kind (detectInjectionPatterns P config file).
Proof.
  unfold detectInjectionPatterns. cbv zeta.
  assert (H : Forall content_kind
                (List.fold_left
                   (fun threats ip =>
                      if (0 <? regex_match_count P (inj_pattern ip)
                                                  (utf8_decode P (content file)))%nat
                      then JS.push threats
                             (mkThreat injection (inj_name ip) (inj_severity ip)
                                (inj_description ip ++ " (" ++
                                 JS.string_of_nat
                                   (regex_match_count P (inj_pattern ip)
                                      (utf8_decode P (content file))) ++
                                 " matches found)") None None)
                      else threats)
                   injectionPatterns [])).
  { apply fold_left_Forall; [|constructor]. intros acc ip Hacc.
    destruct (_ <? _)%nat; [|exact Hacc].
    apply Forall_push; [exact Hacc|right; reflexivity]. }
  destruct (suspiciousPatterns config) as [patterns|]; [|exact H].
  apply fold_left_Forall; [|exact H]. intros acc pattern Hacc.
  destruct (regex_test P pattern _); [|exact Hacc].
  apply Forall_push; [exact Hacc|left; reflexivity].
Qed.

Lemma custom_kinds (P : Platform) config (file : File) :
  Forall content_kind (scanCustomSignatures P config file).
Proof.
  unfold scanCustomSignatures. cbv zeta.
  apply fold_left_Forall; [|constructor]. intros acc sig Hacc.
  destruct (regex_test P _ _); [|exact Hacc].
  apply Forall_push; [exact Hacc|left; reflexivity].
Qed.

Lemma structure_facts (file : File) :
  Forall (fun t => content_kind t /\ mild t = true) (analyzeFileStructure file).
Proof.
  unfold analyzeFileStructure. cbv zeta.
  apply fold_left_Forall.
  - intros acc [ext mime] Hacc. destruct (_ && _); [|exact Hacc].
    apply Forall_push; [exact Hacc|]. split; [left|]; reflexivity.
  - destruct (size file =? 0)%N; [|constructor].
    apply Forall_push; [constructor|]. split; [left|]; reflexivity.
Qed.

Lemma yara_stage_exact (config : SecurityScanConfig) (file : File) :
  scanWithYaraRules config file =
  match yaraRules config with
  | Some rules =>
      match content file with
      | [] => []
      | _ :: _ =>
          List.map yara_threat
                   (List.filter (fun rule => JS.includes rule "malware") rules)
      end
  | None => []
  end.
Proof.
  unfold scanWithYaraRules. destruct (yaraRules config) as [rules|]; [|reflexivity].
  cbv zeta. rewrite ScannerSpec.fold_push. cbn [List.app].
  unfold matchesYaraRule. destruct (content file) as [|b bytes].
  - cbn [List.length Nat.ltb Nat.leb].
    induction rules as [|r rules IH]; [reflexivity|].
    cbn [List.filter]. rewrite andb_false_r. exact IH.
  - cbn [List.length Nat.ltb Nat.leb]. f_equal.
    induction rules as [|r rules IH]; [reflexivity|].
    cbn [List.filter]. rewrite andb_true_r, IH. reflexivity.
Qed.

Lemma virus_stage_facts (P : Platform) config (file : File) :
  Forall (fun t => threat_type t = virus /\ severity t = critical)
         (scanForViruses P config file)
  /\ (scanForViruses P config file <> [] ->
      exists endpoint verdict,
        virusScannerEndpoint config = Some endpoint /\ endpoint <> "" /\
        fetch_verdict P endpoint file = Some verdict /\ clean verdict = false).
Proof.
  unfold scanForViruses. cbv zeta.
  destruct (virusScannerEndpoint config) as [endpoint|];
    [|split; [constructor|intros H; contradiction]].
  destruct (String.eqb_spec endpoint "") as [E|E];
    [split; [constructor|intros H; contradiction]|].
  destruct (fetch_verdict P endpoint file) as [verdict|] eqn:Hf;
    [|split; [constructor|intros H; contradiction]].
  destruct (remote_threats verdict) as [reported|];
    [|split; [constructor|intros H; contradiction]].
  destruct (clean verdict) eqn:Hc; cbn [negb];
    [split; [constructor|intros H; contradiction]|].
  split.
  - apply fold_left_Forall; [|constructor]. intros acc t Hacc.
    apply Forall_push; [exact Hacc|split; reflexivity].
  - intros _. exists endpoint, verdict. tauto.
Qed.

(** X17: the gated stages stay silent when switched off.  In the result
    of a configured scanner, a [yara_match] threat is there only if YARA
    scanning is enabled, the file is not empty and the threat is the one
    of a configured rule whose text contains [malware]; a [virus] threat
    is there only if virus scanning is enabled, an endpoint is
    configured and it answered an unclean verdict, and it is critical. *)
Theorem gated_stages (P : Platform) (config : SecurityScanConfig) (file : File) :
  exists result,
    scanFile P (Some config) file = Ok result /\
    forall t, In t (threats result) ->
      (threat_type t = yara_match ->
       enableYaraScanning config = true /\ content file <> [] /\
       exists rules rule,
         yaraRules config = Some rules /\ In rule rules /\
         JS.includes rule "malware" = true /\ t = yara_threat rule)
      /\ (threat_type t = virus ->
          enableVirusScanning config = true /\ severity t = critical /\
          exists endpoint verdict,
            virusScannerEndpoint config = Some endpoint /\ endpoint <> "" /\
            fetch_verdict P endpoint file = Some verdict /\
            clean verdict = false).
Proof.
  unfold scanFile. rewrite detectors_equation. cbn [exc_bind try_catch].
  eexists. split; [reflexivity|]. cbn [threats aggregate].
  intros t Ht.
  pose proof (disguise_kinds P file) as H1.
  pose proof (injection_kinds P config file) as H2.
  pose proof (custom_kinds P config file) as H3.
  pose proof (structure_facts file) as H4.
  pose proof (virus_stage_facts P config file) as [H5 H6].
  pose proof (yara_stage_exact config file) as H7.
  rewrite List.Forall_forall in H1, H2, H3, H4, H5.
  assert (Hcontent : content_kind t ->
                     (threat_type t = yara_match -> False) /\
                     (threat_type t = virus -> False)).
  { intros [E|E]; rewrite E; split; discriminate. }
  rewrite !List.in_app_iff in Ht.
  destruct Ht as [Ht|[Ht|[Ht|[Ht|[Ht|Ht]]]]].
  - destruct (Hcontent (H1 t Ht)). split; intros; exfalso; auto.
  - destruct (enableInjectionDetection config); [|destruct Ht].
    destruct (Hcontent (H2 t Ht)). split; intros; exfalso; auto.
  - destruct (enableYaraScanning config) eqn:Ey; [|destruct Ht].
    destruct (yaraRules config) as [rules|] eqn:Er; [|destruct Ht].
    cbn [andb] in Ht. rewrite H7 in Ht.
    destruct (content file) as [|b bytes] eqn:Ec; [destruct Ht|].
    apply List.in_map_iff in Ht. destruct Ht as [rule [<- Hr]].
    apply List.filter_In in Hr. destruct Hr as [Hin Hmal].
    split; [|discriminate]. intros _.
    split; [reflexivity|]. split; [discriminate|].
    exists rules, rule. tauto.
  - destruct (Hcontent (H3 t Ht)). split; intros; exfalso; auto.
  - destruct (enableVirusScanning config) eqn:Ev; [|destruct Ht].
    destruct (H5 t Ht) as [Hty Hsev]. split; [rewrite Hty; discriminate|].
    intros _. split; [reflexivity|]. split; [exact Hsev|].
    apply H6. intros Hnil. rewrite Hnil in Ht. destruct Ht.
  - destruct (H4 t Ht) as [Hk _]. destruct (Hcontent Hk).
    split; intros; exfalso; auto.
Qed.

(** X18: the virus stage degrades instead of failing.  Without a
    configured endpoint, or when the call fails, it reports nothing; what
    it reports is one critical [virus] threat per threat of an unclean
    verdict.  None of the built-in levels configures an endpoint, so
    under each of them the stage reports nothing. *)
Theorem virus_stage_degrades (P : Platform) (config : SecurityScanConfig)
        (file : File) :
  ((virusScannerEndpoint config = None \/ virusScannerEndpoint config = Some "" \/
    exists endpoint, virusScannerEndpoint config = Some endpoint /\
                     fetch_verdict P endpoint file = None) ->
   scanForViruses P config file = [])
  /\ Forall (fun t => threat_type t = virus /\ severity t = critical)
            (scanForViruses P config file)
  /\ (forall endpoint verdict reported,
        virusScannerEndpoint config = Some endpoint -> endpoint <> "" ->
        fetch_verdict P endpoint file = Some verdict ->
        remote_threats verdict = Some reported ->
        List.length (scanForViruses P config file) =
        if clean verdict then 0%nat else List.length reported)
  /\ (forall level builtin,
        SECURITY_CONFIGS level = Some builtin ->
        scanForViruses P builtin file = []).
Proof.
  split; [|split; [apply virus_stage_facts|split]].
  - unfold scanForViruses. cbv zeta.
    intros [H|[H|[endpoint [H Hf]]]]; rewrite H; try reflexivity.
    destruct (String.eqb endpoint ""); [reflexivity|]. rewrite Hf. reflexivity.
  - intros endpoint verdict reported He Hne Hf Hr.
    unfold scanForViruses. cbv zeta. rewrite He.
    destruct (String.eqb_spec endpoint ""); [contradiction|].
    rewrite Hf, Hr. destruct (clean verdict); [reflexivity|]. cbn [negb].
    rewrite (ScannerSpec.fold_push (fun _ => true)
               (fun threat =>
                  mkThreat virus (or_default (remote_name threat) "Unknown Virus")
                           critical
                           (or_default (remote_description threat)
                                       "Virus detected by scanner")
                           None None)
               reported []).
    cbn [List.app]. rewrite List.length_map.
    f_equal. clear. induction reported as [|r l IH]; [reflexivity|].
    simpl. rewrite IH. reflexivity.
  - intros level builtin. unfold SECURITY_CONFIGS.
    repeat (destruct (String.eqb level _);
            [intros H; injection H as <-; reflexivity|]).
    discriminate.
Qed.

Lemma virus_stage_degrades_witness :
  scanForViruses Examples.platform
    (mkScanConfig true false false false (Some "https://scan.example/api")
                  None None None)
    Examples.hello_txt = [].
Proof.
  apply (proj1 (virus_stage_degrades Examples.platform _ Examples.hello_txt)).
  right. right. exists "https://scan.example/api". split; reflexivity.
Defined.

Lemma structure_exact (file : File) :
  analyzeFileStructure file =
  ((if (size file =? 0)%N then [empty_file_threat] else []) ++
   List.map
     (fun combo : string * string =>
        mkThreat suspicious_content "MIME Type Mismatch" medium
          ("File extension " ++
           JS.toLowerCase (JS.pop (JS.split "." (name file))) ++
           " doesn't match MIME type " ++ type file) None None)
     (List.filter
        (fun combo : string * string =>
           String.eqb (JS.toLowerCase (JS.pop (JS.split "." (name file))))
                      (fst combo)
           && String.eqb (type file) (snd combo))
        suspiciousCombinations))%list.
Proof.
  unfold analyzeFileStructure. cbv zeta.
  rewrite <- (ScannerSpec.fold_push
                (fun combo : string * string =>
                   String.eqb (JS.toLowerCase (JS.pop (JS.split "." (name file))))
                              (fst combo)
                   && String.eqb (type file) (snd combo))).
  destruct (size file =? 0)%N; reflexivity.
Qed.

(** X19: the structural analysis reports at most two threats, none of
    them high or critical, and the Empty File threat exactly for an empty
    file; so every scan of an empty file by a configured scanner carries
    the Empty File threat. *)
Theorem structural_analysis (P : Platform) (file : File) :
  Forall (fun t => mild t = true) (analyzeFileStructure file)
  /\ (List.length (analyzeFileStructure file) <= 2)%nat
  /\ (In empty_file_threat (analyzeFileStructure file) <-> content file = [])
  /\ (forall config, exists result,
        scanFile P (Some config) file = Ok result /\
        (content file = [] -> In empty_file_threat (threats result))).
Proof.
  assert (Hsize : (size file =? 0)%N = true <-> content file = []).
  { unfold size. destruct (content file); simpl; split; congruence. }
  assert (Hiff : In empty_file_threat (analyzeFileStructure file)
                 <-> content file = []).
  { rewrite structure_exact, List.in_app_iff. split.
    - intros [H|H].
      + destruct (size file =? 0)%N; [apply Hsize; reflexivity|destruct H].
      + apply List.in_map_iff in H. destruct H as [combo [H _]]. discriminate.
    - intros H. left. apply Hsize in H. rewrite H. left. reflexivity. }
  split; [|split; [|split; [exact Hiff|]]].
  - eapply List.Forall_impl; [|apply structure_facts]. intros t [_ H]. exact H.
  - rewrite structure_exact, List.length_app, List.length_map.
    assert (Hone : (List.length (if (size file =? 0)%N
                                 then [empty_file_threat] else []) <= 1)%nat)
      by (destruct (size file =? 0)%N; simpl; lia).
    cbn [suspiciousCombinations List.filter fst snd].
    set (e := JS.toLowerCase (JS.pop (JS.split "." (name file)))).
    destruct (String.eqb_spec e "txt") as [->|_];
      [|destruct (String.eqb_spec e "jpg") as [->|_];
        [|destruct (String.eqb_spec e "png") as [->|_];
          [|destruct (String.eqb_spec e "pdf") as [->|_]]]];
      cbn [String.eqb Ascii.eqb Bool.eqb andb];
      repeat match goal with
             | |- context [String.eqb (type file) ?b] =>
                 destruct (String.eqb (type file) b)
             end;
      cbn [List.length]; lia.
  - intros config. unfold scanFile. rewrite detectors_equation.
    cbn [exc_bind try_catch]. eexists. split; [reflexivity|].
    intros Hc. cbn [threats aggregate]. rewrite !List.in_app_iff.
    do 5 right. apply Hiff. exact Hc.
Qed.

Lemma structural_analysis_witness :
  exists result,
    scanFile Examples.platform (Some STRICT) Examples.empty_txt = Ok result /\
    In empty_file_threat (threats result).
Proof.
  destruct (proj2 (proj2 (proj2 (structural_analysis Examples.platform
                                   Examples.empty_txt))) STRICT)
    as [result [Hr Hin]].
  exists result. split; [exact Hr|]. apply Hin. reflexivity.
Defined.



(** *** Confidence *)

Lemma inject_nat_nonneg (n : nat) : 0 <= inject_Z (Z.of_nat n).
Proof. unfold Qle, inject_Z. simpl. lia. Qed.

Lemma raw_confidence_decreases (m n : nat) :
  (m <= n)%nat ->
  1 - inject_Z (Z.of_nat n) * (1 # 10) <= 1 - inject_Z (Z.of_nat m) * (1 # 10).
Proof.
  intros H. unfold Qminus. apply Qplus_le_r. apply Qopp_le_compat.
  apply Qmult_le_compat_r; [|discriminate].
  rewrite <- Zle_Qle. lia.
Qed.

(** X21: the confidence of every scan result lies between 0 and 1; it
    is 0 from ten threats on; and more threats never give more
    confidence. *)
Theorem confidence_bounds (P : Platform) :
  (forall config file, exists result,
      scanFile P config file = Ok result /\
      0 <= confidence result /\ confidence result <= 1)
  /\ (forall found,
        (10 <= List.length found)%nat -> confidence (aggregate P found) == 0)
  /\ (forall found found',
        (List.length found <= List.length found')%nat ->
        confidence (aggregate P found') <= confidence (aggregate P found)).
Proof.
  assert (Hagg : forall found,
             0 <= confidence (aggregate P found) /\
             confidence (aggregate P found) <= 1).
  { intros found. unfold aggregate. cbn [confidence]. split.
    - apply Q.le_max_l.
    - apply Q.max_lub; [discriminate|].
      apply Qle_trans with (1 - inject_Z (Z.of_nat 0) * (1 # 10)).
      + apply raw_confidence_decreases. lia.
      + discriminate. }
  split; [|split].
  - intros config file.
    destruct (ScannerSpec.scanFile_cases P config file)
      as [[found [_ ->]]|[e [_ ->]]]; eexists; (split; [reflexivity|]).
    + apply Hagg.
    + split; discriminate.
  - intros found Hlen. unfold aggregate. cbn [confidence].
    apply Q.max_l.
    apply Qle_trans with (1 - inject_Z (Z.of_nat 10) * (1 # 10)).
    + apply raw_confidence_decreases. exact Hlen.
    + discriminate.
  - intros found found' Hlen. unfold aggregate. cbn [confidence].
    apply Q.max_le_compat_l. apply raw_confidence_decreases. exact Hlen.
Qed.

End MoreScannerSpec.

(* ===================================================================== *)
(** ** Further properties of the upload pipeline                         *)
(* ===================================================================== *)

Module MorePipelineSpec.
Import SecureDropAPI Notions StringFacts.
Local Open Scope pipeline_scope.

(** *** What a computation emits *)

Lemma emits_ret {A} q (a : A) : emits_only q (ret a).
Proof. intros run H. exact H. Qed.

Lemma emits_throw {A} q (e : string) : emits_only q (@throw A e).
Proof. intros run H. exact H. Qed.

Lemma emits_lift {A} q (x : Exc A) : emits_only q (lift x).
Proof. intros run H. exact H. Qed.

Lemma emits_read_metadata q : emits_only q read_metadata.
Proof. intros run H. exact H. Qed.

Lemma emits_assign_metadata q (md : FileMetadata) : emits_only q (assign_metadata md).
Proof. intros run H. exact H. Qed.

Lemma emits_emit q (ev : Event) : q ev = true -> emits_only q (emit ev).
Proof.
  intros Hev run H. unfold emit, JS.push. cbn [fst trace].
  rewrite List.forallb_app, H. simpl. rewrite Hev. reflexivity.
Qed.

Lemma emits_bind {A B} q (m : M A) (k : A -> M B) :
  emits_only q m -> (forall a, emits_only q (k a)) -> emits_only q (bind m k).
Proof.
  intros Hm Hk run H. unfold bind. specialize (Hm run H).
  destruct (m run) as [run' [a|e]]; cbn [fst] in *.
  - apply Hk. exact Hm.
  - exact Hm.
Qed.

Lemma emits_catch {A} q (m : M A) (handler : string -> M A) :
  emits_only q m -> (forall e, emits_only q (handler e)) ->
  emits_only q (catch m handler).
Proof.
  intros Hm Hh run H. unfold catch. specialize (Hm run H).
  destruct (m run) as [run' [a|e]]; cbn [fst] in *.
  - exact Hm.
  - apply Hh. exact Hm.
Qed.

(** *** Computations that stop *)

Lemma stops_throw {A} q (e : string) : stops q (@throw A e).
Proof. intros run. split; [exists e; reflexivity|intros H; exact H]. Qed.

Lemma stops_bind_l {A B} q (m : M A) (k : A -> M B) :
  stops q m -> stops q (bind m k).
Proof.
  intros Hm run. destruct (Hm run) as [[e He] Hq]. unfold bind.
  destruct (m run) as [run' [a|e']]; cbn [snd fst] in *; [discriminate|].
  split; [exists e'; reflexivity|exact Hq].
Qed.

Lemma stops_bind_r {A B} q (m : M A) (k : A -> M B) :
  emits_only q m -> (forall a, stops q (k a)) -> stops q (bind m k).
Proof.
  intros Hm Hk run. unfold bind. specialize (Hm run).
  destruct (m run) as [run' [a|e]]; cbn [fst snd] in *.
  - destruct (Hk a run') as [Hthrow Hq]. split; [exact Hthrow|].
    intros H. apply Hq. apply Hm. exact H.
  - split; [exists e; reflexivity|exact Hm].
Qed.

Lemma stops_catch {A} q (m : M A) (handler : string -> M A) :
  stops q m -> (forall e, stops q (handler e)) -> stops q (catch m handler).
Proof.
  intros Hm Hh run. unfold catch. destruct (Hm run) as [[e He] Hq].
  destruct (m run) as [run' [a|e']]; cbn [snd fst] in *; [discriminate|].
  destruct (Hh e' run') as [Hthrow Hq']. split; [exact Hthrow|].
  intros H. apply Hq'. apply Hq. exact H.
Qed.

(** *** What a computation returns *)

Lemma returns_ret {A} (Q : Run -> A -> Prop) (a : A) :
  (forall run, Q run a) -> returns Q (ret a).
Proof. intros H run run' a' E. injection E as <- <-. apply H. Qed.

Lemma returns_throw {A} (Q : Run -> A -> Prop) (e : string) : returns Q (throw e).
Proof. intros run run' a E. discriminate. Qed.

Lemma returns_bind {A B} (R : Run -> A -> Prop) (Q : Run -> B -> Prop)
      (m : M A) (k : A -> M B) :
  returns R m -> (forall a, (exists run, R run a) -> returns Q (k a)) ->
  returns Q (bind m k).
Proof.
  intros Hm Hk run run' b E. unfold bind in E.
  destruct (m run) as [run1 [a|e]] eqn:Em; [|discriminate].
  apply (Hk a (ex_intro _ run1 (Hm run run1 a Em)) run1 run' b E).
Qed.

Lemma returns_bind_any {A B} (Q : Run -> B -> Prop) (m : M A) (k : A -> M B) :
  (forall a, returns Q (k a)) -> returns Q (bind m k).
Proof.
  intros Hk. apply (returns_bind (fun _ _ => True)).
  - intros run run' a _. exact I.
  - intros a _. apply Hk.
Qed.

Lemma returns_catch {A} (Q : Run -> A -> Prop) (m : M A) (handler : string -> M A) :
  returns Q m -> (forall e, returns Q (handler e)) -> returns Q (catch m handler).
Proof.
  intros Hm Hh run run' a E. unfold catch in E.
  destruct (m run) as [run1 [a1|e]] eqn:Em.
  - injection E as <- <-. exact (Hm run run1 a1 Em).
  - exact (Hh e run1 run' a E).
Qed.

(** The [catch] block of [uploadFile] always throws. *)
Lemma handler_returns_nothing (hooks : LifecycleHooks) (file : File)
      (Q : Run -> FileUploadResult -> Prop) (error : string) :
  returns Q
    (match onError hooks with
     | Some hook =>
         emit (HookCalled "onError") ;; lift (hook error "upload_pipeline")
     | None => ret tt
     end ;;
     metadata <- read_metadata ;;
     audit_log "file_upload_error" "" (user_or_unknown metadata)
               (ErrorDetails error (name file)) ;;
     throw error).
Proof. repeat (apply returns_bind_any; intros ?). apply returns_throw. Qed.

Lemma last_event_push (events : list Event) (ev : Event) :
  last_event (JS.push events ev) = Some ev.
Proof.
  unfold last_event, JS.push. rewrite List.map_app. cbn [List.map].
  apply List.last_last.
Qed.

Lemma non_empty_sanitized (s : string) :
  match non_empty s with Some s' => String.eqb s' "" | None => false end = false.
Proof.
  unfold non_empty. destruct (String.eqb s "") eqn:E; [reflexivity|exact E].
Qed.

Lemma audit_log_sanitized (action resourceId user : string) (details : AuditDetails) :
  emits_only sanitized (audit_log action resourceId user details).
Proof.
  apply emits_emit. cbn [sanitized resource_id user_id].
  rewrite !non_empty_sanitized. reflexivity.
Qed.

Lemma audit_log_emits q (action resourceId user : string) (details : AuditDetails) :
  (forall row, q (AuditLogged row) = true) ->
  emits_only q (audit_log action resourceId user details).
Proof. intros H. apply emits_emit. apply H. Qed.

(** Decompose a pipeline computation into its statements. *)
Ltac emits_step :=
  first
    [ apply emits_ret
    | apply emits_throw
    | apply emits_lift
    | apply emits_read_metadata
    | apply emits_assign_metadata
    | apply audit_log_sanitized
    | apply audit_log_emits; intros ?; reflexivity
    | apply emits_emit; reflexivity
    | apply emits_bind; [|intros ?]
    | apply emits_catch; [|intros ?]
    | match goal with
      | |- emits_only _ (match ?x with _ => _ end) => destruct x
      end ].

Lemma generateFileMetadata_emits q (P : Platform) (B : Backend) (file : File) :
  emits_only q (generateFileMetadata P B file).
Proof. unfold generateFileMetadata. repeat emits_step. Qed.

Lemma handler_stops q (hooks : LifecycleHooks) (file : File) (error : string) :
  (forall hook, q (HookCalled hook) = true) ->
  (forall row, q (AuditLogged row) = true) ->
  stops (A := FileUploadResult) q
    (match onError hooks with
     | Some hook =>
         emit (HookCalled "onError") ;; lift (hook error "upload_pipeline")
     | None => ret tt
     end ;;
     metadata <- read_metadata ;;
     audit_log "file_upload_error" "" (user_or_unknown metadata)
               (ErrorDetails error (name file)) ;;
     throw error).
Proof.
  intros Hh Ha.
  apply stops_bind_r.
  - destruct (onError hooks); [|apply emits_ret].
    apply emits_bind; [apply emits_emit; apply Hh|intros ?; apply emits_lift].
  - intros _. apply stops_bind_r; [apply emits_read_metadata|]. intros md.
    apply stops_bind_r; [apply audit_log_emits; exact Ha|]. intros _.
    apply stops_throw.
Qed.

(** *** A successful upload *)

Lemma security_scanning_returns_clean (P : Platform) hooks securityConfig file
      options metadata :
  returns (fun _ scanResult =>
             forall r, scanResult = Some r -> SecurityScanner.isClean r = true)
          (security_scanning P hooks securityConfig file options metadata).
Proof.
  unfold security_scanning.
  destruct (requireScan options);
    [|apply returns_ret; intros run r H; discriminate].
  destruct (beforeScan hooks) as [hook|];
    [|apply returns_ret; intros run r H; discriminate].
  apply returns_bind_any. intros _.
  apply returns_bind_any. intros [|];
    [|apply returns_ret; intros run r H; discriminate].
  apply returns_bind_any. intros scanResult.
  apply returns_bind_any. intros _.
  destruct (SecurityScanner.isClean scanResult) eqn:Hclean; cbn [negb].
  - apply returns_ret. intros run r H. injection H as <-. exact Hclean.
  - apply returns_bind_any. intros _. apply returns_throw.
Qed.

(** X22: what a successful upload looks like.  When [uploadFile]
    returns, the status of the result is approved or pending and never
    rejected; it is approved exactly when the result carries a scan, and
    that scan is clean; the expiry is the time of the call plus
    [expiryHours] hours; and the last event of the call is the
    [file_upload_success] audit row. *)
Theorem successful_upload (P : Platform) (B : Backend) (hooks : LifecycleHooks)
        (securityConfig : option SecurityScanner.SecurityScanConfig)
        (file : File) (options : BackendUploadOptions)
        (run run' : Run) (result : FileUploadResult) :
  uploadFile P B hooks securityConfig file options run = (run', Ok result) ->
  (status result = "approved" \/ status result = "pending")
  /\ (status result = "approved" <-> securityScan result <> None)
  /\ (forall r, securityScan result = Some r -> SecurityScanner.isClean r = true)
  /\ expiresAt result = (date_now P + expiryHours options * 60 * 60 * 1000)%Z
  /\ is_success_row (last_event (trace run')).
Proof.
  revert run run' result.
  change (returns
            (fun run' result =>
               (status result = "approved" \/ status result = "pending")
               /\ (status result = "approved" <-> securityScan result <> None)
               /\ (forall r, securityScan result = Some r ->
                              SecurityScanner.isClean r = true)
               /\ expiresAt result
                  = (date_now P + expiryHours options * 60 * 60 * 1000)%Z
               /\ is_success_row (last_event (trace run')))
            (uploadFile P B hooks securityConfig file options)).
  unfold uploadFile. apply returns_catch; [|apply handler_returns_nothing].
  unfold uploadFile_try. cbv zeta.
  do 5 (apply returns_bind_any; intros ?).
  eapply returns_bind; [apply security_scanning_returns_clean|].
  intros scanResult [_ Hscan].
  do 9 (apply returns_bind_any; intros ?).
  intros run0 run1 result E.
  unfold bind, audit_log, emit, ret in E. injection E as <- <-.
  cbn [status securityScan expiresAt trace].
  rewrite last_event_push.
  split; [|split; [|split; [|split]]].
  - destruct scanResult as [r|]; [|right; reflexivity].
    rewrite (Hscan r eq_refl). left. reflexivity.
  - destruct scanResult as [r|].
    + rewrite (Hscan r eq_refl). split; [discriminate|reflexivity].
    + split; [discriminate|]. intros H. contradiction.
  - exact Hscan.
  - reflexivity.
  - eexists. split; reflexivity.
Qed.

Lemma successful_upload_witness :
  exists run' result,
    uploadFile Examples.platform Examples.backend always_scan
               (Some SecurityScanner.MODERATE) Examples.hello_txt
               default_options start = (run', Ok result)
    /\ status result = "approved"
    /\ (forall r, securityScan result = Some r -> SecurityScanner.isClean r = true)
    /\ expiresAt result = 259200000%Z.
Proof.
  eexists. eexists. split; [vm_compute; reflexivity|].
  destruct (successful_upload Examples.platform Examples.backend always_scan
              (Some SecurityScanner.MODERATE) Examples.hello_txt
              default_options start _ _ eq_refl) as (_ & H2 & H3 & H4 & _).
  split; [apply H2; discriminate|]. split; [exact H3|exact H4].
Defined.

(** *** A failed upload *)

Lemma user_or_unknown_non_empty (metadata : option FileMetadata) :
  user_or_unknown metadata <> "".
Proof.
  unfold user_or_unknown. destruct metadata as [md|]; [|discriminate].
  destruct (String.eqb_spec (userId md) ""); [discriminate|assumption].
Qed.

(** X23: a failed upload is audited and its error is passed on.  When
    the [try] block of [uploadFile] throws and the [onError] hook, if one
    is registered, returns, then [uploadFile] throws the same error, and
    the last event of the call is the [file_upload_error] audit row, which
    carries that error, the name of the file and a user that is never
    empty (the user of the metadata or "unknown"). *)
Theorem failed_upload_is_audited (P : Platform) (B : Backend) (hooks : LifecycleHooks)
        (securityConfig : option SecurityScanner.SecurityScanConfig)
        (file : File) (options : BackendUploadOptions) (run : Run) (e : string) :
  snd (uploadFile_try P B hooks securityConfig file options run) = Throw e ->
  (forall hook, onError hooks = Some hook -> hook e "upload_pipeline" = Ok tt) ->
  snd (uploadFile P B hooks securityConfig file options run) = Throw e /\
  exists user,
    user <> "" /\
    last_event (trace (fst (uploadFile P B hooks securityConfig file options run)))
    = Some (error_row user e (name file)).
Proof.
  intros Htry Hhook. unfold uploadFile, catch.
  destruct (uploadFile_try P B hooks securityConfig file options run)
    as [run1 [a|e1]]; cbn [snd] in Htry; [discriminate|].
  injection Htry as ->.
  destruct (onError hooks) as [hook|].
  - unfold bind, lift, audit_log, emit, read_metadata, throw.
    rewrite (Hhook hook eq_refl). cbn [fst snd trace metadata].
    split; [reflexivity|].
    exists (user_or_unknown (metadata run1)).
    split; [apply user_or_unknown_non_empty|].
    rewrite last_event_push. reflexivity.
  - unfold bind, ret, read_metadata, audit_log, emit, throw.
    cbn [fst snd trace metadata].
    split; [reflexivity|].
    exists (user_or_unknown (metadata run1)).
    split; [apply user_or_unknown_non_empty|].
    rewrite last_event_push. reflexivity.
Qed.

Lemma failed_upload_is_audited_witness :
  snd (uploadFile Examples.platform Examples.backend observing_hooks
                  (Some SecurityScanner.MODERATE) Examples.nameless
                  default_options start)
  = Throw "File validation failed: File name is required".
Proof.
  apply (failed_upload_is_audited Examples.platform Examples.backend observing_hooks
           (Some SecurityScanner.MODERATE) Examples.nameless default_options start).
  - vm_compute. reflexivity.
  - intros hook H. injection H as <-. reflexivity.
Defined.

(** X24: a failing [onError] hook hides the failure.  When the [try]
    block of [uploadFile] throws and the [onError] hook throws in turn,
    [uploadFile] throws the error of the hook instead of the error of the
    upload, and the call of the hook is the last event: no
    [file_upload_error] audit row is written. *)
Theorem failing_onError_hook_hides_the_error
        (P : Platform) (B : Backend) (hooks : LifecycleHooks)
        (securityConfig : option SecurityScanner.SecurityScanConfig)
        (file : File) (options : BackendUploadOptions) (run : Run)
        (hook : string -> string -> Exc unit) (e e' : string) :
  snd (uploadFile_try P B hooks securityConfig file options run) = Throw e ->
  onError hooks = Some hook ->
  hook e "upload_pipeline" = Throw e' ->
  snd (uploadFile P B hooks securityConfig file options run) = Throw e' /\
  trace (fst (uploadFile P B hooks securityConfig file options run))
  = JS.push (trace (fst (uploadFile_try P B hooks securityConfig file options run)))
            (HookCalled "onError").
Proof.
  intros Htry Hhook Hthrows. unfold uploadFile, catch.
  destruct (uploadFile_try P B hooks securityConfig file options run)
    as [run1 [a|e1]]; cbn [snd] in Htry; [discriminate|].
  injection Htry as ->. rewrite Hhook.
  unfold bind, emit, lift. rewrite Hthrows. split; reflexivity.
Qed.

Lemma failing_onError_hook_hides_the_error_witness :
  snd (uploadFile Examples.platform Examples.backend failing_error_hook
                  (Some SecurityScanner.MODERATE) Examples.nameless
                  default_options start)
  = Throw "hook failed".
Proof.
  apply (failing_onError_hook_hides_the_error
           Examples.platform Examples.backend failing_error_hook
           (Some SecurityScanner.MODERATE) Examples.nameless default_options start
           (fun _ _ => Throw "hook failed")
           "File validation failed: File name is required" "hook failed").
  - vm_compute. reflexivity.
  - reflexivity.
  - reflexivity.
Defined.

(** *** What is refused before storage *)

Lemma stops_bind_ok {A B} q (a : A) (k : A -> M B) :
  stops q (k a) -> stops q (bind (lift (Ok a)) k).
Proof. intros H run. exact (H run). Qed.

Lemma stops_bind_returns {A B} q (R : Run -> A -> Prop) (m : M A) (k : A -> M B) :
  emits_only q m -> returns R m -> (forall a run, R run a -> stops q (k a)) ->
  stops q (bind m k).
Proof.
  intros Hm Hr Hk run. unfold bind. specialize (Hm run).
  destruct (m run) as [run' [a|e]] eqn:E; cbn [fst snd] in *.
  - destruct (Hk a run' (Hr run run' a E) run') as [Hthrow Hq].
    split; [exact Hthrow|]. intros H. apply Hq. apply Hm. exact H.
  - split; [exists e; reflexivity|exact Hm].
Qed.



(** The two refusals in full. *)
Example refused_uploads :
  uploadFile Examples.platform signed_out no_hooks (Some SecurityScanner.MODERATE)
             Examples.hello_txt default_options start
  = (mkRun [error_row "unknown" "User not authenticated" "a.txt"] None,
     Throw "User not authenticated")
  /\ List.map (fun ev => match ev with
                         | AuditLogged row => action row
                         | _ => ""
                         end)
              (trace (fst (uploadFile Examples.platform Examples.backend no_hooks
                                      (Some SecurityScanner.MODERATE)
                                      Examples.nameless default_options start)))
     = ["file_upload_rejected"; "file_upload_error"].
Proof. split; vm_compute; reflexivity. Qed.

(** *** The verdict of the scanner *)

Section Scanned.
Context (P : Platform) (B : Backend) (hooks : LifecycleHooks)
        (securityConfig : option SecurityScanner.SecurityScanConfig)
        (file : File) (options : BackendUploadOptions)
        (hook : File -> Exc bool) (r : SecurityScanner.SecurityScanResult).
Hypothesis (Hrequired : requireScan options = true)
           (Hhook : beforeScan hooks = Some hook)
           (Hconsent : hook file = Ok true)
           (Hverdict : SecurityScanner.scanFile P securityConfig file = Ok r).

Lemma run_scanner_returns_verdict :
  returns (fun _ a => a = r) (run_scanner P securityConfig file).
Proof.
  intros run run' a E. unfold run_scanner, bind, emit, lift in E.
  rewrite Hverdict in E. injection E as _ <-. reflexivity.
Qed.

Lemma security_scanning_returns_verdict (md : FileMetadata) :
  returns (fun _ scanResult => scanResult = Some r)
          (security_scanning P hooks securityConfig file options md).
Proof.
  unfold security_scanning. rewrite Hrequired, Hhook.
  apply returns_bind_any. intros _.
  rewrite Hconsent. intros run run' a E.
  change (bind (lift (Ok true)) ?k run) with (k true run) in E.
  cbv beta iota in E. revert run run' a E.
  change (returns (fun _ scanResult => scanResult = Some r)
            (scanResult <- run_scanner P securityConfig file ;;
             match afterScan hooks with
             | Some hook0 =>
                 emit (HookCalled "afterScan") ;; lift (hook0 file scanResult)
             | None => ret tt
             end ;;
             (if negb (SecurityScanner.isClean scanResult)
              then
                audit_log "security_threat_detected" "" (userId md)
                  (ThreatDetails (name file) (SecurityScanner.threats scanResult)
                     (SecurityScanner.scanTime scanResult)
                     (SecurityScanner.confidence scanResult)) ;;
                throw "Security scan failed: File contains threats"
              else ret (Some scanResult)))).
  eapply returns_bind; [apply run_scanner_returns_verdict|].
  intros a [_ ->]. apply returns_bind_any. intros _.
  destruct (negb (SecurityScanner.isClean r)).
  - apply returns_bind_any. intros _. apply returns_throw.
  - apply returns_ret. reflexivity.
Qed.

Lemma security_scanning_stops_unclean (md : FileMetadata) :
  SecurityScanner.isClean r = false ->
  stops not_persisting (security_scanning P hooks securityConfig file options md).
Proof.
  intros Hunclean. unfold security_scanning. rewrite Hrequired, Hhook.
  apply stops_bind_r; [apply emits_emit; reflexivity|]. intros _.
  rewrite Hconsent. apply stops_bind_ok.
  apply (stops_bind_returns _ (fun _ a => a = r)).
  - unfold run_scanner. repeat emits_step.
  - apply run_scanner_returns_verdict.
  - intros a _ ->.
    apply stops_bind_r; [repeat emits_step|]. intros _.
    rewrite Hunclean. cbn [negb].
    apply stops_bind_r; [apply audit_log_emits; intros ?; reflexivity|]. intros _.
    apply stops_throw.
Qed.

End Scanned.

(** X26: an unclean scan blocks the upload.  When scanning is required,
    the [beforeScan] hook consents and the scanner finds the file unclean,
    [uploadFile] throws, and it stores nothing and creates no record, for
    every file, whatever the other hooks, the storage and the database
    do. *)
Theorem unclean_scan_blocks_storage
        (P : Platform) (B : Backend) (hooks : LifecycleHooks)
        (securityConfig : option SecurityScanner.SecurityScanConfig)
        (file : File) (options : BackendUploadOptions)
        (hook : File -> Exc bool) (r : SecurityScanner.SecurityScanResult) :
  requireScan options = true ->
  beforeScan hooks = Some hook ->
  hook file = Ok true ->
  SecurityScanner.scanFile P securityConfig file = Ok r ->
  SecurityScanner.isClean r = false ->
  stops not_persisting (uploadFile P B hooks securityConfig file options).
Proof.
  intros Hrequired Hhook Hconsent Hverdict Hunclean. unfold uploadFile.
  apply stops_catch;
    [|intros e; apply handler_stops; intros ?; reflexivity].
  unfold uploadFile_try. cbv zeta.
  apply stops_bind_r; [apply generateFileMetadata_emits|]. intros md.
  apply stops_bind_r; [apply emits_assign_metadata|]. intros _.
  apply stops_bind_r; [repeat emits_step|]. intros _.
  apply stops_bind_r; [repeat emits_step|]. intros _.
  apply stops_bind_r; [repeat emits_step|]. intros _.
  apply stops_bind_l.
  apply (security_scanning_stops_unclean P hooks securityConfig file options hook r);
    assumption.
Qed.

Lemma unclean_scan_blocks_storage_witness :
  (exists e,
      snd (uploadFile Examples.platform Examples.backend always_scan
                      (Some SecurityScanner.STRICT) Examples.hello_txt
                      default_options start) = Throw e)
  /\ (List.forallb not_persisting (trace start) = true ->
      List.forallb not_persisting
        (trace (fst (uploadFile Examples.platform Examples.backend always_scan
                                (Some SecurityScanner.STRICT) Examples.hello_txt
                                default_options start))) = true).
Proof.
  refine (unclean_scan_blocks_storage
            Examples.platform Examples.backend always_scan
            (Some SecurityScanner.STRICT) Examples.hello_txt default_options
            (fun _ => Ok true) _ _ _ _ _ _ start).
  - reflexivity.
  - reflexivity.
  - reflexivity.
  - vm_compute. reflexivity.
  - reflexivity.
Defined.

(** The same upload in full: a valid text file, scanned under the strict
    configuration, is refused after the scan. *)
Example unclean_upload_is_refused :
  let '(run, outcome) :=
    uploadFile Examples.platform Examples.backend always_scan
               (Some SecurityScanner.STRICT) Examples.hello_txt
               default_options start in
  outcome = Throw "Security scan failed: File contains threats" /\
  scans_run (trace run) = 1%nat /\
  List.forallb not_persisting (trace run) = true.
Proof. vm_compute. repeat split. Qed.

(** X27: a scanned upload carries the verdict of the scanner.  When
    scanning is required and the [beforeScan] hook consents, every result
    that [uploadFile] returns carries the result of [scanFile] on the
    file, that result is clean, and the status is approved. *)
Theorem scanned_upload_carries_verdict
        (P : Platform) (B : Backend) (hooks : LifecycleHooks)
        (securityConfig : option SecurityScanner.SecurityScanConfig)
        (file : File) (options : BackendUploadOptions)
        (hook : File -> Exc bool) (r : SecurityScanner.SecurityScanResult)
        (run run' : Run) (result : FileUploadResult) :
  requireScan options = true ->
  beforeScan hooks = Some hook ->
  hook file = Ok true ->
  SecurityScanner.scanFile P securityConfig file = Ok r ->
  uploadFile P B hooks securityConfig file options run = (run', Ok result) ->
  securityScan result = Some r /\
  SecurityScanner.isClean r = true /\
  status result = "approved".
Proof.
  intros Hrequired Hhook Hconsent Hverdict. revert run run' result.
  change (returns
            (fun _ result =>
               securityScan result = Some r /\
               SecurityScanner.isClean r = true /\
               status result = "approved")
            (uploadFile P B hooks securityConfig file options)).
  unfold uploadFile. apply returns_catch; [|apply handler_returns_nothing].
  unfold uploadFile_try. cbv zeta.
  do 5 (apply returns_bind_any; intros ?).
  apply (returns_bind
           (fun _ scanResult =>
              scanResult = Some r /\
              forall r', scanResult = Some r' -> SecurityScanner.isClean r' = true)).
  { intros run0 run1 scanned E. split.
    - exact (security_scanning_returns_verdict P hooks securityConfig file options
               hook r Hrequired Hhook Hconsent Hverdict _ run0 run1 scanned E).
    - exact (security_scanning_returns_clean P hooks securityConfig file options
               _ run0 run1 scanned E). }
  intros scanResult [_ [-> Hclean]].
  do 10 (apply returns_bind_any; intros ?).
  apply returns_ret. intros _. cbn [securityScan status].
  rewrite (Hclean r eq_refl). repeat split.
Qed.

Lemma scanned_upload_carries_verdict_witness :
  exists r run' result,
    SecurityScanner.scanFile Examples.platform (Some SecurityScanner.MODERATE)
                             Examples.hello_txt = Ok r
    /\ uploadFile Examples.platform Examples.backend always_scan
                  (Some SecurityScanner.MODERATE) Examples.hello_txt
                  default_options start = (run', Ok result)
    /\ securityScan result = Some r.
Proof.
  eexists. eexists. eexists.
  split; [vm_compute; reflexivity|].
  split; [vm_compute; reflexivity|].
  eapply (scanned_upload_carries_verdict
            Examples.platform Examples.backend always_scan
            (Some SecurityScanner.MODERATE) Examples.hello_txt default_options
            (fun _ => Ok true) _ start).
  - reflexivity.
  - reflexivity.
  - reflexivity.
  - vm_compute. reflexivity.
  - vm_compute. reflexivity.
Defined.

(** *** The names under which a file is stored *)

Lemma join_split (sep : ascii) (s : string) :
  JS.join (String sep "") (JS.split sep s) = s.
Proof.
  induction s as [|c s IH]; [reflexivity|].
  cbn [JS.split]. pose proof (split_not_nil sep s) as Hne.
  destruct (Ascii.eqb_spec c sep) as [->|_];
    destruct (JS.split sep s) as [|h t]; try contradiction.
  - change (JS.join (String sep "") ("" :: h :: t))
      with (String sep (JS.join (String sep "") (h :: t))).
    rewrite IH. reflexivity.
  - destruct t as [|h' t].
    + cbn [JS.join] in *. rewrite IH. reflexivity.
    + change (JS.join (String sep "") (String c h :: h' :: t))
        with (String c (JS.join (String sep "") (h :: h' :: t))).
      rewrite IH. reflexivity.
Qed.

Lemma split_with_extension (base ext : string) :
  has_char "." ext = false ->
  JS.split "." (base ++ "." ++ ext) = (JS.split "." base ++ [ext])%list.
Proof.
  intros H. change (base ++ "." ++ ext) with (base ++ String "." ext).
  rewrite split_app, (split_without_sep _ _ H). reflexivity.
Qed.

Lemma strip_extension_removes_it (base ext : string) :
  has_char "." ext = false -> ext <> "" -> JS.includes ext "/" = false ->
  strip_extension (base ++ "." ++ ext) = base.
Proof.
  intros Hdot Hne Hslash. unfold strip_extension. cbv zeta.
  rewrite (split_with_extension _ _ Hdot).
  rewrite pop_app by discriminate. change (JS.pop [ext]) with ext.
  rewrite List.removelast_last, join_split, Hslash.
  pose proof (split_not_nil "." base) as Hparts.
  rewrite List.length_app. cbn [List.length].
  destruct (JS.split "." base) as [|h t]; [contradiction|].
  destruct (String.eqb_spec ext ""); [contradiction|].
  cbn [List.length]. replace (1 <? S (List.length t) + 1)%nat with true; [reflexivity|].
  symmetry. apply Nat.ltb_lt. lia.
Qed.

Lemma strip_extension_without_dot (filename : string) :
  has_char "." filename = false -> strip_extension filename = filename.
Proof.
  intros H. unfold strip_extension. rewrite (split_without_sep _ _ H). reflexivity.
Qed.

(** X28: the names under which a file is stored.  For a file name
    [base.ext] whose extension is not empty and holds no dot and no slash,
    [generateUniqueFilename] answers [base-timestamp-random.ext] and
    [generateFilePath] answers [user/timestamp-random.ext], so the name
    the user chose reaches the storage path through its extension only.
    A file name without a dot is taken as its own extension: the unique
    name is [name-timestamp-random.name] and the path ends in [.name]. *)
Theorem stored_names (timestamp : Z) (randomId userId base ext filename : string) :
  has_char "." ext = false -> ext <> "" -> JS.includes ext "/" = false ->
  has_char "." filename = false ->
  let stamp := JS.string_of_N (Z.to_N timestamp) in
  generateUniqueFilename timestamp randomId (base ++ "." ++ ext)
  = base ++ "-" ++ stamp ++ "-" ++ randomId ++ "." ++ ext
  /\ generateFilePath timestamp randomId userId (base ++ "." ++ ext)
     = userId ++ "/" ++ stamp ++ "-" ++ randomId ++ "." ++ ext
  /\ generateUniqueFilename timestamp randomId filename
     = filename ++ "-" ++ stamp ++ "-" ++ randomId ++ "." ++ filename
  /\ generateFilePath timestamp randomId userId filename
     = userId ++ "/" ++ stamp ++ "-" ++ randomId ++ "." ++ filename.
Proof.
  intros Hdot Hne Hslash Hplain stamp. subst stamp.
  unfold generateUniqueFilename, generateFilePath. cbv zeta.
  rewrite (strip_extension_removes_it _ _ Hdot Hne Hslash).
  rewrite (strip_extension_without_dot _ Hplain).
  rewrite (split_with_extension _ _ Hdot), (split_without_sep _ _ Hplain).
  rewrite pop_app by discriminate.
  repeat split; reflexivity.
Qed.

Lemma stored_names_witness :
  generateUniqueFilename 1700000000000 "k3x" "report.final.pdf"
  = "report.final-1700000000000-k3x.pdf"
  /\ generateFilePath 1700000000000 "k3x" "user-1" "report.final.pdf"
     = "user-1/1700000000000-k3x.pdf"
  /\ generateUniqueFilename 1700000000000 "k3x" "Makefile"
     = "Makefile-1700000000000-k3x.Makefile"
  /\ generateFilePath 1700000000000 "k3x" "user-1" "Makefile"
     = "user-1/1700000000000-k3x.Makefile".
Proof.
  apply (stored_names 1700000000000 "k3x" "user-1" "report.final" "pdf" "Makefile").
  - reflexivity.
  - discriminate.
  - reflexivity.
  - reflexivity.
Defined.

End MorePipelineSpec.
